(** * Style profiler (python-ml-service/services/style_profiler.py)

    A shallow embedding of [StyleProfiler]: feature extraction, cluster
    analysis, style naming, portfolio statistics and the profile store
    ([create_profile], [update_profile], [get_profile]).

    Conventions.
    - Python dictionaries whose iteration order is observable
      ([categorical_values], the per-attribute value counters) are
      insertion-ordered association lists; dictionaries that are only
      looked up are [gmap]s.
    - Python floats are exact rationals ([Qc]); a NaN (mean of an empty
      array) is [None].
    - scikit-learn, numpy's [argsort] and the random generators are not part
      of this repository: they are the fields of the class [Sklearn].  A
      library call that raises returns [None].
    - The callers are main.py, whose request model admits only dictionaries
      for a record's attributes, colours and style, and main_minimal.py,
      whose request model passes [None] for each of them that a request
      leaves out.
    - The profiler's mutable state (profile cache, the two joblib files per
      user, numpy's global generator, the clock) and a trace of what ran are
      the record [world]; an operation is a function
      [world -> result * world]. *)

From Stdlib Require Import ZArith QArith Qcanon String Ascii List Lia.
From stdpp Require Import base option list gmap strings pretty sorting.

Open Scope string_scope.

(** ** Python string primitives (ASCII)

    Strings are byte strings here and only the letters a-z and A-Z are
    cased; Python's [str.lower] and [str.title] also case the letters beyond
    ASCII. *)
Module PyStr.

Definition is_upper (c : ascii) : bool :=
  let n := nat_of_ascii c in (65 <=? n)%nat && (n <=? 90)%nat.

Definition is_lower (c : ascii) : bool :=
  let n := nat_of_ascii c in (97 <=? n)%nat && (n <=? 122)%nat.

Definition to_lower (c : ascii) : ascii :=
  if is_upper c then ascii_of_nat (nat_of_ascii c + 32) else c.

Definition to_upper (c : ascii) : ascii :=
  if is_lower c then ascii_of_nat (nat_of_ascii c - 32) else c.

(** [s.lower()] *)
Fixpoint lower (s : string) : string :=
  match s with
  | EmptyString => EmptyString
  | String c s' => String (to_lower c) (lower s')
  end.

(** [s.title()]: a cased character is upper-cased when the previous
    character is uncased, lower-cased otherwise. *)
Fixpoint title_from (previous_is_cased : bool) (s : string) : string :=
  match s with
  | EmptyString => EmptyString
  | String c s' =>
      if is_lower c then
        String (if previous_is_cased then c else to_upper c) (title_from true s')
      else if is_upper c then
        String (if previous_is_cased then to_lower c else c) (title_from true s')
      else String c (title_from false s')
  end.

Definition title (s : string) : string := title_from false s.

(** [needle in hay] on strings: [needle] occurs as a contiguous substring. *)
Fixpoint contains (needle hay : string) : bool :=
  String.prefix needle hay ||
  match hay with
  | EmptyString => false
  | String _ hay' => contains needle hay'
  end.

(** [sep.join(parts)] *)
Fixpoint join (sep : string) (parts : list string) : string :=
  match parts with
  | [] => ""
  | [p] => p
  | p :: rest => p +:+ sep +:+ join sep rest
  end.

(** [x in [a, b, ...]] for a list of strings *)
Definition elem (x : string) (l : list string) : bool :=
  existsb (String.eqb x) l.

End PyStr.

Notation "a 'in_str' b" := (PyStr.contains a b) (at level 35, no associativity).

(** ** Cluster naming: [_summarize_cluster_style] *)

(** [dominant_attrs]: attribute name -> (most common value, its count). *)
Abbreviation dominant := (gmap string (string * nat)).

(** [dominant_attrs.get(k, ['unknown', 0])[0].lower() if k in dominant_attrs
    else 'unknown'] *)
Definition dominant_value (dominant_attrs : dominant) (k : string) : string :=
  match dominant_attrs !! k with
  | Some (v, _) => PyStr.lower v
  | None => "unknown"
  end.

(** Which [return] of [_summarize_cluster_style] produced the name. *)
Inductive name_branch :=
| Archetype       (* one of the seven [if]/[elif] returns *)
| JoinedParts     (* [" ".join(style_parts[:2])] *)
| SinglePart      (* [style_parts[0]] *)
| Placeholder.    (* ["Mixed Style"] *)

Definition archetype_names : list string :=
  [ "Minimalist Tailoring"; "Fluid Evening"; "Experimental Edge"; "Sporty Chic";
    "Romantic Bohemian"; "Urban Contemporary"; "Classic Refined" ].

Section Summary.
Variable dominant_attrs : dominant.

Let overall_style := dominant_value dominant_attrs "style_overall".
Let aesthetic := dominant_value dominant_attrs "style_aesthetic".
Let silhouette := dominant_value dominant_attrs "silhouette".
Let color := dominant_value dominant_attrs "color".
Let fabrication := dominant_value dominant_attrs "fabrication".
Let formality := dominant_value dominant_attrs "style_formality".

(** The [if]/[elif] chain, in source order. *)
Definition match_archetype : option string :=
  if "minimalist" in_str aesthetic || "clean" in_str aesthetic ||
     "structured" in_str silhouette || "tailored" in_str silhouette ||
     "professional" in_str overall_style || "formal" in_str formality ||
     "wool" in_str fabrication || "suiting" in_str fabrication
  then Some "Minimalist Tailoring"
  else if "elegant" in_str aesthetic || "sophisticated" in_str aesthetic ||
     "fluid" in_str silhouette || "flowing" in_str silhouette ||
     "a-line" in_str silhouette ||
     "evening" in_str overall_style || "formal" in_str overall_style ||
     "silk" in_str fabrication || "charmeuse" in_str fabrication ||
     "glossy" in_str color
  then Some "Fluid Evening"
  else if "experimental" in_str aesthetic || "avant" in_str aesthetic ||
     "edgy" in_str aesthetic ||
     "deconstructed" in_str silhouette || "asymmetric" in_str silhouette ||
     "technical" in_str fabrication || "innovative" in_str fabrication ||
     "unconventional" in_str overall_style
  then Some "Experimental Edge"
  else if "sporty" in_str aesthetic || "athletic" in_str aesthetic ||
     "casual" in_str aesthetic ||
     "relaxed" in_str silhouette || "loose" in_str silhouette ||
     "sporty" in_str overall_style || "casual" in_str overall_style ||
     "jersey" in_str fabrication || "knit" in_str fabrication
  then Some "Sporty Chic"
  else if "romantic" in_str aesthetic || "bohemian" in_str aesthetic ||
     "feminine" in_str aesthetic ||
     "flowing" in_str silhouette || "draped" in_str silhouette ||
     "boho" in_str overall_style || "artistic" in_str overall_style ||
     "chiffon" in_str fabrication || "lace" in_str fabrication
  then Some "Romantic Bohemian"
  else if "contemporary" in_str aesthetic || "modern" in_str aesthetic ||
     "urban" in_str aesthetic ||
     "versatile" in_str overall_style || "smart-casual" in_str overall_style ||
     "cotton" in_str fabrication || "denim" in_str fabrication
  then Some "Urban Contemporary"
  else if "classic" in_str aesthetic || "refined" in_str aesthetic ||
     "traditional" in_str aesthetic ||
     "fitted" in_str silhouette || "traditional" in_str silhouette ||
     "business" in_str overall_style || "polished" in_str overall_style
  then Some "Classic Refined"
  else None.

(** The first [style_parts.append] of the fallback. *)
Definition first_part : string :=
  if negb (String.eqb aesthetic "unknown") then PyStr.title aesthetic
  else if negb (String.eqb overall_style "unknown") then PyStr.title overall_style
  else "Contemporary".

(** The second [style_parts.append] of the fallback. *)
Definition second_part : string :=
  if negb (String.eqb silhouette "unknown") &&
     PyStr.elem silhouette ["tailored"; "structured"] then "Tailoring"
  else if negb (String.eqb silhouette "unknown") &&
     PyStr.elem silhouette ["fluid"; "flowing"; "draped"] then "Flow"
  else if negb (String.eqb fabrication "unknown") then PyStr.title fabrication
  else "Mix".

(** [style_parts] as it stands at the final [return]. *)
Definition style_parts : list string := [] ++ [first_part] ++ [second_part].

(** The final [return] of the fallback, with the branch it takes. *)
Definition fallback_name : name_branch * string :=
  if (2 <=? length style_parts)%nat
  then (JoinedParts, PyStr.join " " (take 2 style_parts))
  else match style_parts with
       | p :: _ => (SinglePart, p)
       | [] => (Placeholder, "Mixed Style")
       end.

Definition summarize_with_branch : name_branch * string :=
  match match_archetype with
  | Some name => (Archetype, name)
  | None => fallback_name
  end.

Definition _summarize_cluster_style : string := snd summarize_with_branch.
End Summary.

(** ** VLT records *)

(** One analysed garment, as the dictionary the service passes in.  Every
    key may be missing, which is [None] here; the three nested dictionaries
    map field names to free-form strings.  A key that is present with
    Python's value [None] is not a [vlt_record]: the records that can carry
    one are in [AnyDict] below. *)
Record vlt_record := {
  record_id : option string;                  (* 'id' *)
  imageId : option string;                    (* 'imageId' *)
  garment_type : option string;               (* 'garment_type' *)
  attributes : option (gmap string string);   (* 'attributes' *)
  colors : option (gmap string string);       (* 'colors' *)
  style : option (gmap string string)         (* 'style' *)
}.

(** [record.get('attributes', {})] and its two siblings *)
Definition attrs_of (r : vlt_record) : gmap string string := default ∅ (attributes r).
Definition colors_of (r : vlt_record) : gmap string string := default ∅ (colors r).
Definition style_of (r : vlt_record) : gmap string string := default ∅ (style r).

(** A float matrix, row by row.  [np.array([])] is the empty list. *)
Abbreviation matrix := (list (list Qc)).

(** ** Feature extraction: [_extract_features] *)

Definition attribute_keys : list string :=
  ["silhouette"; "neckline"; "sleeveLength"; "length"; "waistline"; "fabrication"].

Definition style_keys : list string := ["overall"; "formality"; "aesthetic"; "mood"].

(** [categorical_values = defaultdict(set)]: keys in order of first
    insertion. *)
Abbreviation categorical := (list (string * gset string)).

(** [categorical_values[key].add(value)] *)
Fixpoint cat_add (key value : string) (d : categorical) : categorical :=
  match d with
  | [] => [(key, {[ value ]})]
  | (k, s) :: d' =>
      if String.eqb k key then (k, s ∪ {[ value ]}) :: d'
      else (k, s) :: cat_add key value d'
  end.

(** [if key in src: categorical_values[name].add(src[key])] *)
Definition cat_collect (src : gmap string string) (key name : string)
    (d : categorical) : categorical :=
  match src !! key with
  | Some v => cat_add name v d
  | None => d
  end.

(** The body of the first loop of [_extract_features], for one record. *)
Definition collect_record (d : categorical) (r : vlt_record) : categorical :=
  let d := foldl (fun d key => cat_collect (attrs_of r) key key d) d attribute_keys in
  let d := cat_collect (colors_of r) "primary" "primary_color" d in
  let d := cat_collect (colors_of r) "finish" "finish" d in
  foldl (fun d key => cat_collect (style_of r) key key d) d style_keys.

Definition categorical_values (vlt_records : list vlt_record) : categorical :=
  foldl collect_record [] vlt_records.

(** [sorted(values)] for a set of strings: ascending, by character code. *)
Definition str_le (a b : string) : Prop := String.leb a b = true.

#[global] Instance str_le_dec : RelDecision str_le.
Proof. intros a b. unfold str_le. apply _. Defined.

Definition sorted (values : gset string) : list string :=
  merge_sort str_le (elements values).

(** [key.split('_')[0]] *)
Fixpoint before_underscore (s : string) : string :=
  match s with
  | EmptyString => EmptyString
  | String c s' => if Ascii.eqb c "_"%char then EmptyString
                   else String c (before_underscore s')
  end.

(** [1.0 if src.get(key) == value else 0.0] *)
Definition indicator (src : gmap string string) (key value : string) : Qc :=
  if bool_decide (src !! key = Some value) then 1%Qc else 0%Qc.

(** One entry of a feature vector: the [if]/[elif] chain of the second
    loop. *)
Definition one_hot (r : vlt_record) (key value : string) : Qc :=
  if PyStr.elem key attribute_keys then indicator (attrs_of r) key value
  else if String.eqb key "primary_color" then indicator (colors_of r) "primary" value
  else if String.eqb key "finish" then indicator (colors_of r) "finish" value
  else indicator (style_of r)
         (if "_" in_str key then before_underscore key else key) value.

(** The columns, in the order the nested loops over
    [categorical_values.items()] and [sorted(values)] visit them. *)
Definition columns (cats : categorical) : list (string * string) :=
  flat_map (fun '(key, values) => map (fun value => (key, value)) (sorted values)) cats.

Definition feature_vector (cats : categorical) (r : vlt_record) : list Qc :=
  map (fun '(key, value) => one_hot r key value) (columns cats).

(** [_extract_features] on [vlt_record]s, where it cannot raise; on any
    dictionary it is [AnyDict._extract_features].  Names are appended only
    while [feature_vectors] is still empty, that is while the first record
    is encoded. *)
Definition _extract_features (vlt_records : list vlt_record)
    : matrix * list string :=
  let cats := categorical_values vlt_records in
  let feature_vectors := map (feature_vector cats) vlt_records in
  let feature_names :=
    match vlt_records with
    | [] => []
    | _ :: _ => map (fun '(key, value) => key +:+ "_" +:+ value) (columns cats)
    end in
  (feature_vectors, feature_names).

(** The entry of the record that the columns of [key] compare with: the
    dictionary and key read by the branch of [one_hot] taken for [key]. *)
Definition field_of (r : vlt_record) (key : string) : option string :=
  if PyStr.elem key attribute_keys then attrs_of r !! key
  else if String.eqb key "primary_color" then colors_of r !! "primary"
  else if String.eqb key "finish" then colors_of r !! "finish"
  else style_of r !! (if "_" in_str key then before_underscore key else key).


(** ** Errors and the numeric libraries *)

(** The calls into scikit-learn and joblib that can raise. *)
Inductive lib_call :=
| ScalerFitTransform | ScalerTransform
| PCAFitTransform (n_components : nat) | PCATransform
| GMMFitPredict (n_components : Z) | GMMPredict | GMMPredictProba
| ForestFit.

Inductive exn :=
| ValueError (msg : string)          (* [raise ValueError(msg)], also numpy's *)
| IndexError                         (* numpy index or mask out of range *)
| FileNotFoundError (path : string)  (* [joblib.load] of a missing file *)
| LibraryError (call : lib_call)     (* raised inside scikit-learn *)
| TypeError (msg : string)           (* [key in None] *)
| AttributeError (msg : string).     (* [None.get(key)] *)

Abbreviation result A := (exn + A)%type.
Abbreviation Err e := (inl e) (only parsing).
Abbreviation Ok a := (inr a) (only parsing).

(** scikit-learn and numpy, as far as the profiler uses them.  A fitted
    estimator is a value of an abstract type.  An estimator draws its random
    numbers from a generator [rng]: the one made from its [random_state]
    seed, or numpy's global one when no [random_state] is passed. *)
Class Sklearn := {
  scaler : Type;
  pca : Type;
  gmm : Type;
  rng : Type;
  (** [np.random.RandomState(seed)] *)
  seed_rng : nat -> rng;
  (** [StandardScaler().fit_transform(X)] *)
  scaler_fit_transform : matrix -> option (scaler * matrix);
  (** [scaler.transform(X)] *)
  scaler_transform : scaler -> matrix -> option matrix;
  (** [PCA(n_components).fit_transform(X)], with the generator it draws from
      and the state it leaves that generator in *)
  pca_fit_transform : nat -> rng -> matrix -> option (pca * matrix * rng);
  (** [pca.transform(X)] *)
  pca_transform : pca -> matrix -> option matrix;
  (** [GaussianMixture(n_components, covariance_type, random_state,
      max_iter).fit_predict(X)] *)
  gmm_fit_predict : Z -> string -> rng -> nat -> matrix -> option (gmm * list nat);
  (** [gmm.predict(X)] *)
  gmm_predict : gmm -> matrix -> option (list nat);
  (** [gmm.predict_proba(X)] *)
  gmm_predict_proba : gmm -> matrix -> option matrix;
  (** [RandomForestClassifier(n_estimators, random_state).fit(X, y)
      .feature_importances_] *)
  forest_importances : nat -> rng -> matrix -> list nat -> option (list Qc);
  (** [np.argsort(a)]: numpy does not fix the order of equal entries *)
  argsort : list Qc -> list nat
}.

(** ** Clusters *)

Record cluster := {
  cl_id : nat;                               (* 'id' *)
  cl_size : nat;                             (* 'size' *)
  cl_percentage : Qc;                        (* 'percentage' *)
  cl_dominant_attributes : dominant;         (* 'dominant_attributes' *)
  cl_centroid_confidence : option Qc;        (* 'centroid_confidence' *)
  cl_representative_records : list string;   (* 'representative_records' *)
  cl_style_summary : string                  (* 'style_summary' *)
}.

(** *** [_find_dominant_attributes] *)

(** [defaultdict(int)] keyed by value, in order of first insertion. *)
Abbreviation counter := (list (string * nat)).

(** [counts[value] += 1] *)
Fixpoint count_incr (value : string) (counts : counter) : counter :=
  match counts with
  | [] => [(value, 1%nat)]
  | (v, n) :: rest =>
      if String.eqb v value then (v, S n) :: rest
      else (v, n) :: count_incr value rest
  end.

(** [attr_counts[key][value] += 1] *)
Definition bump (key value : string) (attr_counts : gmap string counter)
    : gmap string counter :=
  <[ key := count_incr value (default [] (attr_counts !! key)) ]> attr_counts.

(** The loop body of [_find_dominant_attributes], for one record. *)
Definition count_record (attr_counts : gmap string counter) (r : vlt_record)
    : gmap string counter :=
  let attr_counts :=
    map_fold (fun key value acc => bump key value acc) attr_counts (attrs_of r) in
  let attr_counts :=
    match colors_of r !! "primary" with
    | Some v => bump "color" v attr_counts
    | None => attr_counts
    end in
  map_fold (fun key value acc => bump ("style_" +:+ key) value acc)
    attr_counts (style_of r).

(** [max(values.items(), key=lambda x: x[1])]: the first item whose count is
    largest. *)
Fixpoint max_by_count (best : string * nat) (items : counter) : string * nat :=
  match items with
  | [] => best
  | it :: rest => max_by_count (if (snd best <? snd it)%nat then it else best) rest
  end.

Definition most_common (values : counter) : option (string * nat) :=
  match values with
  | [] => None
  | it :: rest => Some (max_by_count it rest)
  end.

Definition _find_dominant_attributes (records : list vlt_record) : dominant :=
  omap most_common (foldl count_record ∅ records).

(** *** Boolean masks *)

(** [[x for i, x in enumerate(xs) if mask[i]]], for a mask at least as long
    as [xs]. *)
Fixpoint select {A} (mask : list bool) (xs : list A) : list A :=
  match mask, xs with
  | b :: mask', x :: xs' => if b then x :: select mask' xs' else select mask' xs'
  | _, _ => []
  end.

(** [int(mask.sum())] *)
Definition mask_sum (mask : list bool) : nat := length (filter (fun b => b = true) mask).

(** [P[:, j]], defined when every row has a column [j]. *)
Definition column (j : nat) (P : matrix) : option (list Qc) :=
  mapM (fun row => row !! j) P.

(** [float(n)] for a count. *)
Definition float_of_nat (n : nat) : Qc := Qc_of_Z (Z.of_nat n).

(** [a.sum()] *)
Definition sum_Qc (a : list Qc) : Qc := foldr Qcplus 0%Qc a.

(** [a.mean()]: NaN ([None]) on an empty array. *)
Definition mean (a : list Qc) : option Qc :=
  match a with
  | [] => None
  | _ :: _ => Some (sum_Qc a / float_of_nat (length a))%Qc
  end.

(** Stable sort into descending order: [l.sort(key=..., reverse=True)],
    where [gt y x] says that the key of [y] is larger than that of [x]. *)
Section SortDesc.
Context {A : Type} (gt : A -> A -> bool).

Fixpoint insert_desc (x : A) (l : list A) : list A :=
  match l with
  | [] => [x]
  | y :: l' => if gt y x then y :: insert_desc x l' else x :: y :: l'
  end.

Definition sort_desc (l : list A) : list A := foldr insert_desc [] l.
End SortDesc.

(** [rs.map(f)] stopping at the first exception. *)
Fixpoint map_result {A B} (f : A -> result B) (l : list A) : result (list B) :=
  match l with
  | [] => Ok []
  | x :: l' =>
      match f x with
      | inl e => Err e
      | inr y => match map_result f l' with
                 | inl e => Err e
                 | inr ys => Ok (y :: ys)
                 end
      end
  end.

(** [for x in l: acc = f(acc, x)] stopping at the first exception. *)
Fixpoint fold_result {A B} (f : B -> A -> result B) (acc : B) (l : list A)
    : result B :=
  match l with
  | [] => Ok acc
  | x :: l' =>
      match f acc x with
      | inl e => Err e
      | inr acc' => fold_result f acc' l'
      end
  end.

(** ** [_extract_features] on any dictionary

    [vlt_record] and the functions above cover the records in which each of
    the three nested dictionaries is missing or is a dictionary; main.py's
    request model admits no other.  The profiler itself takes any
    dictionary, and a key can also be present with the value [None]: that is
    what [record.dict()] in main_minimal.py passes for every optional field
    a request leaves out.  [record.get('attributes', {})] then returns
    [None], not the default.  This module is [_extract_features] on such
    records, exceptions included. *)
Module AnyDict.

(** The value under ['attributes'], ['colors'] or ['style']. *)
Inductive value :=
| NoneValue
| DictValue (d : gmap string string).

Record record := {
  record_id : option string;       (* 'id' *)
  imageId : option string;         (* 'imageId' *)
  garment_type : option string;    (* 'garment_type' *)
  attributes : option value;       (* 'attributes': missing, None or a dict *)
  colors : option value;           (* 'colors' *)
  style : option value             (* 'style' *)
}.

(** [record.get(name, {})]: the default is used for a missing key only. *)
Definition get (field : option value) : value := default (DictValue ∅) field.

(** [key in None] *)
Definition not_iterable : exn :=
  TypeError "argument of type 'NoneType' is not iterable".

(** [None.get(key)] *)
Definition no_get : exn :=
  AttributeError "'NoneType' object has no attribute 'get'".

(** [if key in src: categorical_values[name].add(src[key])] *)
Definition cat_collect (src : value) (key name : string) (d : categorical)
    : result categorical :=
  match src with
  | NoneValue => Err not_iterable
  | DictValue m => Ok (cat_collect m key name d)
  end.

(** The body of the first loop, for one record. *)
Definition collect_record (d : categorical) (r : record) : result categorical :=
  let attrs := get (attributes r) in
  let colors := get (colors r) in
  let style := get (style r) in
  match fold_result (fun d key => cat_collect attrs key key d) d attribute_keys with
  | inl e => Err e
  | inr d =>
      match cat_collect colors "primary" "primary_color" d with
      | inl e => Err e
      | inr d =>
          match cat_collect colors "finish" "finish" d with
          | inl e => Err e
          | inr d => fold_result (fun d key => cat_collect style key key d) d style_keys
          end
      end
  end.

Definition categorical_values (vlt_records : list record) : result categorical :=
  fold_result collect_record [] vlt_records.

(** [1.0 if src.get(key) == value else 0.0] *)
Definition indicator (src : value) (key value : string) : result Qc :=
  match src with
  | NoneValue => Err no_get
  | DictValue m => Ok (indicator m key value)
  end.

(** One entry of a feature vector: the [if]/[elif] chain of the second
    loop. *)
Definition one_hot (r : record) (key value : string) : result Qc :=
  if PyStr.elem key attribute_keys then indicator (get (attributes r)) key value
  else if String.eqb key "primary_color" then indicator (get (colors r)) "primary" value
  else if String.eqb key "finish" then indicator (get (colors r)) "finish" value
  else indicator (get (style r))
         (if "_" in_str key then before_underscore key else key) value.

Definition feature_vector (cats : categorical) (r : record) : result (list Qc) :=
  map_result (fun '(key, value) => one_hot r key value) (columns cats).

Definition _extract_features (vlt_records : list record)
    : result (matrix * list string) :=
  match categorical_values vlt_records with
  | inl e => Err e
  | inr cats =>
      match map_result (feature_vector cats) vlt_records with
      | inl e => Err e
      | inr feature_vectors =>
          let feature_names :=
            match vlt_records with
            | [] => []
            | _ :: _ => map (fun '(key, value) => key +:+ "_" +:+ value) (columns cats)
            end in
          Ok (feature_vectors, feature_names)
      end
  end.

(** Whether one of the three fields is present with the value [None]. *)
Definition has_none (r : record) : Prop :=
  attributes r = Some NoneValue \/ colors r = Some NoneValue \/
  style r = Some NoneValue.

(** The dictionary under a key that is missing or holds a dictionary. *)
Definition dict_of (field : option value) : option (gmap string string) :=
  match field with
  | Some (DictValue m) => Some m
  | Some NoneValue | None => None
  end.

(** The record read as a [vlt_record]; it is the same record when no field
    is [None]. *)
Definition as_vlt_record (r : record) : vlt_record :=
  Build_vlt_record (record_id r) (imageId r) (garment_type r)
    (dict_of (attributes r)) (dict_of (colors r)) (dict_of (style r)).
End AnyDict.

(** [a[-n:]], the slice from index [-n]: the last [n] items for a positive
    [n], the whole of [a] for [n = 0] (the index [-0] is [0]), and [a]
    without its first [-n] items for a negative [n]. *)
Definition slice_from_minus {A} (n : Z) (a : list A) : list A :=
  let start := (- n)%Z in
  let len := Z.of_nat (length a) in
  drop (Z.to_nat (if (start <? 0)%Z then Z.max (len + start) 0
                  else Z.min start len)) a.

Section Analysis.
Context `{Sklearn}.

(** *** [_find_representative_records] *)
Definition _find_representative_records (records : list vlt_record)
    (probabilities : list Qc) (n_representatives : Z) : list string :=
  let order := argsort probabilities in
  let top_indices := reverse (slice_from_minus n_representatives order) in
  omap (fun i =>
          if (i <? length records)%nat then
            r ← records !! i;
            Some (default (default ("record_" +:+ pretty i) (record_id r)) (imageId r))
          else None)
       top_indices.

(** *** [_analyze_clusters] *)

(** The loop body, for one [cluster_id]. *)
Definition cluster_info (vlt_records : list vlt_record) (labels : list nat)
    (probabilities features : matrix) (cluster_id : nat) : result cluster :=
  let cluster_mask := map (Nat.eqb cluster_id) labels in
  if (length cluster_mask <? length vlt_records)%nat then Err IndexError else
  let cluster_records := select cluster_mask vlt_records in
  if negb (length cluster_mask =? length features)%nat then Err IndexError else
  if negb (length cluster_mask =? length probabilities)%nat then Err IndexError else
  match column cluster_id probabilities with
  | None => Err IndexError
  | Some col =>
      let cluster_probs := select cluster_mask col in
      let dominant_attrs := _find_dominant_attributes cluster_records in
      Ok {| cl_id := cluster_id;
            cl_size := mask_sum cluster_mask;
            cl_percentage :=
              (float_of_nat (mask_sum cluster_mask)
               / float_of_nat (length vlt_records) * Qc_of_Z 100)%Qc;
            cl_dominant_attributes := dominant_attrs;
            cl_centroid_confidence := mean cluster_probs;
            cl_representative_records :=
              _find_representative_records cluster_records cluster_probs 3;
            cl_style_summary := _summarize_cluster_style dominant_attrs |}
  end.

Definition _analyze_clusters (vlt_records : list vlt_record) (labels : list nat)
    (probabilities features : matrix) (feature_names : list string)
    : result (list cluster) :=
  match labels with
  | [] => Err (ValueError
            "zero-size array to reduction operation maximum which has no identity")
  | _ :: _ =>
      let n_clusters := (max_list labels + 1)%nat in
      match map_result (cluster_info vlt_records labels probabilities features)
              (seq 0 n_clusters) with
      | inl e => Err e
      | inr clusters =>
          Ok (sort_desc (fun y x => (cl_size x <? cl_size y)%nat) clusters)
      end
  end.
End Analysis.

(** ** Portfolio statistics: [_compute_statistics] *)

Record portfolio_statistics := {
  garment_distribution : gmap string nat;
  color_distribution : gmap string nat;
  style_distribution : gmap string nat;
  diversity_score : Qc;
  largest_cluster_percentage : Qc
}.

(** [d[key] += 1] on a [defaultdict(int)] *)
Definition incr (key : string) (d : gmap string nat) : gmap string nat :=
  <[ key := S (default 0%nat (d !! key)) ]> d.

(** [if outer in record and inner in record[outer]: d[record[outer][inner]] += 1] *)
Definition incr_nested (outer : option (gmap string string)) (inner : string)
    (d : gmap string nat) : gmap string nat :=
  match outer with
  | Some m => match m !! inner with
              | Some v => incr v d
              | None => d
              end
  | None => d
  end.

Definition Qc_max (a b : Qc) : Qc := if Qclt_le_dec a b then b else a.

Definition _compute_statistics (vlt_records : list vlt_record)
    (clusters : list cluster) : portfolio_statistics :=
  let garment_types :=
    foldl (fun d r => incr (default "unknown" (garment_type r)) d) ∅ vlt_records in
  let all_colors :=
    foldl (fun d r => incr_nested (colors r) "primary" d) ∅ vlt_records in
  let all_styles :=
    foldl (fun d r => incr_nested (style r) "overall" d) ∅ vlt_records in
  {| garment_distribution := garment_types;
     color_distribution := all_colors;
     style_distribution := all_styles;
     diversity_score :=
       match vlt_records with
       | [] => 0%Qc
       | _ :: _ => (float_of_nat (length clusters)
                    / float_of_nat (length vlt_records))%Qc
       end;
     largest_cluster_percentage :=
       match clusters with
       | [] => 0%Qc
       | c :: cs => foldl Qc_max (cl_percentage c) (map cl_percentage cs)
       end |}.

(** ** Profiles *)

Record profile := {
  user_id : string;
  n_records : nat;
  n_clusters : Z;
  clusters : list cluster;
  statistics : portfolio_statistics;
  feature_importance : list (string * Qc);
  created_at : nat;
  updated_at : nat
}.

(** [dict(zip(keys, values))]: a repeated key keeps its first position and
    takes the last value. *)
Fixpoint dict_set {V} (key : string) (v : V) (d : list (string * V))
    : list (string * V) :=
  match d with
  | [] => [(key, v)]
  | (k, v') :: d' =>
      if String.eqb k key then (k, v) :: d' else (k, v') :: dict_set key v d'
  end.

Definition dict_of_items {V} (items : list (string * V)) : list (string * V) :=
  foldl (fun d '(k, v) => dict_set k v d) [] items.

(** [len(np.unique(labels))] *)
Definition n_unique (labels : list nat) : nat := length (remove_dups labels).

(** [sklearn.utils.check_random_state]: an integer seed makes a fresh
    generator, [None] stands for numpy's global one. *)
Definition check_random_state `{Sklearn} (random_state : option nat) (global : rng)
    : rng :=
  match random_state with
  | Some seed => seed_rng seed
  | None => global
  end.

(** ** The profiler's state *)

Inductive event :=
| Logged (level msg : string)     (* [logger.info], [logger.warning] *)
| Extracted (n : nat)             (* [_extract_features] ran on [n] records *)
| Called (c : lib_call)           (* a call into scikit-learn *)
| Dumped (path : string)          (* [joblib.dump] *)
| Loaded (path : string).         (* [joblib.load] *)

(** [os.path.join(self.models_dir, f"{user_id}_profile.joblib")] and its
    sibling, for the default [models_dir]. *)
Definition profile_path (user_id : string) : string :=
  "./models/" +:+ user_id +:+ "_profile.joblib".
Definition models_path (user_id : string) : string :=
  "./models/" +:+ user_id +:+ "_models.joblib".

Section Profiler.
Context `{Sklearn}.

(** The two joblib files of a user are addressed by the user's id: ids that
    the file system resolves to one path (["u"] and ["./u"]) are kept apart
    here, and a [joblib.dump] that fails is not modelled. *)
Record world := {
  profiles : gmap string profile;              (* [self.profiles] *)
  profile_files : gmap string profile;         (* [<user_id>_profile.joblib] *)
  model_files : gmap string (gmm * scaler * pca);  (* [<user_id>_models.joblib] *)
  np_random : rng;                             (* numpy's global generator *)
  now : nat;                                   (* [np.datetime64('now')] *)
  trace : list event
}.

Definition set_profiles (f : gmap string profile -> gmap string profile)
    (w : world) : world :=
  {| profiles := f (profiles w); profile_files := profile_files w;
     model_files := model_files w; np_random := np_random w; now := now w;
     trace := trace w |}.

Definition set_profile_files (f : gmap string profile -> gmap string profile)
    (w : world) : world :=
  {| profiles := profiles w; profile_files := f (profile_files w);
     model_files := model_files w; np_random := np_random w; now := now w;
     trace := trace w |}.

Definition set_model_files
    (f : gmap string (gmm * scaler * pca) -> gmap string (gmm * scaler * pca))
    (w : world) : world :=
  {| profiles := profiles w; profile_files := profile_files w;
     model_files := f (model_files w); np_random := np_random w; now := now w;
     trace := trace w |}.

Definition set_np_random (g : rng) (w : world) : world :=
  {| profiles := profiles w; profile_files := profile_files w;
     model_files := model_files w; np_random := g; now := now w;
     trace := trace w |}.

Definition add_event (ev : event) (w : world) : world :=
  {| profiles := profiles w; profile_files := profile_files w;
     model_files := model_files w; np_random := np_random w; now := now w;
     trace := trace w ++ [ev] |}.

(** *** The state-and-exception monad of the profiler.  An exception
    keeps the state changes made before it. *)
Definition M (A : Type) : Type := world -> result A * world.

Definition ret {A} (a : A) : M A := fun w => (Ok a, w).

Definition bind {A B} (m : M A) (f : A -> M B) : M B :=
  fun w => match m w with
           | (inl e, w') => (Err e, w')
           | (inr a, w') => f a w'
           end.

Definition raise {A} (e : exn) : M A := fun w => (Err e, w).

Definition lift {A} (r : result A) : M A := fun w => (r, w).

Definition modify (f : world -> world) : M unit := fun w => (Ok tt, f w).

Definition read {A} (f : world -> A) : M A := fun w => (Ok (f w), w).

Definition emit (ev : event) : M unit := modify (add_event ev).

(** A call into scikit-learn: recorded, and an exception propagates. *)
Definition call {A} (c : lib_call) (r : option A) : M A :=
  bind (emit (Called c))
       (fun _ => match r with
                 | Some a => ret a
                 | None => raise (LibraryError c)
                 end).
End Profiler.

Arguments world {_}.
Arguments M {_} A.

#[global] Instance M_ret `{Sklearn} : MRet M := @ret _.
#[global] Instance M_bind `{Sklearn} : MBind M := fun A B f m => bind m f.

(** ** The profile store: [create_profile], [update_profile], [get_profile] *)

(** [X.shape[1]]; a one-dimensional array such as [np.array([])] has no
    second dimension. *)
Definition shape_1 (X : matrix) : result nat :=
  match X with
  | [] => Err IndexError
  | row :: _ => Ok (length row)
  end.

(** What lines 59-85 of [create_profile] leave in its local variables. *)
Record fitted `{Sklearn} := {
  fit_n_clusters : Z;
  fit_features : matrix;
  fit_feature_names : list string;
  fit_scaler : scaler;
  fit_pca : pca;
  fit_gmm : gmm;
  fit_cluster_labels : list nat;
  fit_probabilities : matrix
}.

Section Store.
Context `{Sklearn}.

Definition log (level msg : string) : M unit := emit (Logged level msg).

(** [self._extract_features(records)], recorded in the trace. *)
Definition extract (vlt_records : list vlt_record) : M (matrix * list string) :=
  emit (Extracted (length vlt_records));;
  mret (_extract_features vlt_records).

(** *** [_compute_feature_importance] *)
Definition _compute_feature_importance (features : matrix)
    (feature_names : list string) (labels : list nat) : M (list (string * Qc)) :=
  if (n_unique labels <? 2)%nat then mret []
  else
    g ← read np_random;
    importances ← call ForestFit
      (forest_importances 50 (check_random_state (Some 42%nat) g) features labels);
    let importance := dict_of_items (zip feature_names importances) in
    let sorted_importance :=
      take 10 (sort_desc (fun y x => bool_decide (snd x < snd y)%Qc) importance) in
    mret (dict_of_items sorted_importance).

(** *** [_save_profile], [_load_models], [get_profile] *)
Definition _save_profile (user_id : string) (p : profile)
    (g : gmm) (s : scaler) (pc : pca) : M unit :=
  emit (Dumped (profile_path user_id));;
  modify (set_profile_files <[ user_id := p ]>);;
  emit (Dumped (models_path user_id));;
  modify (set_model_files <[ user_id := (g, s, pc) ]>);;
  log "INFO" ("Profile and models saved for " +:+ user_id).

Definition _load_models (user_id : string) : M (gmm * scaler * pca) :=
  models ← read (fun w => model_files w !! user_id);
  match models with
  | None => raise (FileNotFoundError (models_path user_id))
  | Some m => emit (Loaded (models_path user_id));; mret m
  end.

Definition get_profile (user_id : string) : M (option profile) :=
  cached ← read (fun w => profiles w !! user_id);
  match cached with
  | Some p => mret (Some p)
  | None =>
      on_disk ← read (fun w => profile_files w !! user_id);
      match on_disk with
      | Some p =>
          emit (Loaded (profile_path user_id));;
          modify (set_profiles <[ user_id := p ]>);;
          mret (Some p)
      | None => mret None
      end
  end.

(** *** [create_profile] *)

(** Lines 59-85: clamp the cluster count, extract, scale, project, fit. *)
Definition fit_clusters (vlt_records : list vlt_record) (n_clusters : Z) : M fitted :=
  n_clusters ←
    (if (Z.of_nat (length vlt_records) <? n_clusters)%Z then
       log "WARNING" ("Only " +:+ pretty (length vlt_records)
                      +:+ " records, reducing clusters to "
                      +:+ pretty (length vlt_records));;
       mret (Z.max 1 (Z.of_nat (length vlt_records)))
     else mret n_clusters);
  '(features, feature_names) ← extract vlt_records;
  '(sc, features_scaled) ← call ScalerFitTransform (scaler_fit_transform features);
  n_columns ← lift (shape_1 features_scaled);
  let n_pca_components := (10 `min` (length features_scaled `min` n_columns))%nat in
  g ← read np_random;
  '(pc, features_pca, g') ← call (PCAFitTransform n_pca_components)
      (pca_fit_transform n_pca_components (check_random_state None g) features_scaled);
  modify (set_np_random g');;
  g ← read np_random;
  '(mixture, cluster_labels) ← call (GMMFitPredict n_clusters)
      (gmm_fit_predict n_clusters "full" (check_random_state (Some 42%nat) g) 100
         features_pca);
  probabilities ← call GMMPredictProba (gmm_predict_proba mixture features_pca);
  mret {| fit_n_clusters := n_clusters; fit_features := features;
          fit_feature_names := feature_names; fit_scaler := sc; fit_pca := pc;
          fit_gmm := mixture; fit_cluster_labels := cluster_labels;
          fit_probabilities := probabilities |}.

Definition create_profile (user_id : string) (vlt_records : list vlt_record)
    (n_clusters : Z) : M profile :=
  log "INFO" ("Creating style profile for " +:+ user_id +:+ " with "
              +:+ pretty (length vlt_records) +:+ " records");;
  f ← fit_clusters vlt_records n_clusters;
  clusters ← lift (_analyze_clusters vlt_records (fit_cluster_labels f)
                     (fit_probabilities f) (fit_features f) (fit_feature_names f));
  let stats := _compute_statistics vlt_records clusters in
  importance ← _compute_feature_importance (fit_features f) (fit_feature_names f)
                  (fit_cluster_labels f);
  created ← read now;
  updated ← read now;
  let p := {| user_id := user_id;
              n_records := length vlt_records;
              n_clusters := fit_n_clusters f;
              clusters := clusters;
              statistics := stats;
              feature_importance := importance;
              created_at := created;
              updated_at := updated |} in
  _save_profile user_id p (fit_gmm f) (fit_scaler f) (fit_pca f);;
  modify (set_profiles <[ user_id := p ]>);;
  log "INFO" ("Style profile created with " +:+ pretty (fit_n_clusters f)
              +:+ " clusters");;
  mret p.

(** *** [_update_cluster_stats] *)

(** The loop body for the cluster at list position [cluster_id]. *)
Definition update_cluster (new_records : list vlt_record) (new_labels : list nat)
    (cluster_id : nat) (c : cluster) : result cluster :=
  let new_cluster_mask := map (Nat.eqb cluster_id) new_labels in
  if existsb (fun b => b) new_cluster_mask then
    if (length new_cluster_mask <? length new_records)%nat then Err IndexError
    else
      let new_cluster_records := select new_cluster_mask new_records in
      Ok {| cl_id := cl_id c;
            cl_size := cl_size c + length new_cluster_records;
            cl_percentage := cl_percentage c;
            cl_dominant_attributes := _find_dominant_attributes new_cluster_records;
            cl_centroid_confidence := cl_centroid_confidence c;
            cl_representative_records := cl_representative_records c;
            cl_style_summary := cl_style_summary c |}
  else Ok c.

(** [for cluster_id, cluster in enumerate(existing_clusters)], from position
    [cluster_id] on.  The cluster dictionaries are changed in place, so the
    clusters updated before an exception stay updated. *)
Fixpoint update_clusters_from (new_records : list vlt_record)
    (new_labels : list nat) (cluster_id : nat) (existing_clusters : list cluster)
    : list cluster * option exn :=
  match existing_clusters with
  | [] => ([], None)
  | c :: rest =>
      match update_cluster new_records new_labels cluster_id c with
      | inl e => (c :: rest, Some e)
      | inr c' =>
          let '(rest', e) :=
            update_clusters_from new_records new_labels (S cluster_id) rest in
          (c' :: rest', e)
      end
  end.

Definition _update_cluster_stats (existing_clusters : list cluster)
    (new_records : list vlt_record) (new_labels : list nat)
    (new_probabilities new_features : matrix) (feature_names : list string)
    : list cluster * option exn :=
  update_clusters_from new_records new_labels 0 existing_clusters.

(** *** [_get_all_vlt_records] *)
Definition _get_all_vlt_records (user_id : string) : list vlt_record := [].

(** *** [update_profile] *)

Definition with_clusters (cs : list cluster) (p : profile) : profile :=
  {| user_id := user_id p; n_records := n_records p; n_clusters := n_clusters p;
     clusters := cs; statistics := statistics p;
     feature_importance := feature_importance p;
     created_at := created_at p; updated_at := updated_at p |}.

Definition update_profile (uid : string) (new_vlt_records : list vlt_record)
    : M profile :=
  log "INFO" ("Updating style profile for " +:+ uid +:+ " with "
              +:+ pretty (length new_vlt_records) +:+ " new records");;
  existing ← get_profile uid;
  match existing with
  | None => raise (ValueError ("No existing profile found for user " +:+ uid))
  | Some p =>
      '(mixture, sc, pc) ← _load_models uid;
      '(new_features, feature_names) ← extract new_vlt_records;
      new_features_scaled ← call ScalerTransform (scaler_transform sc new_features);
      new_features_pca ← call PCATransform (pca_transform pc new_features_scaled);
      new_labels ← call GMMPredict (gmm_predict mixture new_features_pca);
      new_probabilities ← call GMMPredictProba
                            (gmm_predict_proba mixture new_features_pca);
      let '(updated_clusters, raised) :=
        _update_cluster_stats (clusters p) new_vlt_records new_labels
          new_probabilities new_features feature_names in
      (* the cached profile holds the very cluster objects just changed *)
      modify (set_profiles <[ uid := with_clusters updated_clusters p ]>);;
      match raised with
      | Some e => raise e
      | None =>
          updated ← read now;
          let all_vlt_records := _get_all_vlt_records uid in
          let p' := {| user_id := user_id p;
                       n_records := n_records p + length new_vlt_records;
                       n_clusters := n_clusters p;
                       clusters := updated_clusters;
                       statistics :=
                         _compute_statistics all_vlt_records updated_clusters;
                       feature_importance := feature_importance p;
                       created_at := created_at p;
                       updated_at := updated |} in
          modify (set_profiles <[ uid := p' ]>);;
          _save_profile uid p' mixture sc pc;;
          modify (set_profiles <[ uid := p' ]>);;
          log "INFO" ("Profile updated, now with " +:+ pretty (n_records p')
                      +:+ " total records");;
          mret p'
      end
  end.
End Store.

(** ** Vocabulary of the statements *)

(** [f] applied to a returned value; an exception is kept. *)
Definition outcome {A B} (f : A -> B) (r : result A) : result B :=
  match r with
  | inl e => Err e
  | inr a => Ok (f a)
  end.

(** Whether a run returned rather than raised. *)
Definition returned {A} (r : result A) : bool :=
  match r with
  | inl _ => false
  | inr _ => true
  end.

(** The events that are computation rather than logging or file access:
    feature extraction and the calls into scikit-learn. *)
Definition is_computation (ev : event) : bool :=
  match ev with
  | Extracted _ | Called _ => true
  | Logged _ _ | Dumped _ | Loaded _ => false
  end.


Section Vocabulary.
Context `{Sklearn}.

(** The profile [get_profile] would find: the cached one, else the one on
    disk. *)
Definition existing_profile (w : world) (uid : string) : option profile :=
  match profiles w !! uid with
  | Some p => Some p
  | None => profile_files w !! uid
  end.


(** A run that was rejected by a validation error before any computation:
    it raised a [ValueError] and added no extraction and no library call to
    the trace of the world [w] it started from. *)
Definition rejected_before_computation {A} (w : world) (out : result A * world)
    : Prop :=
  (exists msg, fst out = Err (ValueError msg)) /\
  filter (fun ev => is_computation ev = true) (trace (snd out))
  = filter (fun ev => is_computation ev = true) (trace w).

(** The projection computed by [PCA] does not depend on the generator it is
    handed (its exact solvers draw no random numbers). *)
Definition pca_exact : Prop :=
  forall n g1 g2 X,
    fst <$> pca_fit_transform n g1 X = fst <$> pca_fit_transform n g2 X.
End Vocabulary.

(** ** A small stand-in for scikit-learn, for the examples

    Scaling is the identity, the projection keeps the leading columns, and
    the mixture assigns a row to the position of its first non-zero entry
    modulo the number of components.  Like scikit-learn, the scaler rejects
    an array without samples or without features, and the mixture rejects
    fewer than two samples and a component count that is not positive or
    exceeds the number of samples. *)
Module Demo.

Fixpoint first_hot (row : list Qc) : nat :=
  match row with
  | [] => 0
  | x :: row' => if bool_decide (x = 0%Qc) then S (first_hot row') else 0
  end.

Definition label (n : nat) (row : list Qc) : nat := first_hot row mod n.

Definition membership (n : nat) (row : list Qc) : list Qc :=
  map (fun j => if (j =? label n row)%nat then 1%Qc else 0%Qc) (seq 0 n).

Definition accepts (X : matrix) : bool :=
  match X with
  | [] => false
  | [] :: _ => false
  | (_ :: _) :: _ => true
  end.

Fixpoint insert_asc (x : nat * Qc) (l : list (nat * Qc)) : list (nat * Qc) :=
  match l with
  | [] => [x]
  | y :: l' => if bool_decide (snd y <= snd x)%Qc then y :: insert_asc x l'
               else x :: y :: l'
  end.

Definition stable_argsort (a : list Qc) : list nat :=
  map fst (foldl (fun acc x => insert_asc x acc) [] (zip (seq 0 (length a)) a)).

Definition sklearn : Sklearn := {|
  scaler := unit;
  pca := nat;
  gmm := nat;
  rng := nat;
  seed_rng := fun seed => seed;
  scaler_fit_transform := fun X => if accepts X then Some (tt, X) else None;
  scaler_transform := fun _ X => if accepts X then Some X else None;
  pca_fit_transform := fun n g X => Some (n, map (take n) X, g);
  pca_transform := fun n X => Some (map (take n) X);
  gmm_fit_predict := fun k _ _ _ X =>
    if ((2 <=? length X)%nat && (0 <? k)%Z && (k <=? Z.of_nat (length X))%Z)%bool
    then Some (Z.to_nat k, map (label (Z.to_nat k)) X) else None;
  gmm_predict := fun n X => Some (map (label n) X);
  gmm_predict_proba := fun n X => Some (map (membership n) X);
  forest_importances := fun _ _ X _ =>
    Some (match X with [] => [] | row :: _ => map (fun _ => 1%Qc) row end);
  argsort := stable_argsort
|}.


(** A fresh profiler: nothing cached, nothing on disk. *)
Definition fresh : @world sklearn :=
  @Build_world sklearn ∅ ∅ ∅ 0%nat 0%nat [].


(** Example records. *)
Definition garment (name : string) (attrs colours styles : list (string * string))
    : vlt_record :=
  {| record_id := Some name; imageId := None; garment_type := Some "dress";
     attributes := Some (list_to_map attrs);
     colors := Some (list_to_map colours);
     style := Some (list_to_map styles) |}.

Definition blazer : vlt_record :=
  garment "blazer" [("silhouette", "tailored"); ("fabrication", "wool")]
    [("primary", "black")] [("aesthetic", "minimalist")].

Definition gown : vlt_record :=
  garment "gown" [("silhouette", "a-line"); ("fabrication", "silk")]
    [("primary", "red")] [("aesthetic", "romantic")].

Definition slip_dress : vlt_record :=
  garment "slip" [("silhouette", "a-line"); ("fabrication", "silk")]
    [("primary", "ivory")] [("aesthetic", "romantic")].


Definition trench : vlt_record :=
  garment "trench" [("silhouette", "tailored"); ("fabrication", "cotton")]
    [("primary", "beige")] [("aesthetic", "minimalist")].

(** The profiler after a first [create_profile] for user ["u"]. *)
Definition after_create : @world sklearn :=
  snd (@create_profile sklearn "u" [blazer; gown; slip_dress] 2 fresh).

(** Another profiler state: other generator state, other time. *)
Definition later : @world sklearn :=
  @Build_world sklearn ∅ ∅ ∅ 7%nat 99%nat [Logged "INFO" "StyleProfiler initialized"].

(** Labels and membership probabilities of a two-component mixture that
    puts the blazer in component 0 and both dresses in component 1. *)
Definition labels_011 : list nat := [0; 1; 1]%nat.
Definition probabilities_011 : matrix :=
  [[1; 0]; [0; 1]; [0; 1]]%Qc.

End Demo.

(** ** Vocabulary of the further properties *)

(** The order of the list [_analyze_clusters] returns: larger clusters
    first, and among clusters of equal size the smaller id first. *)
Definition before_cluster (a b : cluster) : Prop :=
  (cl_size b < cl_size a)%nat \/
  (cl_size a = cl_size b /\ (cl_id a < cl_id b)%nat).

(** [records[i].get('imageId', records[i].get('id', f'record_{i}'))] *)
Definition record_label (i : nat) (r : vlt_record) : string :=
  default (default ("record_" +:+ pretty i) (record_id r)) (imageId r).

(** The fields of a cluster that [_update_cluster_stats] never writes. *)
Definition same_description (c c' : cluster) : Prop :=
  cl_id c' = cl_id c /\
  cl_percentage c' = cl_percentage c /\
  cl_centroid_confidence c' = cl_centroid_confidence c /\
  cl_representative_records c' = cl_representative_records c /\
  cl_style_summary c' = cl_style_summary c /\
  (cl_size c <= cl_size c')%nat.

(** Two sample clusters, the larger first, as [_analyze_clusters] orders
    them. *)
Module Samples.
Definition evening : cluster :=
  {| cl_id := 1; cl_size := 2;
     cl_percentage := (Qc_of_Z 200 / Qc_of_Z 3)%Qc;
     cl_dominant_attributes := {[ "silhouette" := ("a-line", 2%nat) ]};
     cl_centroid_confidence := Some 1%Qc;
     cl_representative_records := ["slip"; "gown"];
     cl_style_summary := "Fluid Evening" |}.

Definition tailoring : cluster :=
  {| cl_id := 0; cl_size := 1;
     cl_percentage := (Qc_of_Z 100 / Qc_of_Z 3)%Qc;
     cl_dominant_attributes := {[ "silhouette" := ("tailored", 1%nat) ]};
     cl_centroid_confidence := Some 1%Qc;
     cl_representative_records := ["blazer"];
     cl_style_summary := "Minimalist Tailoring" |}.
End Samples.

(** [StyleProfiler.__init__]: a new profiler object starts with an empty
    cache; the files under [models_dir] are whatever is already there. *)
Definition __init__ `{Sklearn} (w : world) : world :=
  add_event (Logged "INFO" "StyleProfiler initialized") (set_profiles (fun _ => ∅) w).

Section StoreRelations.
Context `{Sklearn}.

(** Cache and files are the same in both states. *)
Definition same_store (w w' : world) : Prop :=
  profiles w' = profiles w /\
  profile_files w' = profile_files w /\
  model_files w' = model_files w.

(** The files are the same in both states. *)
Definition same_files (w w' : world) : Prop :=
  profile_files w' = profile_files w /\
  model_files w' = model_files w.

(** Whatever is cached for users other than [uid] is the same in both
    states.  The files are left out: the code addresses them by path, and
    two ids can name one file. *)
Definition others_untouched (uid : string) (w w' : world) : Prop :=
  forall uid', uid' <> uid -> profiles w' !! uid' = profiles w !! uid'.

(** Every run of [m], returning or raising, relates the state it starts
    from to the state it leaves by [R]. *)
Definition preserves {A} (R : world -> world -> Prop) (m : M A) : Prop :=
  forall w r w', m w = (r, w') -> R w w'.
End StoreRelations.

(** The sum of the counts of a distribution. *)
Definition total (d : gmap string nat) : nat :=
  map_fold (fun _ n acc => (n + acc)%nat) 0%nat d.

(** The key under which [_compute_statistics] counts a record in the
    garment, colour and style distributions, if any. *)
Definition garment_key (r : vlt_record) : option string :=
  Some (default "unknown" (garment_type r)).
Definition color_key (r : vlt_record) : option string :=
  colors r ≫= fun c => c !! "primary".
Definition style_key (r : vlt_record) : option string :=
  style r ≫= fun s => s !! "overall".

(** How many of the records are counted under [key]. *)
Definition occurrences (kf : vlt_record -> option string) (key : string)
    (records : list vlt_record) : nat :=
  length (filter (fun r => kf r = Some key) records).

(** [s[len(p):]] when [s] starts with [p]. *)
Fixpoint strip_prefix (p s : string) : option string :=
  match p, s with
  | EmptyString, _ => Some s
  | String a p', String b s' => if Ascii.eqb a b then strip_prefix p' s' else None
  | String _ _, EmptyString => None
  end.

(** The values one record adds to the counter of attribute name [key] in
    [_find_dominant_attributes], in the order of its three loops: its
    attribute [key], its primary colour when [key] is ["color"], and its
    style entry [k] when [key] is ["style_" + k]. *)
Definition contributions (key : string) (r : vlt_record) : list string :=
  option_list (attrs_of r !! key)
  ++ (if String.eqb key "color" then option_list (colors_of r !! "primary") else [])
  ++ match strip_prefix "style_" key with
     | Some k => option_list (style_of r !! k)
     | None => []
     end.

Definition values_for (key : string) (records : list vlt_record) : list string :=
  flat_map (contributions key) records.

(** How often [v] occurs in a list of values. *)
Definition frequency (v : string) (values : list string) : nat :=
  length (filter (fun x => x = v) values).

(** [counts.get(v, 0)] *)
Fixpoint count_of (v : string) (counts : counter) : nat :=
  match counts with
  | [] => 0
  | (v', n) :: rest => if String.eqb v' v then n else count_of v rest
  end.

(** Adding the values [vs] to a counter, one after the other. *)
Definition count_all (counts : counter) (vs : list string) : counter :=
  foldl (fun c v => count_incr v c) counts vs.

(** The entries of a counter: distinct values, each with a positive count. *)
Definition counter_ok (counts : counter) : Prop :=
  NoDup (map fst counts) /\ Forall (fun it => (0 < snd it)%nat) counts.

(** [categorical_values.get(key, set())] *)
Fixpoint cat_values (key : string) (d : categorical) : gset string :=
  match d with
  | [] => ∅
  | (k, s) :: d' => if String.eqb k key then s else cat_values key d'
  end.

(** The twelve column keys of [_extract_features]. *)
Definition field_names : list string :=
  attribute_keys ++ ["primary_color"; "finish"] ++ style_keys.

Definition set_of_option (o : option string) : gset string :=
  match o with
  | Some v => {[ v ]}
  | None => ∅
  end.

(** ** The HTTP endpoints of python-ml-service/main.py that call the profiler *)

(** The request model [VLTRecord]: every field but [embedding] is required.
    The values of the three dictionaries are taken to be strings. *)
Record VLTRecord := {
  vlt_id : string;
  vlt_garment_type : string;
  vlt_attributes : gmap string string;
  vlt_colors : gmap string string;
  vlt_style : gmap string string;
  vlt_embedding : option (list Qc)
}.

(** [r.dict()]: all keys of the model are present; there is no ['imageId']. *)
Definition VLTRecord_dict (r : VLTRecord) : vlt_record :=
  {| record_id := Some (vlt_id r);
     imageId := None;
     garment_type := Some (vlt_garment_type r);
     attributes := Some (vlt_attributes r);
     colors := Some (vlt_colors r);
     style := Some (vlt_style r) |}.

(** The request model [StyleProfileRequest]; [n_clusters] is 5 when the
    request leaves it out (a request that sends null for it is not covered). *)
Record StyleProfileRequest := {
  request_user_id : string;
  request_vlt_records : list VLTRecord;
  request_n_clusters : Z
}.

(** [HTTPException(status_code, detail)] *)
Record HTTPException := {
  status_code : nat;
  detail : string
}.

(** The JSON object an endpoint returns. *)
Record profile_response := {
  success : bool;
  response_profile : profile;
  message : option string
}.

Section Service.
Context `{Sklearn}.

(** The text of the exceptions that libraries raise. *)
Variable library_message : exn -> string.

(** [str(e)] *)
Definition str_exn (e : exn) : string :=
  match e with
  | ValueError msg | TypeError msg | AttributeError msg => msg
  | _ => library_message e
  end.

(** [@app.post("/api/ml/style-profile/create")] *)
Definition create_style_profile (request : StyleProfileRequest)
    (w : world) : (HTTPException + profile_response) * world :=
  let w := add_event (Logged "INFO" ("Creating style profile for user "
                                     +:+ request_user_id request)) w in
  match create_profile (request_user_id request)
          (map VLTRecord_dict (request_vlt_records request))
          (request_n_clusters request) w with
  | (inr p, w') =>
      (inr {| success := true; response_profile := p;
              message := Some ("Style profile created with "
                               +:+ pretty (length (clusters p)) +:+ " style modes") |},
       w')
  | (inl e, w') =>
      (inl {| status_code := 500; detail := str_exn e |},
       add_event (Logged "ERROR" ("Style profile creation failed: " +:+ str_exn e)) w')
  end.

(** [@app.post("/api/ml/style-profile/update")] *)
Definition update_style_profile (request : StyleProfileRequest)
    (w : world) : (HTTPException + profile_response) * world :=
  let w := add_event (Logged "INFO" ("Updating style profile for user "
                                     +:+ request_user_id request)) w in
  match update_profile (request_user_id request)
          (map VLTRecord_dict (request_vlt_records request)) w with
  | (inr p, w') =>
      (inr {| success := true; response_profile := p;
              message := Some "Style profile updated" |},
       w')
  | (inl e, w') =>
      (inl {| status_code := 500; detail := str_exn e |},
       add_event (Logged "ERROR" ("Style profile update failed: " +:+ str_exn e)) w')
  end.

(** [@app.get("/api/ml/style-profile/{user_id}")] *)
Definition get_style_profile (uid : string)
    (w : world) : (HTTPException + profile_response) * world :=
  match get_profile uid w with
  | (inr (Some p), w') =>
      (inr {| success := true; response_profile := p; message := None |}, w')
  | (inr None, w') =>
      (inl {| status_code := 404; detail := "Style profile not found" |}, w')
  | (inl e, w') =>
      (inl {| status_code := 500; detail := str_exn e |},
       add_event (Logged "ERROR" ("Failed to retrieve style profile: " +:+ str_exn e)) w')
  end.
End Service.

(** Whether an endpoint answered with a body rather than an HTTP error. *)
Definition answered {E A} (r : E + A) : bool :=
  match r with
  | inl _ => false
  | inr _ => true
  end.

(** A request and the text of library exceptions, for the examples. *)
Module SampleRequest.
Definition as_request_record (name : string) (r : vlt_record) : VLTRecord :=
  {| vlt_id := name; vlt_garment_type := default "unknown" (garment_type r);
     vlt_attributes := attrs_of r; vlt_colors := colors_of r;
     vlt_style := style_of r; vlt_embedding := None |}.

Definition three_garments : StyleProfileRequest :=
  {| request_user_id := "u";
     request_vlt_records :=
       [as_request_record "blazer" Demo.blazer; as_request_record "gown" Demo.gown;
        as_request_record "slip" Demo.slip_dress];
     request_n_clusters := 2 |}.

Definition for_nobody : StyleProfileRequest :=
  {| request_user_id := "nobody";
     request_vlt_records := [as_request_record "gown" Demo.gown];
     request_n_clusters := 5 |}.

Definition library_message (e : exn) : string := "library error".

(** A profiler that holds the profile of ["u"] but has lost the models
    file. *)
Definition models_lost : @world Demo.sklearn :=
  set_model_files (fun _ => ∅) Demo.after_create.
End SampleRequest.

(** ** main_minimal.py *)

(** The request model [VLTRecord] of main_minimal.py, whose records
    [generate_style_profile] hands to [create_profile] as [record.dict()].
    Every field is optional and [None] when the request leaves it out; the
    dictionaries are taken to hold strings. *)
Module Minimal.
Record VLTRecord := {
  garmentType : option string;
  silhouette : option string;
  fabric : option (gmap string string);
  colors : option (gmap string string);
  style : option (gmap string string);
  attributes : option (gmap string string)
}.

(** A dictionary field of [record.dict()]: the key is always there. *)
Definition field (f : option (gmap string string)) : option AnyDict.value :=
  Some (match f with
        | Some d => AnyDict.DictValue d
        | None => AnyDict.NoneValue
        end).

(** [record.dict()], as far as the profiler reads it: the model has no
    ['id'], ['imageId'] or ['garment_type']. *)
Definition VLTRecord_dict (r : VLTRecord) : AnyDict.record :=
  {| AnyDict.record_id := None;
     AnyDict.imageId := None;
     AnyDict.garment_type := None;
     AnyDict.attributes := field (attributes r);
     AnyDict.colors := field (colors r);
     AnyDict.style := field (style r) |}.

(** A request record that gives its colours only. *)
Definition colours_only : VLTRecord :=
  {| garmentType := Some "dress"; silhouette := None; fabric := None;
     colors := Some {[ "primary" := "red" ]}; style := None;
     attributes := None |}.
End Minimal.

(** Dictionaries in which keys are missing, for the examples. *)
Module SampleDicts.

End SampleDicts.

(** * Properties *)

Lemma match_archetype_names d name :
  match_archetype d = Some name -> In name archetype_names.
Proof.
  unfold match_archetype, archetype_names.
  repeat (match goal with |- context [if ?b then _ else _] => destruct b end);
    intros [= <-]; simpl; tauto.
Qed.

(** C10: the style name is one of the seven archetype names or the two
    fallback parts joined by a space.  The fallback always holds exactly two
    parts (the first is the title-cased aesthetic or overall style or
    "Contemporary", the second is "Tailoring", "Flow", the title-cased
    fabrication or "Mix"), so neither the single-part nor the "Mixed Style"
    return is ever taken. *)
Theorem summarize_never_placeholder (d : dominant) :
  length (style_parts d) = 2%nat /\
  fst (summarize_with_branch d) <> Placeholder /\
  fst (summarize_with_branch d) <> SinglePart /\
  (In (_summarize_cluster_style d) archetype_names \/
   (fst (summarize_with_branch d) = JoinedParts /\
    _summarize_cluster_style d = first_part d +:+ " " +:+ second_part d /\
    In (first_part d)
       [PyStr.title (dominant_value d "style_aesthetic");
        PyStr.title (dominant_value d "style_overall"); "Contemporary"] /\
    In (second_part d)
       ["Tailoring"; "Flow"; PyStr.title (dominant_value d "fabrication"); "Mix"])).
Proof.
  unfold _summarize_cluster_style, summarize_with_branch.
  split; [reflexivity|].
  destruct (match_archetype d) as [name|] eqn:E; simpl.
  - repeat split; try discriminate. left. eapply match_archetype_names; eauto.
  - repeat split; try discriminate. right.
    split; [reflexivity|]. split; [reflexivity|]. split.
    + unfold first_part.
      repeat (match goal with |- context [if ?b then _ else _] => destruct b end);
        simpl; tauto.
    + unfold second_part.
      repeat (match goal with |- context [if ?b then _ else _] => destruct b end);
        simpl; tauto.
Qed.

(** ** Feature extraction *)





Lemma extract_features_rows (vlt_records : list vlt_record) :
  length (fst (_extract_features vlt_records)) = length vlt_records.
Proof. unfold _extract_features. simpl. apply length_map. Qed.



(** ** Feature extraction on any dictionary *)

Lemma fold_cat_collect_none keys d :
  keys <> [] ->
  fold_result (fun d key => AnyDict.cat_collect AnyDict.NoneValue key key d) d keys
  = Err AnyDict.not_iterable.
Proof. destruct keys; [congruence|reflexivity]. Qed.

Lemma fold_cat_collect_dict m keys d :
  fold_result (fun d key => AnyDict.cat_collect (AnyDict.DictValue m) key key d) d keys
  = Ok (foldl (fun d key => cat_collect m key key d) d keys).
Proof.
  revert d. induction keys as [|key keys IH]; intros d; simpl; [reflexivity|].
  apply IH.
Qed.

Lemma get_dict_of field :
  field <> Some AnyDict.NoneValue ->
  AnyDict.get field = AnyDict.DictValue (default ∅ (AnyDict.dict_of field)).
Proof. destruct field as [[|m]|]; [congruence|reflexivity|reflexivity]. Qed.

Lemma collect_record_none d r :
  AnyDict.has_none r -> AnyDict.collect_record d r = Err AnyDict.not_iterable.
Proof.
  unfold AnyDict.has_none, AnyDict.collect_record.
  destruct (AnyDict.attributes r) as [[|ma]|] eqn:Ha;
    destruct (AnyDict.colors r) as [[|mc]|] eqn:Hc;
    destruct (AnyDict.style r) as [[|ms]|] eqn:Hs;
    intros [Hn|[Hn|Hn]]; try discriminate Hn; reflexivity.
Qed.

Lemma collect_record_dicts d r :
  ~ AnyDict.has_none r ->
  AnyDict.collect_record d r = Ok (collect_record d (AnyDict.as_vlt_record r)).
Proof.
  unfold AnyDict.has_none, AnyDict.collect_record, collect_record.
  intros Hn.
  rewrite !get_dict_of by tauto.
  rewrite fold_cat_collect_dict. unfold AnyDict.cat_collect at 1 2.
  cbv beta iota.
  rewrite fold_cat_collect_dict. reflexivity.
Qed.

Lemma categorical_values_none rs d :
  Exists AnyDict.has_none rs ->
  fold_result AnyDict.collect_record d rs = Err AnyDict.not_iterable.
Proof.
  intros Hex. revert d. induction Hex as [r rs Hr|r rs _ IH]; intros d; simpl.
  - rewrite collect_record_none by exact Hr. reflexivity.
  - destruct (AnyDict.collect_record d r) as [e|d'] eqn:Hd; [|apply IH].
    assert (Hnone : AnyDict.has_none r).
    { unfold AnyDict.has_none.
      destruct (AnyDict.attributes r) as [[|ma]|] eqn:Ha; auto;
        destruct (AnyDict.colors r) as [[|mc]|] eqn:Hc; auto;
        destruct (AnyDict.style r) as [[|ms]|] eqn:Hs; auto;
        exfalso; rewrite collect_record_dicts in Hd;
        try discriminate Hd;
        unfold AnyDict.has_none; rewrite Ha, Hc, Hs;
        intros [?|[?|?]]; discriminate. }
    rewrite collect_record_none in Hd by exact Hnone. congruence.
Qed.






(** C6: the claim fails on the code.  A field that is present with the value
    [None], which is how main_minimal.py passes a field a request leaves
    out, makes [_extract_features] raise [TypeError] at the first membership
    test on it: [record.get(name, {})] falls back to the empty dictionary
    for a missing key only.  One such record anywhere in the batch is
    enough. *)
Theorem extract_features_none_field records :
  Exists AnyDict.has_none records ->
  AnyDict._extract_features records
  = Err (TypeError "argument of type 'NoneType' is not iterable").
Proof.
  intros Hex. unfold AnyDict._extract_features, AnyDict.categorical_values.
  rewrite categorical_values_none by exact Hex. reflexivity.
Qed.


Lemma extract_features_none_field_witness :
  Exists AnyDict.has_none [Minimal.VLTRecord_dict Minimal.colours_only] /\
  AnyDict._extract_features [Minimal.VLTRecord_dict Minimal.colours_only]
  = Err (TypeError "argument of type 'NoneType' is not iterable").
Proof.
  assert (Hnone : Exists AnyDict.has_none
                    [Minimal.VLTRecord_dict Minimal.colours_only])
    by (constructor; left; reflexivity).
  split; [exact Hnone|].
  exact (extract_features_none_field _ Hnone).
Defined.


(** ** Cluster analysis *)

Lemma insert_desc_perm {A} (gt : A -> A -> bool) x l :
  insert_desc gt x l ≡ₚ x :: l.
Proof.
  induction l as [|y l IH]; simpl; [reflexivity|].
  destruct (gt y x); [|reflexivity].
  rewrite IH. apply Permutation_swap.
Qed.

Lemma sort_desc_perm {A} (gt : A -> A -> bool) l : sort_desc gt l ≡ₚ l.
Proof.
  induction l as [|x l IH]; simpl; [reflexivity|].
  rewrite insert_desc_perm. now constructor.
Qed.

Lemma sum_Qc_perm l1 l2 : l1 ≡ₚ l2 -> sum_Qc l1 = sum_Qc l2.
Proof.
  induction 1; simpl; try congruence.
  rewrite !Qcplus_assoc, (Qcplus_comm x y). reflexivity.
Qed.

Lemma mask_sum_cons b mask :
  mask_sum (b :: mask) = ((if b then 1 else 0) + mask_sum mask)%nat.
Proof.
  unfold mask_sum. destruct b.
  - rewrite filter_cons_True by reflexivity. reflexivity.
  - rewrite filter_cons_False by discriminate. reflexivity.
Qed.

Lemma one_label_counted l n :
  (l < n)%nat ->
  sum_list_with (fun c => if (c =? l)%nat then 1%nat else 0%nat) (seq 0 n) = 1%nat.
Proof.
  intros Hl.
  assert (G : forall m start,
             sum_list_with (fun c => if (c =? l)%nat then 1%nat else 0%nat)
               (seq start m)
             = if bool_decide (start <= l < start + m)%nat then 1%nat else 0%nat).
  { induction m as [|m IH]; intros start; simpl.
    - case_bool_decide; [lia|reflexivity].
    - rewrite IH. destruct (Nat.eqb_spec start l); repeat case_bool_decide; lia. }
  rewrite G. case_bool_decide; [reflexivity|lia].
Qed.

(** Every label below the number of clusters is counted by exactly one
    cluster mask. *)
Lemma mask_sums_total (labels : list nat) (n : nat) :
  Forall (fun l => (l < n)%nat) labels ->
  sum_list_with (fun c => mask_sum (map (Nat.eqb c) labels)) (seq 0 n)
  = length labels.
Proof.
  induction 1 as [|l labels Hl _ IH]; simpl.
  - induction (seq 0 n); simpl; auto.
  - transitivity
      (sum_list_with (fun c => if (c =? l)%nat then 1%nat else 0%nat) (seq 0 n)
       + sum_list_with (fun c => mask_sum (map (Nat.eqb c) labels)) (seq 0 n))%nat.
    + clear. induction (seq 0 n) as [|c cs IHc]; simpl; [reflexivity|].
      rewrite mask_sum_cons, IHc. lia.
    + rewrite IH, (one_label_counted l n Hl). reflexivity.
Qed.

Lemma max_list_bound (labels : list nat) :
  Forall (fun l => (l < max_list labels + 1)%nat) labels.
Proof.
  apply Forall_forall. intros l Hl. apply max_list_elem_of_le in Hl. lia.
Qed.

Lemma map_result_ok {A B} (f : A -> result B) l ys :
  map_result f l = Ok ys -> Forall2 (fun x y => f x = Ok y) l ys.
Proof.
  revert ys. induction l as [|x l IH]; simpl; intros ys Hys.
  - injection Hys as <-. constructor.
  - destruct (f x) as [e|y] eqn:Hx; [discriminate|].
    destruct (map_result f l) as [e|ys'] eqn:Hl; [discriminate|].
    injection Hys as <-. constructor; auto.
Qed.


Section AnalysisFacts.
Context `{Sklearn}.

(** What a successful [cluster_info] says about its arguments and result. *)
Lemma cluster_info_ok vlt_records labels probabilities features cluster_id c :
  cluster_info vlt_records labels probabilities features cluster_id = Ok c ->
  (length vlt_records <= length labels)%nat /\
  length labels = length features /\
  cl_id c = cluster_id /\
  cl_size c = mask_sum (map (Nat.eqb cluster_id) labels) /\
  cl_percentage c =
    (float_of_nat (mask_sum (map (Nat.eqb cluster_id) labels))
     / float_of_nat (length vlt_records) * Qc_of_Z 100)%Qc /\
  cl_style_summary c = _summarize_cluster_style (cl_dominant_attributes c) /\
  cl_dominant_attributes c =
    _find_dominant_attributes (select (map (Nat.eqb cluster_id) labels) vlt_records).
Proof.
  unfold cluster_info. rewrite !length_map.
  destruct (Nat.ltb_spec (length labels) (length vlt_records)); [discriminate|].
  destruct (Nat.eqb_spec (length labels) (length features)); [|discriminate].
  destruct (Nat.eqb_spec (length labels) (length probabilities)); [|discriminate].
  simpl. destruct (column cluster_id probabilities); [|discriminate].
  intros [= <-]. simpl. repeat split; auto.
Qed.

Lemma sizes_and_percentages (vlt_records : list vlt_record) labels ids cs :
  Forall2 (fun cid c =>
             cl_size c = mask_sum (map (Nat.eqb cid) labels) /\
             cl_percentage c =
               (float_of_nat (mask_sum (map (Nat.eqb cid) labels))
                / float_of_nat (length vlt_records) * Qc_of_Z 100)%Qc) ids cs ->
  sum_list_with cl_size cs
    = sum_list_with (fun c => mask_sum (map (Nat.eqb c) labels)) ids /\
  sum_Qc (map cl_percentage cs)
    = (float_of_nat (sum_list_with cl_size cs)
       / float_of_nat (length vlt_records) * Qc_of_Z 100)%Qc.
Proof.
  induction 1 as [|cid c ids cs [Hs Hp] _ [IHs IHp]]; simpl.
  - split; [reflexivity|]. unfold float_of_nat. simpl.
    change (Z.of_nat 0) with 0%Z. rewrite Z2Qc_inj_0. unfold Qcdiv. ring.
  - split; [lia|]. rewrite IHp, Hp, <- Hs.
    unfold float_of_nat. rewrite Nat2Z.inj_add, Z2Qc_inj_add.
    unfold Qcdiv. ring.
Qed.

(** The clusters returned by [_analyze_clusters] partition the batch. *)
Lemma analyze_clusters_partition vlt_records labels probabilities features
    feature_names cs :
  length features = length vlt_records ->
  _analyze_clusters vlt_records labels probabilities features feature_names
    = Ok cs ->
  length labels = length vlt_records /\
  vlt_records <> [] /\
  sum_list_with cl_size cs = length vlt_records /\
  sum_Qc (map cl_percentage cs) = Qc_of_Z 100.
Proof.
  intros Hfeat. unfold _analyze_clusters.
  destruct labels as [|l0 labels']; [discriminate|].
  set (labels := l0 :: labels').
  destruct (map_result _ _) as [e|cs0] eqn:Hmap; [discriminate|].
  intros [= <-]. apply map_result_ok in Hmap.
  assert (Hlen : length labels = length vlt_records).
  { rewrite Nat.add_1_r in Hmap. simpl in Hmap.
    inversion Hmap as [|? c0 ? ? H0 _]; subst.
    apply cluster_info_ok in H0 as (? & ? & _). lia. }
  assert (Hne : vlt_records <> []).
  { intros ->. simpl in Hlen. discriminate. }
  assert (Hall : Forall2 (fun cid c =>
             cl_size c = mask_sum (map (Nat.eqb cid) labels) /\
             cl_percentage c =
               (float_of_nat (mask_sum (map (Nat.eqb cid) labels))
                / float_of_nat (length vlt_records) * Qc_of_Z 100)%Qc)
           (seq 0 (max_list labels + 1)) cs0).
  { eapply Forall2_impl; [exact Hmap|]. intros cid c Hc. simpl in Hc.
    apply cluster_info_ok in Hc as (_ & _ & _ & Hs & Hp & _). auto. }
  apply sizes_and_percentages in Hall as [Hs Hp].
  rewrite mask_sums_total in Hs by apply max_list_bound.
  split; [exact Hlen|]. split; [exact Hne|].
  rewrite (sum_Qc_perm _ (map cl_percentage cs0))
    by (apply fmap_Permutation, sort_desc_perm).
  rewrite (sort_desc_perm _ cs0).
  split; [lia|]. rewrite Hp, Hs, Hlen.
  assert (Hnz : float_of_nat (length vlt_records) <> 0%Qc).
  { unfold float_of_nat. intros Hz.
    rewrite <- Z2Qc_inj_0 in Hz. apply Z2Qc_inj in Hz.
    destruct vlt_records; [congruence|simpl in Hz; lia]. }
  unfold Qcdiv. rewrite Qcmult_inv_r by exact Hnz. ring.
Qed.
End AnalysisFacts.

(** ** Running the profiler monad *)

Section Runs.
Context `{Sklearn}.

Lemma bind_ok {A B} (m : M A) (k : A -> M B) w b w' :
  (m ≫= k) w = (Ok b, w') ->
  exists a w1, m w = (Ok a, w1) /\ k a w1 = (Ok b, w').
Proof.
  unfold mbind, M_bind, bind. destruct (m w) as [[e|a] w1]; [discriminate|].
  eauto.
Qed.

Lemma bind_run {A B} (m : M A) (k : A -> M B) w a w1 :
  m w = (Ok a, w1) -> (m ≫= k) w = k a w1.
Proof. unfold mbind, M_bind, bind. intros ->. reflexivity. Qed.

Lemma bind_unfold {A B} (m : M A) (k : A -> M B) w :
  (m ≫= k) w = match m w with
               | (inl e, w') => (Err e, w')
               | (inr a, w') => k a w'
               end.
Proof. reflexivity. Qed.

Lemma ret_ok {A} (a b : A) w w' :
  (mret a : M A) w = (Ok b, w') -> b = a /\ w' = w.
Proof. intros [= -> ->]. auto. Qed.

Lemma emit_ok ev w u w' : emit ev w = (Ok u, w') -> w' = add_event ev w.
Proof. intros [= _ <-]. reflexivity. Qed.

Lemma log_ok level msg w u w' :
  log level msg w = (Ok u, w') -> w' = add_event (Logged level msg) w.
Proof. apply emit_ok. Qed.

Lemma modify_ok f w u w' : modify f w = (Ok u, w') -> w' = f w.
Proof. intros [= _ <-]. reflexivity. Qed.

Lemma read_ok {A} (f : world -> A) w a w' :
  read f w = (Ok a, w') -> a = f w /\ w' = w.
Proof. intros [= <- <-]. auto. Qed.

Lemma lift_ok {A} (r : result A) w a w' :
  lift r w = (Ok a, w') -> r = Ok a /\ w' = w.
Proof. intros [= -> <-]. auto. Qed.

Lemma call_ok {A} c (r : option A) w a w' :
  call c r w = (Ok a, w') -> r = Some a /\ w' = add_event (Called c) w.
Proof.
  unfold call. destruct r as [a'|]; [|discriminate].
  intros [= <- <-]. auto.
Qed.

Lemma extract_ok vlt_records w r w' :
  extract vlt_records w = (Ok r, w') ->
  r = _extract_features vlt_records /\
  w' = add_event (Extracted (length vlt_records)) w.
Proof. intros [= <- <-]. auto. Qed.
End Runs.

(** Split a successful run at its first bind. *)
Ltac inv_bind H a w1 H1 :=
  apply bind_ok in H as (a & w1 & H1 & H).

(** ** [create_profile] *)

Section CreateFacts.
Context `{Sklearn}.

Lemma fit_clusters_ok vlt_records k w f w' :
  fit_clusters vlt_records k w = (Ok f, w') ->
  fit_n_clusters f
    = (if (Z.of_nat (length vlt_records) <? k)%Z
       then Z.max 1 (Z.of_nat (length vlt_records)) else k) /\
  fit_features f = fst (_extract_features vlt_records) /\
  fit_feature_names f = snd (_extract_features vlt_records) /\
  Called (GMMFitPredict (fit_n_clusters f)) ∈ trace w'.
Proof.
  unfold fit_clusters. intros Hrun.
  inv_bind Hrun k' w1 Hk.
  assert (k' = if (Z.of_nat (length vlt_records) <? k)%Z
               then Z.max 1 (Z.of_nat (length vlt_records)) else k) as ->.
  { destruct (_ <? _)%Z.
    - inv_bind Hk u w0 Hlog. apply ret_ok in Hk as [-> _]. reflexivity.
    - apply ret_ok in Hk as [-> _]. reflexivity. }
  inv_bind Hrun r w2 Hex. apply extract_ok in Hex as [-> ->].
  destruct (_extract_features vlt_records) as [features names].
  inv_bind Hrun r w3 Hsc. destruct r as [sc Xs].
  inv_bind Hrun c w4 Hc.
  inv_bind Hrun g w5 Hg.
  inv_bind Hrun r w6 Hp. destruct r as [[pc Xp] g'].
  inv_bind Hrun u w7 Hm.
  inv_bind Hrun g2 w8 Hg2.
  inv_bind Hrun r w9 Hf. destruct r as [mix labels].
  inv_bind Hrun P w10 HP.
  apply ret_ok in Hrun as [-> ->]. simpl.
  repeat split.
  apply call_ok in HP as [_ ->]. apply call_ok in Hf as [_ ->].
  simpl. set_solver.
Qed.

Lemma save_profile_ok uid p g s pc w u w' :
  _save_profile uid p g s pc w = (Ok u, w') ->
  profiles w' = profiles w /\
  profile_files w' !! uid = Some p /\
  model_files w' !! uid = Some (g, s, pc) /\
  np_random w' = np_random w /\ now w' = now w.
Proof.
  unfold _save_profile. intros [= _ <-]. simpl.
  rewrite !lookup_insert_eq. auto.
Qed.

(** A successful [create_profile], taken apart. *)
Lemma create_profile_ok uid vlt_records k w p w' :
  create_profile uid vlt_records k w = (Ok p, w') ->
  exists f w0 w1,
    fit_clusters vlt_records k w0 = (Ok f, w1) /\
    _analyze_clusters vlt_records (fit_cluster_labels f) (fit_probabilities f)
      (fit_features f) (fit_feature_names f) = Ok (clusters p) /\
    user_id p = uid /\
    n_records p = length vlt_records /\
    n_clusters p = fit_n_clusters f /\
    statistics p = _compute_statistics vlt_records (clusters p) /\
    profiles w' !! uid = Some p /\
    profile_files w' !! uid = Some p /\
    (forall ev, ev ∈ trace w1 -> ev ∈ trace w').
Proof.
  unfold create_profile. intros Hrun.
  inv_bind Hrun u0 w0 Hlog.
  inv_bind Hrun f w1 Hfit.
  inv_bind Hrun cs w2 Han. apply lift_ok in Han as [Han ->].
  inv_bind Hrun imp w3 Himp.
  inv_bind Hrun t1 w4 Ht1. apply read_ok in Ht1 as [-> ->].
  inv_bind Hrun t2 w5 Ht2. apply read_ok in Ht2 as [-> ->].
  inv_bind Hrun u1 w6 Hsave. apply save_profile_ok in Hsave as Hsaved.
  destruct Hsaved as (_ & Hfile & _).
  inv_bind Hrun u2 w7 Hcache. apply modify_ok in Hcache as ->.
  inv_bind Hrun u3 w8 Hlog2. apply log_ok in Hlog2 as ->.
  apply ret_ok in Hrun as [-> ->].
  exists f, w0, w1. simpl. rewrite lookup_insert_eq.
  repeat split; auto.
  intros ev Hev.
  assert (Hsub : forall ev, ev ∈ trace w1 -> ev ∈ trace w3).
  { clear -Himp. unfold _compute_feature_importance in Himp.
    destruct (_ <? _)%nat.
    - apply ret_ok in Himp as [_ ->]. auto.
    - inv_bind Himp g w4 Hg. apply read_ok in Hg as [-> ->].
      inv_bind Himp imps w5 Hc. apply call_ok in Hc as [_ ->].
      apply ret_ok in Himp as [_ ->]. simpl. set_solver. }
  unfold _save_profile in Hsave. injection Hsave as <-. simpl.
  apply Hsub in Hev. set_solver.
Qed.

(** C1: the clusters of a profile returned by [create_profile] for a batch
    of N records have sizes that sum to N and percentages that sum to 100
    (floats read as exact rationals); the profile records N as its record
    count.  A returned profile implies a non-empty batch. *)
Theorem create_profile_sizes_sum uid vlt_records k w p w' :
  create_profile uid vlt_records k w = (Ok p, w') ->
  vlt_records <> [] /\
  n_records p = length vlt_records /\
  sum_list_with cl_size (clusters p) = length vlt_records /\
  sum_Qc (map cl_percentage (clusters p)) = Qc_of_Z 100.
Proof.
  intros Hrun.
  apply create_profile_ok in Hrun
    as (f & w0 & w1 & Hfit & Han & _ & Hn & _).
  apply fit_clusters_ok in Hfit as (_ & Hfeat & _).
  apply analyze_clusters_partition in Han as (_ & Hne & Hs & Hp).
  - auto.
  - rewrite Hfeat. apply extract_features_rows.
Qed.
End CreateFacts.

(** The demo profiler after [create_profile] on three garments. *)
Lemma create_profile_sizes_sum_witness :
  exists p w',
    @create_profile Demo.sklearn "u"
      [Demo.blazer; Demo.gown; Demo.slip_dress] 2 Demo.fresh = (Ok p, w') /\
    [Demo.blazer; Demo.gown; Demo.slip_dress] <> [] /\
    n_records p = 3%nat /\
    sum_list_with cl_size (clusters p) = 3%nat /\
    sum_Qc (map cl_percentage (clusters p)) = Qc_of_Z 100.
Proof.
  assert (Hret : returned (fst (@create_profile Demo.sklearn "u"
              [Demo.blazer; Demo.gown; Demo.slip_dress] 2 Demo.fresh)) = true)
    by (vm_compute; reflexivity).
  destruct (@create_profile Demo.sklearn "u"
              [Demo.blazer; Demo.gown; Demo.slip_dress] 2 Demo.fresh)
    as [[e|p] w'] eqn:Hrun; [discriminate Hret|].
  exists p, w'. split; [reflexivity|].
  exact (create_profile_sizes_sum _ _ _ _ _ _ Hrun).
Defined.

(** Membership of an event in an explicit list of events. *)
Ltac in_events H :=
  repeat first [ apply elem_of_app in H as [H|H]
               | apply elem_of_cons in H as [H|H] ];
  try (apply elem_of_nil in H; destruct H).


Section ClampFacts.
Context `{Sklearn}.

#[local] Arguments Nat.min : simpl never.
#[local] Arguments Z.max : simpl never.
#[local] Arguments _extract_features : simpl never.
#[local] Arguments n_unique : simpl never.



#[local] Arguments String.append : simpl never.
#[local] Arguments pretty : simpl never.


End ClampFacts.



(** ** [update_profile] *)

Section UpdateFacts.
Context `{Sklearn}.

Lemma get_profile_run uid w :
  exists w1,
    get_profile uid w = (Ok (existing_profile w uid), w1) /\
    model_files w1 = model_files w /\
    np_random w1 = np_random w /\
    now w1 = now w /\
    (existing_profile w uid = None -> w1 = w).
Proof.
  unfold get_profile, existing_profile, read, emit, modify.
  unfold mbind, mret, M_bind, M_ret, bind, ret.
  destruct (profiles w !! uid) as [p|] eqn:Hc.
  - exists w. repeat split; auto; discriminate.
  - destruct (profile_files w !! uid) as [p|] eqn:Hd.
    + eexists. split; [reflexivity|]. simpl. repeat split; auto; discriminate.
    + exists w. repeat split; auto.
Qed.

(** C7: [update_profile] for a user with neither a cached nor a persisted
    profile raises [ValueError("No existing profile found for user ...")],
    the profile-not-found error, having only written its log line: no
    feature extraction and no library call is made, and the store is
    untouched. *)
Theorem update_profile_unknown_user uid new_vlt_records w :
  existing_profile w uid = None ->
  update_profile uid new_vlt_records w
    = (Err (ValueError ("No existing profile found for user " +:+ uid)),
       add_event
         (Logged "INFO" ("Updating style profile for " +:+ uid +:+ " with "
                         +:+ pretty (length new_vlt_records) +:+ " new records"))
         w) /\
  filter (fun ev => is_computation ev = true)
    (trace (snd (update_profile uid new_vlt_records w)))
  = filter (fun ev => is_computation ev = true) (trace w).
Proof.
  intros Hnone.
  assert (Hrun : update_profile uid new_vlt_records w
    = (Err (ValueError ("No existing profile found for user " +:+ uid)),
       add_event
         (Logged "INFO" ("Updating style profile for " +:+ uid +:+ " with "
                         +:+ pretty (length new_vlt_records) +:+ " new records"))
         w)).
  { unfold update_profile.
    erewrite bind_run by reflexivity.
    set (w0 := add_event _ w).
    assert (Hnone0 : existing_profile w0 uid = None) by exact Hnone.
    destruct (get_profile_run uid w0) as (w1 & Hget & _ & _ & _ & Hsame).
    rewrite Hnone0 in Hget. rewrite (Hsame Hnone0) in Hget.
    erewrite bind_run by exact Hget. reflexivity. }
  split; [exact Hrun|].
  rewrite Hrun. simpl. rewrite filter_app. simpl.
  rewrite filter_cons_False by discriminate.
  rewrite filter_nil. apply app_nil_r.
Qed.

(** A successful [update_profile], taken apart. *)
Lemma update_profile_ok uid new_vlt_records w p' w' :
  update_profile uid new_vlt_records w = (Ok p', w') ->
  exists p mixture sc pc Xs Xp new_labels new_probabilities,
    existing_profile w uid = Some p /\
    model_files w !! uid = Some (mixture, sc, pc) /\
    scaler_transform sc (fst (_extract_features new_vlt_records)) = Some Xs /\
    pca_transform pc Xs = Some Xp /\
    gmm_predict mixture Xp = Some new_labels /\
    gmm_predict_proba mixture Xp = Some new_probabilities /\
    _update_cluster_stats (clusters p) new_vlt_records new_labels
      new_probabilities (fst (_extract_features new_vlt_records))
      (snd (_extract_features new_vlt_records)) = (clusters p', None) /\
    n_records p' = (n_records p + length new_vlt_records)%nat /\
    statistics p' = _compute_statistics [] (clusters p') /\
    user_id p' = user_id p /\
    n_clusters p' = n_clusters p /\
    profiles w' !! uid = Some p' /\
    profile_files w' !! uid = Some p'.
Proof.
  unfold update_profile. intros Hrun.
  inv_bind Hrun u0 w0 Hlog. apply log_ok in Hlog as ->.
  inv_bind Hrun existing w1 Hget.
  destruct (get_profile_run uid
              (add_event (Logged "INFO"
                 ("Updating style profile for " +:+ uid +:+ " with "
                  +:+ pretty (length new_vlt_records) +:+ " new records")) w))
    as (w1' & Hget' & Hmodels & _).
  rewrite Hget' in Hget. injection Hget as <- <-.
  change (existing_profile (add_event _ w) uid) with (existing_profile w uid) in Hrun.
  destruct (existing_profile w uid) as [p|] eqn:Hex; [|discriminate].
  inv_bind Hrun models w2 Hload. destruct models as [[mixture sc] pc].
  assert (Hm : model_files w !! uid = Some (mixture, sc, pc) ).
  { unfold _load_models in Hload.
    inv_bind Hload m w3 Hread. apply read_ok in Hread as [-> ->].
    rewrite Hmodels in Hload. simpl in Hload.
    destruct (model_files w !! uid) as [m|]; [|discriminate].
    inv_bind Hload u1 w4 Hev. apply ret_ok in Hload as [-> _]. reflexivity. }
  inv_bind Hrun r w3 Hext. apply extract_ok in Hext as [-> ->].
  destruct (_extract_features new_vlt_records) as [new_features names] eqn:Hfeat.
  inv_bind Hrun Xs w4 Hsc. apply call_ok in Hsc as [Hsc ->].
  inv_bind Hrun Xp w5 Hpca. apply call_ok in Hpca as [Hpca ->].
  inv_bind Hrun labels w6 Hpred. apply call_ok in Hpred as [Hpred ->].
  inv_bind Hrun probs w7 Hprob. apply call_ok in Hprob as [Hprob ->].
  destruct (_update_cluster_stats (clusters p) new_vlt_records labels probs
              new_features names) as [updated raised] eqn:Hupd.
  inv_bind Hrun u2 w8 Hmod. apply modify_ok in Hmod as ->.
  destruct raised as [e|]; [discriminate|].
  inv_bind Hrun t w9 Hnow. apply read_ok in Hnow as [-> ->].
  inv_bind Hrun u3 w10 Hmod2. apply modify_ok in Hmod2 as ->.
  inv_bind Hrun u4 w11 Hsave. apply save_profile_ok in Hsave as (Hprofiles & Hfile & _).
  inv_bind Hrun u5 w12 Hmod3. apply modify_ok in Hmod3 as ->.
  inv_bind Hrun u6 w13 Hlog2. apply log_ok in Hlog2 as ->.
  apply ret_ok in Hrun as [-> ->].
  exists p, mixture, sc, pc, Xs, Xp, labels, probs. simpl.
  rewrite lookup_insert_eq. repeat split; auto.
Qed.

(** C8: a successful [update_profile] for a user with an existing profile
    stores and returns a profile whose record count is the old count plus
    the size of the new batch, hence strictly larger for a non-empty batch. *)
Theorem update_profile_record_count uid new_vlt_records w p p' w' :
  existing_profile w uid = Some p ->
  update_profile uid new_vlt_records w = (Ok p', w') ->
  n_records p' = (n_records p + length new_vlt_records)%nat /\
  existing_profile w' uid = Some p' /\
  profile_files w' !! uid = Some p' /\
  (new_vlt_records <> [] -> (n_records p < n_records p')%nat).
Proof.
  intros Hex Hrun.
  apply update_profile_ok in Hrun
    as (p0 & ? & ? & ? & ? & ? & ? & ? & Hex0 & _ & _ & _ & _ & _ & _ &
        Hn & _ & _ & _ & Hcache & Hfile).
  rewrite Hex in Hex0. injection Hex0 as <-.
  split; [exact Hn|]. split.
  { unfold existing_profile. rewrite Hcache. reflexivity. }
  split; [exact Hfile|].
  intros Hne. rewrite Hn. destruct new_vlt_records; [congruence|simpl; lia].
Qed.

(** C4: the profile returned (and stored) by a successful [update_profile]
    has statistics recomputed from the empty record list that
    [_get_all_vlt_records] returns: empty garment, colour and style
    distributions and a diversity score of 0, whatever the new records. *)
Theorem update_profile_statistics_reset uid new_vlt_records w p' w' :
  update_profile uid new_vlt_records w = (Ok p', w') ->
  statistics p' = _compute_statistics (_get_all_vlt_records uid) (clusters p') /\
  garment_distribution (statistics p') = ∅ /\
  color_distribution (statistics p') = ∅ /\
  style_distribution (statistics p') = ∅ /\
  diversity_score (statistics p') = 0%Qc /\
  existing_profile w' uid = Some p'.
Proof.
  intros Hrun.
  apply update_profile_ok in Hrun
    as (p0 & ? & ? & ? & ? & ? & ? & ? & _ & _ & _ & _ & _ & _ & _ &
        _ & Hstats & _ & _ & Hcache & _).
  rewrite Hstats. unfold _get_all_vlt_records. simpl.
  repeat split; auto.
  unfold existing_profile. rewrite Hcache. reflexivity.
Qed.
End UpdateFacts.

Lemma update_profile_unknown_user_witness :
  existing_profile Demo.after_create "nobody" = None /\
  @update_profile Demo.sklearn "nobody" [Demo.gown] Demo.after_create
    = (Err (ValueError "No existing profile found for user nobody"),
       add_event
         (Logged "INFO" "Updating style profile for nobody with 1 new records")
         Demo.after_create) /\
  filter (fun ev => is_computation ev = true)
    (trace (snd (@update_profile Demo.sklearn "nobody" [Demo.gown] Demo.after_create)))
  = filter (fun ev => is_computation ev = true) (trace Demo.after_create).
Proof.
  assert (Hnone : existing_profile Demo.after_create "nobody" = None)
    by (vm_compute; reflexivity).
  split; [exact Hnone|].
  exact (@update_profile_unknown_user Demo.sklearn "nobody" [Demo.gown]
           Demo.after_create Hnone).
Defined.

Lemma update_profile_record_count_witness :
  exists p p' w',
    existing_profile Demo.after_create "u" = Some p /\
    @update_profile Demo.sklearn "u" [Demo.gown; Demo.trench] Demo.after_create
      = (Ok p', w') /\
    n_records p = 3%nat /\
    n_records p' = (n_records p + 2)%nat /\
    existing_profile w' "u" = Some p' /\
    profile_files w' !! "u" = Some p' /\
    ([Demo.gown; Demo.trench] <> [] -> (n_records p < n_records p')%nat).
Proof.
  assert (Hsome : n_records <$> existing_profile Demo.after_create "u" = Some 3%nat)
    by (vm_compute; reflexivity).
  assert (Hret : returned (fst (@update_profile Demo.sklearn "u"
              [Demo.gown; Demo.trench] Demo.after_create)) = true)
    by (vm_compute; reflexivity).
  destruct (existing_profile Demo.after_create "u") as [p|] eqn:Hex;
    [|discriminate Hsome].
  destruct (@update_profile Demo.sklearn "u" [Demo.gown; Demo.trench]
              Demo.after_create) as [[e|p'] w'] eqn:Hrun; [discriminate Hret|].
  exists p, p', w'. split; [reflexivity|]. split; [reflexivity|].
  split; [injection Hsome as ->; reflexivity|].
  exact (@update_profile_record_count Demo.sklearn "u" [Demo.gown; Demo.trench]
           Demo.after_create p p' w' Hex Hrun).
Defined.

Lemma update_profile_statistics_reset_witness :
  exists p' w',
    @update_profile Demo.sklearn "u" [Demo.gown; Demo.trench] Demo.after_create
      = (Ok p', w') /\
    statistics p' = _compute_statistics (@_get_all_vlt_records "u") (clusters p') /\
    garment_distribution (statistics p') = ∅ /\
    color_distribution (statistics p') = ∅ /\
    style_distribution (statistics p') = ∅ /\
    diversity_score (statistics p') = 0%Qc /\
    existing_profile w' "u" = Some p'.
Proof.
  assert (Hret : returned (fst (@update_profile Demo.sklearn "u"
              [Demo.gown; Demo.trench] Demo.after_create)) = true)
    by (vm_compute; reflexivity).
  destruct (@update_profile Demo.sklearn "u" [Demo.gown; Demo.trench]
              Demo.after_create) as [[e|p'] w'] eqn:Hrun; [discriminate Hret|].
  exists p', w'. split; [reflexivity|].
  exact (@update_profile_statistics_reset Demo.sklearn "u"
           [Demo.gown; Demo.trench] Demo.after_create p' w' Hrun).
Defined.

(** ** [_update_cluster_stats] and the order of the cluster list *)

(** What [update_cluster] does at list position [j]: when some new label
    equals [j], the cluster found at that position gets the new members
    counted and its dominant attributes recomputed from them alone. *)
Lemma update_cluster_at_position new_records new_labels j c :
  length new_labels = length new_records ->
  j ∈ new_labels ->
  exists c',
    update_cluster new_records new_labels j c = Ok c' /\
    cl_id c' = cl_id c /\
    cl_size c' = (cl_size c
                  + length (select (map (Nat.eqb j) new_labels) new_records))%nat /\
    cl_dominant_attributes c' =
      _find_dominant_attributes (select (map (Nat.eqb j) new_labels) new_records).
Proof.
  intros Hlen Hj. unfold update_cluster.
  assert (Hany : existsb (fun b : bool => b) (map (Nat.eqb j) new_labels) = true).
  { apply existsb_exists. exists true. split; [|reflexivity].
    apply in_map_iff. exists j. split; [apply Nat.eqb_refl|].
    apply list_elem_of_In, Hj. }
  rewrite Hany, length_map, Hlen, Nat.ltb_irrefl.
  eexists. split; [reflexivity|]. simpl. auto.
Qed.

(** C3 (the code departs from the claim): [_analyze_clusters] sorts the
    clusters by size, so the cluster with id 1 can stand at position 0.
    [_update_cluster_stats] matches the new labels against list positions:
    a new record that the mixture assigns to component 1 is added to the
    cluster at position 1, which is the cluster with id 0, and that
    cluster's dominant attributes are overwritten; the cluster with id 1 is
    left as it was. *)
Theorem update_cluster_stats_wrong_cluster :
  let records := [Demo.blazer; Demo.gown; Demo.slip_dress] in
  let created :=
    @_analyze_clusters Demo.sklearn records Demo.labels_011 Demo.probabilities_011
      (fst (_extract_features records)) (snd (_extract_features records)) in
  let updated :=
    outcome (fun cs => _update_cluster_stats cs [Demo.gown] [1%nat] [[0; 1]]%Qc
                         (fst (_extract_features [Demo.gown]))
                         (snd (_extract_features [Demo.gown]))) created in
  outcome (map (fun c => (cl_id c, cl_size c, cl_style_summary c))) created
    = Ok [(1, 2, "Fluid Evening"); (0, 1, "Minimalist Tailoring")]%nat /\
  outcome (fun r => (map (fun c => (cl_id c, cl_size c)) (fst r), snd r)) updated
    = Ok ([(1, 2); (0, 2)]%nat, None) /\
  outcome (fun r => map (fun c => cl_dominant_attributes c !! "silhouette") (fst r))
    updated
    = Ok [Some ("a-line", 2%nat); Some ("a-line", 1%nat)].
Proof.
  repeat split; vm_compute; reflexivity.
Qed.

(** ** [create_profile] on an empty batch *)

Section EmptyBatch.
Context `{Sklearn}.

#[local] Arguments Nat.min : simpl never.
#[local] Arguments Z.max : simpl never.
#[local] Arguments String.append : simpl never.

Lemma analyze_clusters_empty_batch labels probabilities feature_names :
  returned (_analyze_clusters [] labels probabilities [] feature_names) = false.
Proof.
  unfold _analyze_clusters. destruct labels as [|l labels]; [reflexivity|].
  rewrite Nat.add_1_r. reflexivity.
Qed.

Lemma computation_added (w : world) (out : result profile * world) rest :
  trace (snd out) = (trace w ++ rest)%list ->
  (exists ev, ev ∈ rest /\ is_computation ev = true) ->
  ~ rejected_before_computation w out.
Proof.
  intros Htrace (ev & Hev & Hcomp) (_ & Hsame).
  rewrite Htrace, filter_app in Hsame.
  assert (Hin : ev ∈ filter (fun ev => is_computation ev = true) rest).
  { apply list_elem_of_filter. auto. }
  destruct (filter _ rest) as [|x l] eqn:Hf; [inversion Hin|].
  apply (f_equal length) in Hsame. rewrite length_app in Hsame.
  simpl in Hsame. lia.
Qed.

(** C2, as the code has it: [create_profile] has no check for an empty
    batch.  Called with no records it never returns a profile, but it first
    runs feature extraction on the empty batch and hands the empty matrix to
    the scaler; the exception is the one raised there or at a later numeric
    step (the scaler's, when the scaler rejects the empty matrix), so the run
    is not a validation failure that aborts before computation.  A requested
    count above 0 is lowered to 1 with a warning, any other is kept, and a
    mixture fit, if the run gets there, uses that count.  The cache, the
    profile files and the models files are left as they were. *)
Theorem create_profile_empty_batch uid k w :
  exists e w' rest,
    create_profile uid [] k w = (Err e, w') /\
    trace w' = (trace w ++ rest)%list /\
    Extracted 0 ∈ rest /\
    Called ScalerFitTransform ∈ rest /\
    (scaler_fit_transform [] = None -> e = LibraryError ScalerFitTransform) /\
    (Logged "WARNING" "Only 0 records, reducing clusters to 0" ∈ rest <-> (0 < k)%Z) /\
    (forall n, Called (GMMFitPredict n) ∈ rest ->
               n = if (0 <? k)%Z then 1%Z else k) /\
    same_store w w' /\
    ~ rejected_before_computation w (create_profile uid [] k w).
Proof.
  assert (Hgoal : exists e w' rest,
    create_profile uid [] k w = (Err e, w') /\
    trace w' = (trace w ++ rest)%list /\
    Extracted 0 ∈ rest /\
    Called ScalerFitTransform ∈ rest /\
    (scaler_fit_transform [] = None -> e = LibraryError ScalerFitTransform) /\
    (Logged "WARNING" "Only 0 records, reducing clusters to 0" ∈ rest <-> (0 < k)%Z) /\
    (forall n, Called (GMMFitPredict n) ∈ rest ->
               n = if (0 <? k)%Z then 1%Z else k) /\
    same_store w w').
  { unfold create_profile, fit_clusters, extract, log, call, emit, modify, read, lift.
    unfold mbind, mret, M_bind, M_ret, bind, ret.
    change (_extract_features []) with (@nil (list Qc), @nil string).
    assert (Hanalyze := analyze_clusters_empty_batch).
    change (Z.of_nat (length (@nil vlt_record))) with 0%Z.
    change (pretty (length (@nil vlt_record))) with "0".
    destruct (Z.ltb_spec 0 k) as [Hk|Hk]; simpl;
      (destruct (scaler_fit_transform []) as [[sc Xs]|]; simpl;
       [ destruct (shape_1 Xs) as [e1|n_columns]; simpl;
         [ | destruct (pca_fit_transform _ _ Xs) as [[[pc Xp] g']|]; simpl;
             [ destruct (gmm_fit_predict _ _ _ _ Xp) as [[mixture labels]|]; simpl;
               [ destruct (gmm_predict_proba mixture Xp) as [probabilities|]; simpl;
                 [ specialize (Hanalyze labels probabilities []);
                   destruct (_analyze_clusters [] labels probabilities [] [])
                     as [e2|cs]; simpl; [|discriminate Hanalyze]
                 | ]
               | ]
             | ] ]
       | ]);
      (eexists _, _, _; split; [reflexivity|]; simpl;
       split; [rewrite <- ?app_assoc; reflexivity|];
       split; [set_solver|]; split; [set_solver|];
       split; [try discriminate; auto|];
       split;
         [ split;
           [ intros Hin; try exact Hk; exfalso; in_events Hin; discriminate Hin
           | intros Hk'; try lia;
             apply elem_of_app; right; apply elem_of_app; left;
             apply list_elem_of_singleton; reflexivity ]
         | ];
       split;
         [ intros n Hin; in_events Hin; try discriminate Hin;
           injection Hin as Hin; subst n; reflexivity
         | repeat split ]). }
  destruct Hgoal as (e & w' & rest & Hrun & Htrace & Hext & Hsc & He & Hwarn & Hgmm & Hs).
  exists e, w', rest. repeat split; auto; try apply Hwarn; try apply Hs.
  apply (computation_added w _ rest).
  - rewrite Hrun. exact Htrace.
  - exists (Extracted 0). split; [exact Hext|reflexivity].
Qed.
End EmptyBatch.

Lemma create_profile_empty_batch_witness :
  exists e w' rest,
    @create_profile Demo.sklearn "u" [] 5 Demo.fresh = (Err e, w') /\
    trace w' = (trace Demo.fresh ++ rest)%list /\
    Extracted 0 ∈ rest /\
    Called ScalerFitTransform ∈ rest /\
    (@scaler_fit_transform Demo.sklearn [] = None ->
     e = LibraryError ScalerFitTransform) /\
    (Logged "WARNING" "Only 0 records, reducing clusters to 0" ∈ rest
     <-> (0 < 5)%Z) /\
    (forall n, Called (GMMFitPredict n) ∈ rest -> n = 1%Z) /\
    same_store Demo.fresh w' /\
    ~ rejected_before_computation Demo.fresh
        (@create_profile Demo.sklearn "u" [] 5 Demo.fresh).
Proof.
  exact (@create_profile_empty_batch Demo.sklearn "u" 5 Demo.fresh).
Defined.

(** C2, as stated, fails: on the demo profiler [create_profile] with no
    records raises the scaler's error after feature extraction has run, not
    a validation error before any computation. *)
Lemma create_profile_empty_not_validated :
  let out := @create_profile Demo.sklearn "u" [] 5 Demo.fresh in
  fst out = Err (LibraryError ScalerFitTransform) /\
  filter (fun ev => is_computation ev = true) (trace (snd out))
    = [Extracted 0; Called ScalerFitTransform] /\
  ~ rejected_before_computation Demo.fresh out.
Proof.
  split; [vm_compute; reflexivity|].
  split; [vm_compute; reflexivity|].
  intros (_ & Hsame). vm_compute in Hsame. discriminate Hsame.
Qed.

(** ** Repeatability of [create_profile] *)

Section Determinism.
Context `{Sklearn}.

#[local] Arguments Nat.min : simpl never.
#[local] Arguments Z.max : simpl never.
#[local] Arguments String.append : simpl never.

(** The fit depends on the state of the profiler only through the generator
    handed to [PCA]: the mixture is seeded with 42. *)
Lemma fit_clusters_agree vlt_records k w1 w2 :
  pca_exact ->
  fst (fit_clusters vlt_records k w1) = fst (fit_clusters vlt_records k w2).
Proof.
  intros Hpca.
  destruct (_extract_features vlt_records) as [features names] eqn:Hex.
  unfold fit_clusters, extract, log, call, emit, modify, read, lift.
  unfold mbind, mret, M_bind, M_ret, bind, ret.
  rewrite Hex.
  destruct (Z.of_nat (length vlt_records) <? k)%Z; simpl;
    (destruct (scaler_fit_transform features) as [[sc Xs]|]; simpl; [|reflexivity];
     destruct (shape_1 Xs) as [e|n_columns]; simpl; [reflexivity|];
     specialize (Hpca (10 `min` (length Xs `min` n_columns))%nat
                   (np_random w1) (np_random w2) Xs);
     destruct (pca_fit_transform _ (np_random w1) Xs) as [[[pc1 Xp1] g1]|];
     destruct (pca_fit_transform _ (np_random w2) Xs) as [[[pc2 Xp2] g2]|];
     simpl in Hpca; try discriminate Hpca; simpl; [|reflexivity];
     injection Hpca as -> ->;
     destruct (gmm_fit_predict _ _ _ _ Xp2) as [[mixture labels]|]; simpl;
       [|reflexivity];
     destruct (gmm_predict_proba mixture Xp2); reflexivity).
Qed.

(** What the seeds do give: when [PCA] computes its projection without
    drawing random numbers, two [create_profile] calls with the same records
    and the same requested cluster count, from any two states of the
    profiler (cache, files, clock, state of numpy's global generator), give
    the same cluster label to every record and the same clusters, ids and
    style names included, or raise the same exception. *)
Lemma create_profile_repeatable uid vlt_records k w1 w2 :
  pca_exact ->
  outcome fit_cluster_labels (fst (fit_clusters vlt_records k w1))
    = outcome fit_cluster_labels (fst (fit_clusters vlt_records k w2)) /\
  outcome clusters (fst (create_profile uid vlt_records k w1))
    = outcome clusters (fst (create_profile uid vlt_records k w2)) /\
  outcome (fun p => map cl_style_summary (clusters p))
      (fst (create_profile uid vlt_records k w1))
    = outcome (fun p => map cl_style_summary (clusters p))
        (fst (create_profile uid vlt_records k w2)).
Proof.
  intros Hpca.
  split; [rewrite (fit_clusters_agree vlt_records k w1 w2 Hpca); reflexivity|].
  assert (Hclusters :
    outcome clusters (fst (create_profile uid vlt_records k w1))
    = outcome clusters (fst (create_profile uid vlt_records k w2))).
  { unfold create_profile.
    rewrite (bind_unfold _ _ w1), (bind_unfold _ _ w2).
    unfold log, emit, modify. cbv beta iota.
    rewrite !(bind_unfold (fit_clusters vlt_records k)).
    pose proof (fit_clusters_agree vlt_records k
      (add_event (Logged "INFO" ("Creating style profile for " +:+ uid +:+ " with "
                  +:+ pretty (length vlt_records) +:+ " records")) w1)
      (add_event (Logged "INFO" ("Creating style profile for " +:+ uid +:+ " with "
                  +:+ pretty (length vlt_records) +:+ " records")) w2) Hpca)
      as Hfit.
    destruct (fit_clusters vlt_records k (add_event _ w1)) as [[e1|f1] wa];
      destruct (fit_clusters vlt_records k (add_event _ w2)) as [[e2|f2] wb];
      simpl in Hfit; try discriminate Hfit.
    - injection Hfit as ->. reflexivity.
    - injection Hfit as ->.
      unfold _compute_feature_importance, _save_profile, log, call, emit, modify,
        read, lift.
      unfold mbind, mret, M_bind, M_ret, bind, ret.
      destruct (_analyze_clusters vlt_records (fit_cluster_labels f2)
                  (fit_probabilities f2) (fit_features f2) (fit_feature_names f2))
        as [e|cs]; [reflexivity|].
      destruct (n_unique (fit_cluster_labels f2) <? 2)%nat; [reflexivity|].
      simpl.
      destruct (forest_importances 50 (seed_rng 42) (fit_features f2)
                  (fit_cluster_labels f2)); reflexivity. }
  split; [exact Hclusters|].
  destruct (fst (create_profile uid vlt_records k w1)) as [e1|p1];
    destruct (fst (create_profile uid vlt_records k w2)) as [e2|p2];
    simpl in *; congruence.
Qed.
End Determinism.

Lemma create_profile_repeatable_witness :
  @pca_exact Demo.sklearn /\
  returned (fst (@create_profile Demo.sklearn "u"
                   [Demo.blazer; Demo.gown; Demo.slip_dress] 2 Demo.fresh)) = true /\
  outcome fit_cluster_labels
      (fst (@fit_clusters Demo.sklearn [Demo.blazer; Demo.gown; Demo.slip_dress] 2
              Demo.fresh))
    = outcome fit_cluster_labels
        (fst (@fit_clusters Demo.sklearn [Demo.blazer; Demo.gown; Demo.slip_dress] 2
                Demo.later)) /\
  outcome clusters
      (fst (@create_profile Demo.sklearn "u"
              [Demo.blazer; Demo.gown; Demo.slip_dress] 2 Demo.fresh))
    = outcome clusters
        (fst (@create_profile Demo.sklearn "u"
                [Demo.blazer; Demo.gown; Demo.slip_dress] 2 Demo.later)) /\
  outcome (fun p => map cl_style_summary (clusters p))
      (fst (@create_profile Demo.sklearn "u"
              [Demo.blazer; Demo.gown; Demo.slip_dress] 2 Demo.fresh))
    = outcome (fun p => map cl_style_summary (clusters p))
        (fst (@create_profile Demo.sklearn "u"
                [Demo.blazer; Demo.gown; Demo.slip_dress] 2 Demo.later)).
Proof.
  assert (Hpca : @pca_exact Demo.sklearn) by (intros n g1 g2 X; reflexivity).
  split; [exact Hpca|].
  split; [vm_compute; reflexivity|].
  exact (@create_profile_repeatable Demo.sklearn "u"
           [Demo.blazer; Demo.gown; Demo.slip_dress] 2 Demo.fresh Demo.later Hpca).
Defined.


(** * Further properties *)

(** ** Order of the clusters *)

Lemma insert_desc_sorted x l :
  StronglySorted before_cluster l ->
  Forall (fun y => (cl_id x < cl_id y)%nat) l ->
  StronglySorted before_cluster
    (insert_desc (fun y x => (cl_size x <? cl_size y)%nat) x l).
Proof.
  induction 1 as [|y l Hl IH Hy]; intros Hid; simpl.
  - repeat constructor.
  - inversion Hid as [|? ? Hxy Hrest]; subst.
    destruct (Nat.ltb_spec (cl_size x) (cl_size y)) as [Hlt|Hge].
    + constructor; [auto|].
      assert (Hperm := insert_desc_perm (fun y x => (cl_size x <? cl_size y)%nat) x l).
      rewrite Hperm. constructor; [left; exact Hlt|exact Hy].
    + constructor; [constructor; assumption|].
      constructor.
      * unfold before_cluster. lia.
      * rewrite Forall_forall in Hy, Hrest |- *. intros z Hz.
        specialize (Hy z Hz). specialize (Hrest z Hz).
        unfold before_cluster in *. lia.
Qed.

Lemma sort_desc_sorted (l : list cluster) :
  StronglySorted (fun a b => (cl_id a < cl_id b)%nat) l ->
  StronglySorted before_cluster
    (sort_desc (fun y x => (cl_size x <? cl_size y)%nat) l).
Proof.
  induction 1 as [|x l Hl IH Hx]; simpl; [constructor|].
  apply insert_desc_sorted; [exact IH|].
  rewrite (sort_desc_perm _ l). exact Hx.
Qed.

Lemma seq_strictly_sorted start n : StronglySorted lt (seq start n).
Proof.
  revert start. induction n as [|n IH]; intros start; simpl; constructor; auto.
  apply Forall_forall. intros y Hy. apply elem_of_seq in Hy. lia.
Qed.

Lemma omap_length_le {A B} (f : A -> option B) (l : list A) :
  (length (omap f l) <= length l)%nat.
Proof.
  induction l as [|x l IH]; [reflexivity|].
  cbn. destruct (f x); cbn; fold (omap f l); lia.
Qed.

Section ClusterOrder.
Context `{Sklearn}.

(** X1: [_analyze_clusters] returns one cluster for every component id from
    0 to the largest label (also for ids no record has), ordered by
    decreasing size, clusters of equal size by increasing id. *)
Theorem analyze_clusters_order vlt_records labels probabilities features
    feature_names cs :
  _analyze_clusters vlt_records labels probabilities features feature_names
    = Ok cs ->
  map cl_id cs ≡ₚ seq 0 (max_list labels + 1) /\
  length cs = (max_list labels + 1)%nat /\
  StronglySorted before_cluster cs.
Proof.
  unfold _analyze_clusters. destruct labels as [|l0 labels']; [discriminate|].
  set (labels := l0 :: labels').
  destruct (map_result _ _) as [e|cs0] eqn:Hmap; [discriminate|].
  intros [= <-]. apply map_result_ok in Hmap.
  assert (Hids : map cl_id cs0 = seq 0 (max_list labels + 1)).
  { clear -Hmap. induction Hmap as [|cid c ids cs1 Hc _ IH]; simpl; [reflexivity|].
    apply cluster_info_ok in Hc as (_ & _ & -> & _). rewrite IH. reflexivity. }
  split; [|split].
  - rewrite <- Hids. apply fmap_Permutation, sort_desc_perm.
  - rewrite (sort_desc_perm _ cs0), <- (length_map cl_id), Hids. apply length_seq.
  - apply sort_desc_sorted.
    assert (Hs := seq_strictly_sorted 0 (max_list labels + 1)).
    rewrite <- Hids in Hs. clear -Hs.
    induction cs0 as [|c cs0 IH]; [constructor|].
    simpl in Hs. inversion Hs as [|? ? Hs' Hall]; subst.
    constructor; [auto|]. rewrite Forall_fmap in Hall. exact Hall.
Qed.

Lemma slice_from_minus_zero {A} (a : list A) : slice_from_minus 0 a = a.
Proof.
  unfold slice_from_minus.
  destruct (Z.ltb_spec (- 0) 0); [lia|].
  replace (Z.to_nat _) with 0%nat by lia. reflexivity.
Qed.

Lemma slice_from_minus_all {A} (a : list A) :
  slice_from_minus (Z.of_nat (length a)) a = a.
Proof.
  unfold slice_from_minus.
  destruct (Z.ltb_spec (- Z.of_nat (length a)) 0).
  - replace (Z.to_nat _) with 0%nat by lia. reflexivity.
  - replace (Z.to_nat _) with 0%nat by lia. reflexivity.
Qed.

Lemma slice_from_minus_length {A} (n : Z) (a : list A) :
  (0 < n)%Z -> (length (slice_from_minus n a) <= Z.to_nat n)%nat.
Proof.
  intros Hn. unfold slice_from_minus. rewrite length_drop.
  destruct (Z.ltb_spec (- n) 0); lia.
Qed.

Lemma find_representative_records_elem records probabilities n s :
  s ∈ _find_representative_records records probabilities n ->
  exists i r, records !! i = Some r /\ s = record_label i r.
Proof.
  unfold _find_representative_records. intros Hs.
  apply list_elem_of_omap in Hs as (i & _ & Hi).
  destruct (i <? length records)%nat; [|discriminate].
  destruct (records !! i) as [r|] eqn:Hr; [|discriminate].
  simpl in Hi. injection Hi as <-. exists i, r. auto.
Qed.

(** X2: for a positive [n_representatives], [_find_representative_records]
    returns at most that many entries, whatever order [argsort] produces; for
    0 it returns what it returns for the full length, since [[-0:]] keeps the
    whole order.  Each entry is the [imageId] of one of the given records,
    else its [id], else ["record_<i>"] for its position. *)
Theorem find_representative_records_bound records probabilities n :
  ((0 < n)%Z ->
   (length (_find_representative_records records probabilities n)
    <= Z.to_nat n)%nat) /\
  _find_representative_records records probabilities 0
  = _find_representative_records records probabilities
      (Z.of_nat (length (argsort probabilities))) /\
  forall s, s ∈ _find_representative_records records probabilities n ->
            exists i r, records !! i = Some r /\ s = record_label i r.
Proof.
  split; [|split; [|apply find_representative_records_elem]].
  - intros Hn. unfold _find_representative_records.
    etransitivity; [apply omap_length_le|].
    rewrite length_reverse. apply slice_from_minus_length, Hn.
  - unfold _find_representative_records.
    rewrite slice_from_minus_zero, slice_from_minus_all. reflexivity.
Qed.
End ClusterOrder.

Lemma analyze_clusters_order_witness :
  exists cs,
    @_analyze_clusters Demo.sklearn [Demo.blazer; Demo.gown; Demo.slip_dress]
      Demo.labels_011 Demo.probabilities_011
      (fst (_extract_features [Demo.blazer; Demo.gown; Demo.slip_dress]))
      (snd (_extract_features [Demo.blazer; Demo.gown; Demo.slip_dress]))
    = Ok cs /\
    map cl_id cs ≡ₚ seq 0 (max_list Demo.labels_011 + 1) /\
    length cs = (max_list Demo.labels_011 + 1)%nat /\
    StronglySorted before_cluster cs.
Proof.
  assert (Hret : returned
    (@_analyze_clusters Demo.sklearn [Demo.blazer; Demo.gown; Demo.slip_dress]
      Demo.labels_011 Demo.probabilities_011
      (fst (_extract_features [Demo.blazer; Demo.gown; Demo.slip_dress]))
      (snd (_extract_features [Demo.blazer; Demo.gown; Demo.slip_dress]))) = true)
    by (vm_compute; reflexivity).
  destruct (@_analyze_clusters Demo.sklearn [Demo.blazer; Demo.gown; Demo.slip_dress]
      Demo.labels_011 Demo.probabilities_011
      (fst (_extract_features [Demo.blazer; Demo.gown; Demo.slip_dress]))
      (snd (_extract_features [Demo.blazer; Demo.gown; Demo.slip_dress])))
    as [e|cs] eqn:Hrun; [discriminate Hret|].
  exists cs. split; [reflexivity|].
  exact (@analyze_clusters_order Demo.sklearn _ _ _ _ _ _ Hrun).
Defined.

(** ** What an update changes *)

Lemma select_length {A} (mask : list bool) (xs : list A) :
  length mask = length xs -> length (select mask xs) = mask_sum mask.
Proof.
  revert xs. induction mask as [|b mask IH]; intros [|x xs] Hlen;
    try discriminate; [reflexivity|].
  rewrite mask_sum_cons. simpl. injection Hlen as Hlen.
  destruct b; simpl; rewrite IH by exact Hlen; reflexivity.
Qed.

Lemma mask_sum_count (j : nat) (labels : list nat) :
  mask_sum (map (Nat.eqb j) labels) = length (filter (fun l => l = j) labels).
Proof.
  induction labels as [|l labels IH]; [reflexivity|].
  simpl map. rewrite mask_sum_cons, IH.
  destruct (Nat.eqb_spec j l) as [->|Hne].
  - rewrite filter_cons_True by reflexivity. reflexivity.
  - rewrite filter_cons_False by congruence. reflexivity.
Qed.

Lemma mask_none (mask : list bool) :
  existsb (fun b => b) mask = false -> mask_sum mask = 0%nat.
Proof.
  induction mask as [|b mask IH]; [reflexivity|].
  simpl. rewrite mask_sum_cons. destruct b; [discriminate|]. simpl. exact IH.
Qed.

Lemma count_range_step (labels : list nat) (j n : nat) :
  (length (filter (fun l => l = j) labels)
   + length (filter (fun l => (S j <= l < S j + n)%nat) labels))%nat
  = length (filter (fun l => (j <= l < j + S n)%nat) labels).
Proof.
  induction labels as [|l labels IH]; [reflexivity|].
  rewrite !filter_cons. repeat case_decide; cbn [length]; lia.
Qed.

Section UpdateAccounting.
Context `{Sklearn}.

Lemma update_cluster_spec new_records new_labels j c :
  length new_labels = length new_records ->
  exists c',
    update_cluster new_records new_labels j c = Ok c' /\
    same_description c c' /\
    cl_size c' = (cl_size c + length (filter (fun l => l = j) new_labels))%nat.
Proof.
  intros Hlen. unfold update_cluster.
  destruct (existsb _ _) eqn:Hany.
  - rewrite length_map, Hlen, Nat.ltb_irrefl.
    eexists. split; [reflexivity|]. simpl.
    rewrite select_length by (rewrite length_map; exact Hlen).
    rewrite mask_sum_count. unfold same_description. simpl.
    repeat split; auto; lia.
  - exists c. split; [reflexivity|].
    apply mask_none in Hany. rewrite mask_sum_count in Hany. rewrite Hany.
    unfold same_description. repeat split; auto; lia.
Qed.

Lemma update_cluster_same new_records new_labels j c c' :
  update_cluster new_records new_labels j c = Ok c' -> same_description c c'.
Proof.
  unfold update_cluster, same_description.
  destruct (existsb _ _); [destruct (_ <? _)%nat; [discriminate|]|];
    intros [= <-]; simpl; repeat split; auto; lia.
Qed.

Lemma update_clusters_from_same new_records new_labels j existing updated raised :
  update_clusters_from new_records new_labels j existing = (updated, raised) ->
  Forall2 same_description existing updated.
Proof.
  assert (Hrefl : forall c, same_description c c)
    by (intros c; unfold same_description; repeat split; auto).
  revert j updated raised.
  induction existing as [|c rest IH]; intros j updated raised; simpl.
  - intros [= <- _]. constructor.
  - destruct (update_cluster new_records new_labels j c) as [e|c'] eqn:Hc.
    + intros [= <- _]. apply Forall_Forall2_diag, Forall_forall. auto.
    + destruct (update_clusters_from new_records new_labels (S j) rest)
        as [rest' e] eqn:Hrest.
      intros [= <- _]. constructor; [|eapply IH; eauto].
      eapply update_cluster_same; eauto.
Qed.

Lemma update_clusters_from_sizes new_records new_labels j existing :
  length new_labels = length new_records ->
  exists updated,
    update_clusters_from new_records new_labels j existing = (updated, None) /\
    sum_list_with cl_size updated
    = (sum_list_with cl_size existing
       + length (filter (fun l => (j <= l < j + length existing)%nat) new_labels))%nat.
Proof.
  intros Hlen. revert j. induction existing as [|c rest IH]; intros j; simpl.
  - exists []. split; [reflexivity|]. simpl.
    replace (filter (fun l => (j <= l < j + 0)%nat) new_labels) with (@nil nat);
      [reflexivity|].
    clear. induction new_labels as [|l ls IHl]; [reflexivity|].
    rewrite filter_cons_False by lia. exact IHl.
  - destruct (update_cluster_spec new_records new_labels j c Hlen)
      as (c' & Hc & _ & Hsize).
    destruct (IH (S j)) as (rest' & Hrest & Hsum).
    rewrite Hc, Hrest. eexists. split; [reflexivity|]. simpl.
    rewrite Hsize, Hsum, <- (count_range_step new_labels j (length rest)). lia.
Qed.

(** X3: given one label per new record, [_update_cluster_stats] raises
    nothing, keeps the number and the order of the clusters and each
    cluster's id, percentage, confidence, representatives and style name, and
    raises the total of the sizes by the number of new records whose label
    is a position of the cluster list; records with a larger label are
    counted nowhere. *)
Theorem update_cluster_stats_accounting existing new_records new_labels
    new_probabilities new_features feature_names :
  length new_labels = length new_records ->
  exists updated,
    _update_cluster_stats existing new_records new_labels new_probabilities
      new_features feature_names = (updated, None) /\
    Forall2 same_description existing updated /\
    sum_list_with cl_size updated
    = (sum_list_with cl_size existing
       + length (filter (fun l => (l < length existing)%nat) new_labels))%nat.
Proof.
  intros Hlen. unfold _update_cluster_stats.
  destruct (update_clusters_from_sizes new_records new_labels 0 existing Hlen)
    as (updated & Hrun & Hsum).
  exists updated. split; [exact Hrun|]. split.
  - eapply update_clusters_from_same; eauto.
  - rewrite Hsum. f_equal. f_equal.
    apply list_filter_iff. intros l. lia.
Qed.
End UpdateAccounting.

(** ** What the store operations leave alone *)

Section Preservation.
Context `{Sklearn}.

Lemma bind_cases {A B} (m : M A) (k : A -> M B) w r w' :
  (m ≫= k) w = (r, w') ->
  (exists e, m w = (Err e, w') /\ r = Err e) \/
  (exists a w1, m w = (Ok a, w1) /\ k a w1 = (r, w')).
Proof.
  unfold mbind, M_bind, bind. destruct (m w) as [[e|a] w1].
  - intros [= <- <-]. left. eauto.
  - intros Hk. right. eauto.
Qed.

Section Relation.
Variable R : world -> world -> Prop.
Hypothesis R_refl : forall w, R w w.
Hypothesis R_trans : forall w1 w2 w3, R w1 w2 -> R w2 w3 -> R w1 w3.
Hypothesis R_event : forall ev w, R w (add_event ev w).
Hypothesis R_random : forall g w, R w (set_np_random g w).

Lemma preserves_bind {A B} (m : M A) (k : A -> M B) :
  preserves R m -> (forall a, preserves R (k a)) -> preserves R (m ≫= k).
Proof.
  intros Hm Hk w r w' Hrun.
  apply bind_cases in Hrun as [(e & Hrun & _)|(a & w1 & Hrun & Hrest)].
  - eapply Hm; eauto.
  - eapply R_trans; [eapply Hm; eauto|eapply Hk; eauto].
Qed.

Lemma preserves_ret {A} (a : A) : preserves R (mret a : M A).
Proof. intros w r w' [= _ <-]. apply R_refl. Qed.

Lemma preserves_raise {A} e : preserves R (raise e : M A).
Proof. intros w r w' [= _ <-]. apply R_refl. Qed.

Lemma preserves_lift {A} (x : result A) : preserves R (lift x).
Proof. intros w r w' [= _ <-]. apply R_refl. Qed.

Lemma preserves_read {A} (f : world -> A) : preserves R (read f).
Proof. intros w r w' [= _ <-]. apply R_refl. Qed.

Lemma preserves_emit ev : preserves R (emit ev).
Proof. intros w r w' [= _ <-]. apply R_event. Qed.

Lemma preserves_log level msg : preserves R (log level msg).
Proof. apply preserves_emit. Qed.

Lemma preserves_call {A} c (x : option A) : preserves R (call c x).
Proof.
  unfold call. apply preserves_bind; [apply preserves_emit|].
  intros _. destruct x; [apply preserves_ret|apply preserves_raise].
Qed.

Lemma preserves_extract vlt_records : preserves R (extract vlt_records).
Proof.
  unfold extract. apply preserves_bind; [apply preserves_emit|].
  intros _. apply preserves_ret.
Qed.

Lemma preserves_set_random g : preserves R (modify (set_np_random g)).
Proof. intros w r w' [= _ <-]. apply R_random. Qed.

Lemma preserves_fit_clusters vlt_records k :
  preserves R (fit_clusters vlt_records k).
Proof.
  unfold fit_clusters.
  apply preserves_bind.
  { destruct (_ <? _)%Z; [|apply preserves_ret].
    apply preserves_bind; [apply preserves_log|intros _; apply preserves_ret]. }
  intros n. apply preserves_bind; [apply preserves_extract|].
  intros [features names]. apply preserves_bind; [apply preserves_call|].
  intros [sc Xs]. apply preserves_bind; [apply preserves_lift|].
  intros n_columns. apply preserves_bind; [apply preserves_read|].
  intros g. apply preserves_bind; [apply preserves_call|].
  intros [[pc Xp] g']. apply preserves_bind; [apply preserves_set_random|].
  intros _. apply preserves_bind; [apply preserves_read|].
  intros g2. apply preserves_bind; [apply preserves_call|].
  intros [mixture labels]. apply preserves_bind; [apply preserves_call|].
  intros P. apply preserves_ret.
Qed.

Lemma preserves_feature_importance features feature_names labels :
  preserves R (_compute_feature_importance features feature_names labels).
Proof.
  unfold _compute_feature_importance.
  destruct (_ <? _)%nat; [apply preserves_ret|].
  apply preserves_bind; [apply preserves_read|].
  intros g. apply preserves_bind; [apply preserves_call|].
  intros imps. apply preserves_ret.
Qed.

Lemma preserves_load_models uid : preserves R (_load_models uid).
Proof.
  unfold _load_models. apply preserves_bind; [apply preserves_read|].
  intros [m|]; [|apply preserves_raise].
  apply preserves_bind; [apply preserves_emit|intros _; apply preserves_ret].
Qed.
End Relation.
End Preservation.

Section StoreFacts.
Context `{Sklearn}.

Lemma same_store_refl w : same_store w w.
Proof. unfold same_store. auto. Qed.

Lemma same_store_trans w1 w2 w3 :
  same_store w1 w2 -> same_store w2 w3 -> same_store w1 w3.
Proof. unfold same_store. intros (-> & -> & ->) (-> & -> & ->). auto. Qed.

Lemma same_files_refl w : same_files w w.
Proof. unfold same_files. auto. Qed.

Lemma same_files_trans w1 w2 w3 :
  same_files w1 w2 -> same_files w2 w3 -> same_files w1 w3.
Proof. unfold same_files. intros (-> & ->) (-> & ->). auto. Qed.

Lemma others_untouched_refl uid w : others_untouched uid w w.
Proof. intros uid' _. auto. Qed.

Lemma others_untouched_trans uid w1 w2 w3 :
  others_untouched uid w1 w2 -> others_untouched uid w2 w3 ->
  others_untouched uid w1 w3.
Proof.
  intros H12 H23 uid' Hne.
  rewrite (H23 uid' Hne). apply H12, Hne.
Qed.

Lemma save_profile_returns uid p g s pc w :
  exists w', _save_profile uid p g s pc w = (Ok tt, w') /\
             profiles w' = profiles w /\
             profile_files w' = <[ uid := p ]> (profile_files w) /\
             model_files w' = <[ uid := (g, s, pc) ]> (model_files w).
Proof. eexists. split; [reflexivity|]. simpl. auto. Qed.

Lemma preserves_get_profile_files uid : preserves same_files (get_profile uid).
Proof.
  intros w r w' Hrun.
  destruct (get_profile_run uid w) as (w1 & Hget & Hm & _).
  rewrite Hget in Hrun. injection Hrun as _ <-.
  split; [|exact Hm].
  clear -Hget. unfold get_profile, read, emit, modify in Hget.
  unfold mbind, mret, M_bind, M_ret, bind, ret in Hget.
  destruct (profiles w !! uid); [injection Hget as _ <-; reflexivity|].
  destruct (profile_files w !! uid); injection Hget as _ <-; reflexivity.
Qed.

Lemma preserves_get_profile_others uid :
  preserves (others_untouched uid) (get_profile uid).
Proof.
  intros w r w' Hrun uid' Hne.
  unfold get_profile, read, emit, modify in Hrun.
  unfold mbind, mret, M_bind, M_ret, bind, ret in Hrun.
  destruct (profiles w !! uid); [injection Hrun as _ <-; auto|].
  destruct (profile_files w !! uid); injection Hrun as _ <-; simpl; auto.
  rewrite lookup_insert_ne by congruence. auto.
Qed.

Lemma preserves_save_others uid p g s pc :
  preserves (others_untouched uid) (_save_profile uid p g s pc).
Proof.
  intros w r w' Hrun uid' Hne.
  destruct (save_profile_returns uid p g s pc w) as (w1 & Hsave & Hp & Hf & Hm).
  rewrite Hsave in Hrun. injection Hrun as _ <-.
  rewrite Hp. reflexivity.
Qed.

Lemma preserves_cache_others uid p :
  preserves (others_untouched uid) (modify (set_profiles <[ uid := p ]>)).
Proof.
  intros w r w' [= _ <-] uid' Hne. simpl.
  rewrite lookup_insert_ne by congruence. auto.
Qed.

Lemma preserves_cache_files f : preserves same_files (modify (set_profiles f)).
Proof. intros w r w' [= _ <-]. split; reflexivity. Qed.

(** X4: a [create_profile] that raises leaves the cache and both files of
    every user exactly as they were: the profile and the models are written
    only after every step that can fail. *)
Theorem create_profile_failure_keeps_store uid vlt_records k w e w' :
  create_profile uid vlt_records k w = (Err e, w') -> same_store w w'.
Proof.
  unfold create_profile. intros Hrun.
  pose proof same_store_refl as Hrefl. pose proof same_store_trans as Htrans.
  assert (Hev : forall ev w0, same_store w0 (add_event ev w0))
    by (intros; split; [|split]; reflexivity).
  assert (Hrnd : forall g w0, same_store w0 (set_np_random g w0))
    by (intros; split; [|split]; reflexivity).
  apply bind_cases in Hrun as [(? & Hbad & _)|(u0 & w0 & Hlog & Hrun)];
    [discriminate Hbad|].
  apply log_ok in Hlog as ->.
  apply bind_cases in Hrun as [(? & Hfit & _)|(f & w1 & Hfit & Hrun)].
  { eapply Htrans; [apply Hev|].
    eapply (preserves_fit_clusters same_store); eauto. }
  apply (preserves_fit_clusters same_store Hrefl Htrans Hev Hrnd) in Hfit.
  apply bind_cases in Hrun as [(? & Han & _)|(cs & w2 & Han & Hrun)].
  { injection Han as _ <-. eauto. }
  apply lift_ok in Han as [_ ->].
  apply bind_cases in Hrun as [(? & Himp & _)|(imp & w3 & Himp & Hrun)].
  { apply (preserves_feature_importance same_store Hrefl Htrans Hev) in Himp.
    eauto. }
  exfalso. clear -Hrun.
  apply bind_cases in Hrun as [(? & Hbad & _)|(t1 & w4 & _ & Hrun)];
    [discriminate Hbad|].
  apply bind_cases in Hrun as [(? & Hbad & _)|(t2 & w5 & _ & Hrun)];
    [discriminate Hbad|].
  apply bind_cases in Hrun as [(? & Hbad & _)|(u1 & w6 & _ & Hrun)];
    [discriminate Hbad|].
  apply bind_cases in Hrun as [(? & Hbad & _)|(u2 & w7 & _ & Hrun)];
    [discriminate Hbad|].
  apply bind_cases in Hrun as [(? & Hbad & _)|(u3 & w8 & _ & Hrun)];
    [discriminate Hbad|].
  discriminate Hrun.
Qed.

(** X5: an [update_profile] that raises has written no file: the persisted
    profile and models of every user are as before (the cached profile may
    already have been changed). *)
Theorem update_profile_failure_keeps_files uid new_vlt_records w e w' :
  update_profile uid new_vlt_records w = (Err e, w') -> same_files w w'.
Proof.
  unfold update_profile. intros Hrun.
  pose proof same_files_refl as Hrefl. pose proof same_files_trans as Htrans.
  assert (Hev : forall ev w0, same_files w0 (add_event ev w0))
    by (intros; split; reflexivity).
  apply bind_cases in Hrun as [(? & Hbad & _)|(u0 & w0 & Hlog & Hrun)];
    [discriminate Hbad|].
  apply log_ok in Hlog as ->.
  eapply Htrans; [apply Hev|].
  apply bind_cases in Hrun as [(? & Hget & _)|(existing & w1 & Hget & Hrun)].
  { eapply preserves_get_profile_files; eauto. }
  apply preserves_get_profile_files in Hget.
  eapply Htrans; [exact Hget|]. clear Hget.
  destruct existing as [p|]; [|injection Hrun as _ <-; apply Hrefl].
  apply bind_cases in Hrun as [(? & Hload & _)|([[mixture sc] pc] & w2 & Hload & Hrun)].
  { eapply (preserves_load_models same_files); eauto. }
  apply (preserves_load_models same_files Hrefl Htrans Hev) in Hload.
  eapply Htrans; [exact Hload|]. clear Hload.
  apply bind_cases in Hrun as [(? & Hex & _)|([new_features names] & w3 & Hex & Hrun)].
  { eapply (preserves_extract same_files); eauto. }
  apply (preserves_extract same_files Hrefl Htrans Hev) in Hex.
  eapply Htrans; [exact Hex|]. clear Hex.
  apply bind_cases in Hrun as [(? & Hc & _)|(Xs & w4 & Hc & Hrun)].
  { eapply (preserves_call same_files); eauto. }
  apply (preserves_call same_files Hrefl Htrans Hev) in Hc.
  eapply Htrans; [exact Hc|]. clear Hc.
  apply bind_cases in Hrun as [(? & Hc & _)|(Xp & w5 & Hc & Hrun)].
  { eapply (preserves_call same_files); eauto. }
  apply (preserves_call same_files Hrefl Htrans Hev) in Hc.
  eapply Htrans; [exact Hc|]. clear Hc.
  apply bind_cases in Hrun as [(? & Hc & _)|(labels & w6 & Hc & Hrun)].
  { eapply (preserves_call same_files); eauto. }
  apply (preserves_call same_files Hrefl Htrans Hev) in Hc.
  eapply Htrans; [exact Hc|]. clear Hc.
  apply bind_cases in Hrun as [(? & Hc & _)|(probs & w7 & Hc & Hrun)].
  { eapply (preserves_call same_files); eauto. }
  apply (preserves_call same_files Hrefl Htrans Hev) in Hc.
  eapply Htrans; [exact Hc|]. clear Hc.
  destruct (_update_cluster_stats _ _ _ _ _ _) as [updated raised].
  apply bind_cases in Hrun as [(? & Hbad & _)|(u1 & w8 & Hmod & Hrun)];
    [discriminate Hbad|].
  apply preserves_cache_files in Hmod.
  eapply Htrans; [exact Hmod|]. clear Hmod.
  destruct raised as [e'|]; [injection Hrun as _ <-; apply Hrefl|].
  exfalso. clear -Hrun.
  apply bind_cases in Hrun as [(? & Hbad & _)|(t & w9 & _ & Hrun)];
    [discriminate Hbad|].
  apply bind_cases in Hrun as [(? & Hbad & _)|(u2 & w10 & _ & Hrun)];
    [discriminate Hbad|].
  apply bind_cases in Hrun as [(? & Hbad & _)|(u3 & w11 & _ & Hrun)];
    [discriminate Hbad|].
  apply bind_cases in Hrun as [(? & Hbad & _)|(u4 & w12 & _ & Hrun)];
    [discriminate Hbad|].
  apply bind_cases in Hrun as [(? & Hbad & _)|(u5 & w13 & _ & Hrun)];
    [discriminate Hbad|].
  discriminate Hrun.
Qed.
End StoreFacts.

Section StoreRoundTrips.
Context `{Sklearn}.

(** X6: right after a successful [create_profile], [get_profile] for the
    same user returns the created profile from the cache without changing
    the state; the profile records the number of records, and as cluster
    count the requested one, or max(1, N) when more clusters were requested
    than there are records; the fitted models are on disk. *)
Theorem create_then_get_profile uid vlt_records k w p w' :
  create_profile uid vlt_records k w = (Ok p, w') ->
  get_profile uid w' = (Ok (Some p), w') /\
  user_id p = uid /\
  n_records p = length vlt_records /\
  n_clusters p = (if (Z.of_nat (length vlt_records) <? k)%Z
                  then Z.max 1 (Z.of_nat (length vlt_records)) else k) /\
  profile_files w' !! uid = Some p /\
  is_Some (model_files w' !! uid).
Proof.
  intros Hrun.
  assert (Hmodels : is_Some (model_files w' !! uid)).
  { unfold create_profile in Hrun.
    inv_bind Hrun u0 w0 Hlog. inv_bind Hrun f w1 Hfit.
    inv_bind Hrun cs w2 Han. inv_bind Hrun imp w3 Himp.
    inv_bind Hrun t1 w4 Ht1. inv_bind Hrun t2 w5 Ht2.
    inv_bind Hrun u1 w6 Hsave.
    apply save_profile_ok in Hsave as (_ & _ & Hm & _).
    inv_bind Hrun u2 w7 Hcache. apply modify_ok in Hcache as ->.
    inv_bind Hrun u3 w8 Hlog2. apply log_ok in Hlog2 as ->.
    apply ret_ok in Hrun as [_ ->]. simpl. rewrite Hm. eauto. }
  apply create_profile_ok in Hrun
    as (f & w0 & w1 & Hfit & _ & Huid & Hn & Hk & _ & Hcache & Hfile & _).
  apply fit_clusters_ok in Hfit as (Hclamp & _).
  split.
  { unfold get_profile, read. unfold mbind, mret, M_bind, M_ret, bind, ret.
    rewrite Hcache. reflexivity. }
  rewrite Hk, Hclamp. auto.
Qed.

(** X7: [get_profile] returns the cached profile, else the persisted one
    (which it then caches), else nothing; it never writes a file, and a
    second [get_profile] returns the same answer without changing the state
    again. *)
Theorem get_profile_read_through uid w :
  exists w1,
    get_profile uid w = (Ok (existing_profile w uid), w1) /\
    same_files w w1 /\
    get_profile uid w1 = (Ok (existing_profile w uid), w1) /\
    (forall p, existing_profile w uid = Some p -> profiles w1 !! uid = Some p) /\
    (existing_profile w uid = None -> w1 = w).
Proof.
  destruct (get_profile_run uid w) as (w1 & Hget & Hm & _ & _ & Hnone).
  exists w1. split; [exact Hget|].
  assert (Hfiles : same_files w w1) by (eapply preserves_get_profile_files; eauto).
  split; [exact Hfiles|].
  assert (Hcached : forall p, existing_profile w uid = Some p ->
                              profiles w1 !! uid = Some p).
  { intros p Hp. clear -Hget Hp.
    unfold get_profile, existing_profile, read, emit, modify in *.
    unfold mbind, mret, M_bind, M_ret, bind, ret in Hget.
    destruct (profiles w !! uid) as [q|] eqn:Hc.
    - injection Hget as <-. congruence.
    - rewrite Hp in Hget. injection Hget as <-. simpl. apply lookup_insert_eq. }
  split; [|split; [exact Hcached|exact Hnone]].
  destruct (existing_profile w uid) as [p|] eqn:Hex.
  - unfold get_profile, read. unfold mbind, mret, M_bind, M_ret, bind, ret.
    rewrite (Hcached p eq_refl). reflexivity.
  - pose proof (Hnone eq_refl) as ->. exact Hget.
Qed.

(** X8: whatever [create_profile], [update_profile] and [get_profile] do
    for one user, returning or raising, the cached profile of every other
    user stays as it is: the cache is written under the given id only. *)
Theorem store_operations_isolated uid :
  (forall vlt_records k,
      preserves (others_untouched uid) (create_profile uid vlt_records k)) /\
  (forall new_vlt_records,
      preserves (others_untouched uid) (update_profile uid new_vlt_records)) /\
  preserves (others_untouched uid) (get_profile uid).
Proof.
  pose proof (others_untouched_refl uid) as Hrefl.
  pose proof (others_untouched_trans uid) as Htrans.
  assert (Hev : forall ev w0, others_untouched uid w0 (add_event ev w0))
    by (intros ev w0 uid' _; auto).
  assert (Hrnd : forall g w0, others_untouched uid w0 (set_np_random g w0))
    by (intros g w0 uid' _; auto).
  split; [|split; [|apply preserves_get_profile_others]].
  - intros vlt_records k. unfold create_profile.
    apply preserves_bind; auto; [apply preserves_log; auto|].
    intros _. apply preserves_bind; auto; [apply preserves_fit_clusters; auto|].
    intros f. apply preserves_bind; auto; [apply preserves_lift; auto|].
    intros cs. apply preserves_bind; auto;
      [apply preserves_feature_importance; auto|].
    intros imp. apply preserves_bind; auto; [apply preserves_read; auto|].
    intros t1. apply preserves_bind; auto; [apply preserves_read; auto|].
    intros t2. apply preserves_bind; auto; [apply preserves_save_others|].
    intros _. apply preserves_bind; auto; [apply preserves_cache_others|].
    intros _. apply preserves_bind; auto; [apply preserves_log; auto|].
    intros _. apply preserves_ret; auto.
  - intros new_vlt_records. unfold update_profile.
    apply preserves_bind; auto; [apply preserves_log; auto|].
    intros _. apply preserves_bind; auto; [apply preserves_get_profile_others|].
    intros [p|]; [|apply preserves_raise; auto].
    apply preserves_bind; auto; [apply preserves_load_models; auto|].
    intros [[mixture sc] pc].
    apply preserves_bind; auto; [apply preserves_extract; auto|].
    intros [new_features names].
    apply preserves_bind; auto; [apply preserves_call; auto|].
    intros Xs. apply preserves_bind; auto; [apply preserves_call; auto|].
    intros Xp. apply preserves_bind; auto; [apply preserves_call; auto|].
    intros labels. apply preserves_bind; auto; [apply preserves_call; auto|].
    intros probs.
    destruct (_update_cluster_stats _ _ _ _ _ _) as [updated raised].
    apply preserves_bind; auto; [apply preserves_cache_others|].
    intros _. destruct raised as [e|]; [apply preserves_raise; auto|].
    apply preserves_bind; auto; [apply preserves_read; auto|].
    intros t. apply preserves_bind; auto; [apply preserves_cache_others|].
    intros _. apply preserves_bind; auto; [apply preserves_save_others|].
    intros _. apply preserves_bind; auto; [apply preserves_cache_others|].
    intros _. apply preserves_bind; auto; [apply preserves_log; auto|].
    intros _. apply preserves_ret; auto.
Qed.

(** X9: a profile survives a restart of the service: after a successful
    [create_profile], a new profiler object, whose cache is empty, still
    answers [get_profile] with the created profile, read back from its
    file. *)
Theorem profile_survives_restart uid vlt_records k w p w' :
  create_profile uid vlt_records k w = (Ok p, w') ->
  profiles (__init__ w') = ∅ /\
  exists w2,
    get_profile uid (__init__ w') = (Ok (Some p), w2) /\
    Loaded (profile_path uid) ∈ trace w2 /\
    profiles w2 !! uid = Some p.
Proof.
  intros Hrun.
  apply create_profile_ok in Hrun as (_ & _ & _ & _ & _ & _ & _ & _ & _ & _ & Hfile & _).
  split; [reflexivity|].
  unfold get_profile, read, emit, modify, __init__.
  unfold mbind, mret, M_bind, M_ret, bind, ret. simpl.
  rewrite lookup_empty. simpl. rewrite Hfile. eexists. split; [reflexivity|]. simpl.
  rewrite lookup_insert_eq. split; [set_solver|reflexivity].
Qed.
End StoreRoundTrips.

Section UpdateKeeps.
Context `{Sklearn}.

Lemma save_profile_effect uid p g s pc w u w' :
  _save_profile uid p g s pc w = (Ok u, w') ->
  profiles w' = profiles w /\
  profile_files w' = <[ uid := p ]> (profile_files w) /\
  model_files w' = <[ uid := (g, s, pc) ]> (model_files w) /\
  now w' = now w.
Proof. intros [= _ <-]. simpl. auto. Qed.

(** The profile a successful [update_profile] returns, field by field. *)
Lemma update_profile_fields uid new_vlt_records w p' w' :
  update_profile uid new_vlt_records w = (Ok p', w') ->
  exists p new_labels new_probabilities,
    existing_profile w uid = Some p /\
    _update_cluster_stats (clusters p) new_vlt_records new_labels
      new_probabilities (fst (_extract_features new_vlt_records))
      (snd (_extract_features new_vlt_records)) = (clusters p', None) /\
    feature_importance p' = feature_importance p /\
    created_at p' = created_at p /\
    updated_at p' = now w /\
    model_files w' = model_files w.
Proof.
  unfold update_profile. intros Hrun.
  inv_bind Hrun u0 w0 Hlog. apply log_ok in Hlog as ->.
  inv_bind Hrun existing w1 Hget.
  destruct (get_profile_run uid
              (add_event (Logged "INFO"
                 ("Updating style profile for " +:+ uid +:+ " with "
                  +:+ pretty (length new_vlt_records) +:+ " new records")) w))
    as (w1' & Hget' & Hmodels & _ & Hnow & _).
  rewrite Hget' in Hget. injection Hget as <- <-.
  change (existing_profile (add_event _ w) uid) with (existing_profile w uid) in Hrun.
  destruct (existing_profile w uid) as [p|] eqn:Hex; [|discriminate].
  inv_bind Hrun models w2 Hload. destruct models as [[mixture sc] pc].
  assert (Hm : model_files w !! uid = Some (mixture, sc, pc) /\
               w2 = add_event (Loaded (models_path uid)) w1').
  { unfold _load_models in Hload.
    inv_bind Hload m w3 Hread. apply read_ok in Hread as [-> ->].
    rewrite Hmodels in Hload. simpl in Hload.
    destruct (model_files w !! uid) as [m|]; [|discriminate].
    inv_bind Hload u1 w4 Hev. apply emit_ok in Hev as ->.
    apply ret_ok in Hload as [-> ->]. auto. }
  destruct Hm as (Hm & ->).
  inv_bind Hrun r w3 Hext. apply extract_ok in Hext as [-> ->].
  destruct (_extract_features new_vlt_records) as [new_features names] eqn:Hfeat.
  inv_bind Hrun Xs w4 Hsc. apply call_ok in Hsc as [Hsc ->].
  inv_bind Hrun Xp w5 Hpca. apply call_ok in Hpca as [Hpca ->].
  inv_bind Hrun labels w6 Hpred. apply call_ok in Hpred as [Hpred ->].
  inv_bind Hrun probs w7 Hprob. apply call_ok in Hprob as [Hprob ->].
  destruct (_update_cluster_stats (clusters p) new_vlt_records labels probs
              new_features names) as [updated raised] eqn:Hupd.
  inv_bind Hrun u2 w8 Hmod. apply modify_ok in Hmod as ->.
  destruct raised as [e|]; [discriminate|].
  inv_bind Hrun t w9 Ht. apply read_ok in Ht as [-> ->].
  inv_bind Hrun u3 w10 Hmod2. apply modify_ok in Hmod2 as ->.
  inv_bind Hrun u4 w11 Hsave. apply save_profile_effect in Hsave as (_ & _ & Hmf & _).
  inv_bind Hrun u5 w12 Hmod3. apply modify_ok in Hmod3 as ->.
  inv_bind Hrun u6 w13 Hlog2. apply log_ok in Hlog2 as ->.
  apply ret_ok in Hrun as [-> ->].
  exists p, labels, probs. simpl.
  split; [reflexivity|]. split; [exact Hupd|].
  split; [reflexivity|]. split; [reflexivity|]. split; [exact Hnow|].
  rewrite Hmf. simpl. rewrite Hmodels. simpl. apply insert_id. exact Hm.
Qed.

(** X10: a successful [update_profile] refits nothing: the clusters keep
    their order, ids, percentages, confidences, representatives and style
    names (only sizes, which never shrink, and dominant attributes change),
    the feature importance and the creation time are those of the stored
    profile, and the persisted models are unchanged. *)
Theorem update_profile_keeps_fit uid new_vlt_records w p p' w' :
  existing_profile w uid = Some p ->
  update_profile uid new_vlt_records w = (Ok p', w') ->
  Forall2 same_description (clusters p) (clusters p') /\
  feature_importance p' = feature_importance p /\
  created_at p' = created_at p /\
  updated_at p' = now w /\
  model_files w' = model_files w.
Proof.
  intros Hex Hrun.
  apply update_profile_fields in Hrun
    as (p0 & labels & probs & Hex0 & Hupd & Hfi & Hc & Hu & Hm).
  rewrite Hex in Hex0. injection Hex0 as <-.
  split; [|auto].
  unfold _update_cluster_stats in Hupd.
  eapply update_clusters_from_same; eauto.
Qed.
End UpdateKeeps.

(** ** Portfolio statistics *)

Lemma total_empty : total ∅ = 0%nat.
Proof. apply map_fold_empty. Qed.

Lemma total_incr key d : total (incr key d) = S (total d).
Proof.
  unfold total, incr.
  destruct (d !! key) as [n|] eqn:Hk; simpl.
  - rewrite <- (insert_delete_eq d key (S n)).
    rewrite map_fold_insert_L; [|intros; lia|apply lookup_delete_eq].
    rewrite (map_fold_delete_L _ _ key n d); [lia|intros; lia|exact Hk].
  - rewrite map_fold_insert_L; [reflexivity|intros; lia|exact Hk].
Qed.

Lemma lookup_incr key key' d :
  default 0%nat (incr key d !! key')
  = ((if bool_decide (key = key') then 1 else 0) + default 0%nat (d !! key'))%nat.
Proof.
  unfold incr. case_bool_decide as Hk.
  - subst. rewrite lookup_insert_eq. reflexivity.
  - rewrite lookup_insert_ne by exact Hk. reflexivity.
Qed.

(** Counting records under the key [kf] gives them. *)
Lemma count_by_key (kf : vlt_record -> option string)
    (step : gmap string nat -> vlt_record -> gmap string nat) records :
  (forall d r, step d r = match kf r with Some k => incr k d | None => d end) ->
  forall d,
    total (foldl step d records)
      = (total d + length (filter (fun r => is_Some (kf r)) records))%nat /\
    forall key,
      default 0%nat (foldl step d records !! key)
      = (default 0%nat (d !! key) + occurrences kf key records)%nat.
Proof.
  intros Hstep. unfold occurrences.
  induction records as [|r records IH]; intros d; simpl.
  - split; [|intros key]; rewrite ?filter_nil; simpl; lia.
  - destruct (IH (step d r)) as [IHt IHk]. rewrite Hstep in IHt, IHk |- *.
    split.
    + rewrite IHt. destruct (kf r) as [k|] eqn:Hk.
      * rewrite total_incr, filter_cons_True by (simpl; rewrite Hk; eauto).
        simpl. lia.
      * rewrite filter_cons_False
          by (simpl; rewrite Hk; intros [? ?]; discriminate). lia.
    + intros key. rewrite IHk. destruct (kf r) as [k|] eqn:Hk.
      * rewrite lookup_incr. case_bool_decide as Hkk.
        -- subst. rewrite filter_cons_True by (simpl; rewrite Hk; reflexivity).
           simpl. lia.
        -- rewrite filter_cons_False by (simpl; rewrite Hk; congruence). lia.
      * rewrite filter_cons_False by (simpl; rewrite Hk; discriminate). lia.
Qed.

Lemma Qc_max_ub a b : (a <= Qc_max a b)%Qc /\ (b <= Qc_max a b)%Qc.
Proof.
  unfold Qc_max. destruct (Qclt_le_dec a b) as [Hlt|Hle].
  - split; [apply Qclt_le_weak, Hlt|apply Qcle_refl].
  - split; [apply Qcle_refl|exact Hle].
Qed.

Lemma Qc_max_cases a b : Qc_max a b = a \/ Qc_max a b = b.
Proof. unfold Qc_max. destruct (Qclt_le_dec a b); auto. Qed.

Lemma foldl_Qc_max x l :
  (x <= foldl Qc_max x l)%Qc /\
  Forall (fun y => (y <= foldl Qc_max x l)%Qc) l /\
  foldl Qc_max x l ∈ x :: l.
Proof.
  revert x. induction l as [|y l IH]; intros x; simpl.
  - split; [apply Qcle_refl|]. split; [constructor|apply elem_of_cons; auto].
  - destruct (IH (Qc_max x y)) as (Hx & Hall & Hin).
    destruct (Qc_max_ub x y) as [Hxm Hym].
    split; [eapply Qcle_trans; eauto|].
    split; [constructor; [eapply Qcle_trans; eauto|exact Hall]|].
    apply elem_of_cons in Hin as [Hin|Hin].
    + rewrite Hin. destruct (Qc_max_cases x y) as [Heq|Heq]; rewrite Heq.
      * apply elem_of_cons. auto.
      * apply elem_of_cons. right. apply elem_of_cons. auto.
    + apply elem_of_cons. right. apply elem_of_cons. auto.
Qed.

(** X11: in the statistics of a batch, the garment counts add up to the
    number of records (a record without [garment_type] is counted under
    "unknown"), the colour and style counts add up to the number of records
    that have a primary colour, respectively an overall style, every count
    is the number of records with that value, and
    [largest_cluster_percentage] is the largest percentage among the
    clusters. *)
Theorem compute_statistics_counts vlt_records clusters0 :
  let s := _compute_statistics vlt_records clusters0 in
  total (garment_distribution s) = length vlt_records /\
  total (color_distribution s)
    = length (filter (fun r => is_Some (color_key r)) vlt_records) /\
  total (style_distribution s)
    = length (filter (fun r => is_Some (style_key r)) vlt_records) /\
  (forall key,
      default 0%nat (garment_distribution s !! key)
        = occurrences garment_key key vlt_records /\
      default 0%nat (color_distribution s !! key)
        = occurrences color_key key vlt_records /\
      default 0%nat (style_distribution s !! key)
        = occurrences style_key key vlt_records) /\
  Forall (fun c => (cl_percentage c <= largest_cluster_percentage s)%Qc) clusters0 /\
  (clusters0 <> [] -> largest_cluster_percentage s ∈ map cl_percentage clusters0).
Proof.
  simpl.
  destruct (count_by_key garment_key
              (fun d r => incr (default "unknown" (garment_type r)) d) vlt_records
              (fun d r => eq_refl) ∅) as [Hgt Hgk].
  destruct (count_by_key color_key
              (fun d r => incr_nested (colors r) "primary" d) vlt_records) with (d := ∅ : gmap string nat)
    as [Hct Hck].
  { intros d r. unfold incr_nested, color_key. destruct (colors r) as [c|]; reflexivity. }
  destruct (count_by_key style_key
              (fun d r => incr_nested (style r) "overall" d) vlt_records) with (d := ∅ : gmap string nat)
    as [Hst Hsk].
  { intros d r. unfold incr_nested, style_key. destruct (style r) as [c|]; reflexivity. }
  rewrite total_empty in Hgt, Hct, Hst.
  split.
  { rewrite Hgt. simpl. clear.
    induction vlt_records as [|r rs IH]; [reflexivity|].
    rewrite filter_cons_True by (unfold garment_key; eauto). simpl. congruence. }
  split; [exact Hct|]. split; [exact Hst|].
  split.
  { intros key. rewrite Hgk, Hck, Hsk, lookup_empty. auto. }
  destruct clusters0 as [|c cs]; [split; [constructor|congruence]|].
  destruct (foldl_Qc_max (cl_percentage c) (map cl_percentage cs))
    as (Hc & Hall & Hin).
  split; [|intros _; exact Hin].
  constructor; [exact Hc|]. rewrite Forall_fmap in Hall. exact Hall.
Qed.

(** ** Dominant attributes *)

Lemma strip_prefix_spec p s k : strip_prefix p s = Some k <-> s = p +:+ k.
Proof.
  revert s. induction p as [|a p IH]; intros s; simpl.
  - split; [intros [= ->]; reflexivity|intros ->; reflexivity].
  - destruct s as [|b s]; [split; discriminate|].
    destruct (Ascii.eqb_spec a b) as [->|Hne].
    + rewrite IH. split; [intros ->; reflexivity|intros [= ->]; reflexivity].
    + split; [discriminate|intros [= ? ?]; congruence].
Qed.

Lemma count_of_incr v v' counts :
  count_of v (count_incr v' counts)
  = ((if bool_decide (v' = v) then 1 else 0) + count_of v counts)%nat.
Proof.
  induction counts as [|[u n] rest IH]; simpl.
  - destruct (String.eqb_spec v' v); case_bool_decide; congruence || lia.
  - destruct (String.eqb_spec u v') as [->|Hne]; simpl.
    + destruct (String.eqb_spec v' v); case_bool_decide; try congruence; lia.
    + destruct (String.eqb_spec u v) as [->|Hne2]; [|exact IH].
      case_bool_decide; [congruence|reflexivity].
Qed.

Lemma count_incr_keys v counts :
  forall u, u ∈ map fst (count_incr v counts) <-> u = v \/ u ∈ map fst counts.
Proof.
  induction counts as [|[u' n] rest IH]; intros u; simpl.
  - rewrite elem_of_cons, elem_of_nil. tauto.
  - destruct (String.eqb_spec u' v) as [->|Hne]; simpl.
    + rewrite !elem_of_cons. tauto.
    + rewrite !elem_of_cons, IH. tauto.
Qed.

Lemma count_incr_ok v counts : counter_ok counts -> counter_ok (count_incr v counts).
Proof.
  unfold counter_ok. induction counts as [|[u n] rest IH]; simpl.
  - intros _. split; repeat constructor. apply not_elem_of_nil.
  - intros [Hnd Hpos]. inversion Hnd as [|? ? Hnotin Hnd']; subst.
    inversion Hpos as [|? ? Hn Hpos']; subst.
    destruct (String.eqb_spec u v) as [->|Hne]; simpl.
    + split; [constructor; assumption|constructor; [simpl in *; lia|assumption]].
    + destruct (IH (conj Hnd' Hpos')) as [IHnd IHpos].
      split; [|constructor; assumption].
      constructor; [|exact IHnd].
      rewrite count_incr_keys. intros [->|Hin]; [congruence|contradiction].
Qed.

Lemma count_of_entry v n counts :
  counter_ok counts -> (v, n) ∈ counts -> count_of v counts = n.
Proof.
  unfold counter_ok. induction counts as [|[u m] rest IH]; simpl.
  - intros _ Hin. inversion Hin.
  - intros [Hnd Hpos] Hin. inversion Hnd as [|? ? Hnotin Hnd']; subst.
    inversion Hpos as [|? ? _ Hpos']; subst.
    apply elem_of_cons in Hin as [[= -> ->]|Hin].
    + rewrite String.eqb_refl. reflexivity.
    + destruct (String.eqb_spec u v) as [->|Hne]; [|apply IH; auto].
      exfalso. apply Hnotin. apply list_elem_of_fmap. exists (v, n). auto.
Qed.

Lemma count_of_absent v counts :
  v ∉ map fst counts -> count_of v counts = 0%nat.
Proof.
  induction counts as [|[u m] rest IH]; simpl; [reflexivity|].
  rewrite not_elem_of_cons. intros [Hne Hnotin].
  destruct (String.eqb_spec u v); [congruence|auto].
Qed.

Lemma max_by_count_spec best items :
  max_by_count best items ∈ best :: items /\
  Forall (fun it => (snd it <= snd (max_by_count best items))%nat) (best :: items).
Proof.
  revert best. induction items as [|it rest IH]; intros best; simpl.
  - split; [apply elem_of_cons; auto|repeat constructor].
  - destruct (IH (if (snd best <? snd it)%nat then it else best)) as [Hin Hall].
    inversion Hall as [|? ? Hb Hrest]; subst.
    split.
    + apply elem_of_cons in Hin as [Hin|Hin].
      * rewrite Hin. destruct (_ <? _)%nat;
          [apply elem_of_cons; right|]; apply elem_of_cons; auto.
      * apply elem_of_cons; right. apply elem_of_cons; auto.
    + destruct (Nat.ltb_spec (snd best) (snd it)); simpl in *;
        repeat constructor; auto; lia.
Qed.

Lemma most_common_spec counts it :
  most_common counts = Some it ->
  it ∈ counts /\ Forall (fun it' => (snd it' <= snd it)%nat) counts.
Proof.
  destruct counts as [|first rest]; [discriminate|].
  intros [= <-]. apply max_by_count_spec.
Qed.

Lemma bump_lookup key value attr_counts key' :
  default [] (bump key value attr_counts !! key')
  = if bool_decide (key = key')
    then count_incr value (default [] (attr_counts !! key'))
    else default [] (attr_counts !! key').
Proof.
  unfold bump. case_bool_decide as Hk.
  - subst. rewrite lookup_insert_eq. reflexivity.
  - rewrite lookup_insert_ne by exact Hk. reflexivity.
Qed.

Lemma count_all_ok counts vs : counter_ok counts -> counter_ok (count_all counts vs).
Proof.
  unfold count_all. revert counts.
  induction vs as [|v vs IH]; intros counts Hok; simpl; [exact Hok|].
  apply IH, count_incr_ok, Hok.
Qed.

Lemma count_of_all v counts vs :
  count_of v (count_all counts vs) = (count_of v counts + frequency v vs)%nat.
Proof.
  unfold count_all, frequency. revert counts.
  induction vs as [|u vs IH]; intros counts; simpl.
  - lia.
  - rewrite IH, count_of_incr. case_bool_decide as Hu.
    + subst. rewrite filter_cons_True by reflexivity. simpl. lia.
    + rewrite filter_cons_False by exact Hu. lia.
Qed.

Lemma count_of_le n v counts :
  Forall (fun it => (snd it <= n)%nat) counts -> (count_of v counts <= n)%nat.
Proof.
  induction 1 as [|[u m] rest Hm _ IH]; simpl; [lia|].
  destruct (String.eqb u v); [exact Hm|exact IH].
Qed.

Lemma count_all_app counts vs1 vs2 :
  count_all counts (vs1 ++ vs2) = count_all (count_all counts vs1) vs2.
Proof. unfold count_all. apply foldl_app. Qed.

Lemma count_all_nil_inv vs : count_all [] vs = [] -> vs = [].
Proof.
  destruct vs as [|v vs]; [reflexivity|]. intros Hnil. exfalso.
  assert (Hf := count_of_all v [] (v :: vs)). rewrite Hnil in Hf.
  unfold frequency in Hf. rewrite filter_cons_True in Hf by reflexivity.
  simpl in Hf. lia.
Qed.

Lemma fold_bump_lookup (rename : string -> string)
    (unrename : string -> option string) (m : gmap string string)
    attr_counts key' :
  (forall k key, unrename key = Some k <-> rename k = key) ->
  default []
    (map_fold (fun key value acc => bump (rename key) value acc) attr_counts m !! key')
  = count_all (default [] (attr_counts !! key'))
      match unrename key' with
      | Some k => option_list (m !! k)
      | None => []
      end.
Proof.
  intros Hinv.
  apply (map_fold_weak_ind
    (fun (r : gmap string counter) (m0 : gmap string string) =>
       default [] (r !! key')
       = count_all (default [] (attr_counts !! key'))
           match unrename key' with
           | Some k => option_list (m0 !! k)
           | None => []
           end)).
  - destruct (unrename key'); rewrite ?lookup_empty; reflexivity.
  - intros i x m0 r Hi IH. rewrite bump_lookup. case_bool_decide as Hk.
    + apply Hinv in Hk. rewrite Hk in IH |- *.
      rewrite Hi in IH. rewrite lookup_insert_eq, IH. reflexivity.
    + rewrite IH. destruct (unrename key') as [k|] eqn:Hu; [|reflexivity].
      apply Hinv in Hu. rewrite lookup_insert_ne by congruence. reflexivity.
Qed.

Lemma count_record_lookup attr_counts r key :
  default [] (count_record attr_counts r !! key)
  = count_all (default [] (attr_counts !! key)) (contributions key r).
Proof.
  unfold count_record, contributions.
  rewrite (fold_bump_lookup (fun k => "style_" +:+ k) (strip_prefix "style_"))
    by (intros k key0; rewrite strip_prefix_spec; split; congruence).
  assert (Hcolor : forall ac : gmap string counter,
    default [] (match colors_of r !! "primary" with
                | Some v => bump "color" v ac
                | None => ac
                end !! key)
    = count_all (default [] (ac !! key))
        (if String.eqb key "color" then option_list (colors_of r !! "primary") else [])).
  { intros ac. destruct (colors_of r !! "primary") as [v|].
    - rewrite bump_lookup. destruct (String.eqb_spec key "color") as [->|Hne].
      + rewrite bool_decide_eq_true_2 by reflexivity. reflexivity.
      + rewrite bool_decide_eq_false_2 by congruence. reflexivity.
    - destruct (String.eqb key "color"); reflexivity. }
  rewrite Hcolor.
  rewrite (fold_bump_lookup (fun k => k) Some)
    by (intros k key0; split; congruence).
  rewrite !count_all_app. reflexivity.
Qed.

Lemma count_records_lookup attr_counts records key :
  default [] (foldl count_record attr_counts records !! key)
  = count_all (default [] (attr_counts !! key)) (values_for key records).
Proof.
  unfold values_for. revert attr_counts.
  induction records as [|r records IH]; intros attr_counts; simpl; [reflexivity|].
  rewrite IH, count_record_lookup, count_all_app. reflexivity.
Qed.

(** X12: the entry of [_find_dominant_attributes] for an attribute name is
    a most frequent value among those the records hold for that name,
    together with its frequency; there is an entry exactly when some record
    holds a value for the name. *)
Theorem find_dominant_most_frequent records key :
  (_find_dominant_attributes records !! key = None <->
   values_for key records = []) /\
  forall v n,
    _find_dominant_attributes records !! key = Some (v, n) ->
    n = frequency v (values_for key records) /\
    (0 < n)%nat /\
    forall v', (frequency v' (values_for key records) <= n)%nat.
Proof.
  unfold _find_dominant_attributes. rewrite lookup_omap.
  pose proof (count_records_lookup ∅ records key) as Hc.
  rewrite lookup_empty in Hc. simpl in Hc.
  assert (Hok : counter_ok (count_all [] (values_for key records))).
  { apply count_all_ok. split; constructor. }
  split.
  - destruct (foldl count_record ∅ records !! key) as [c|]; simpl in *.
    + subst c. split.
      * intros Hnone. apply count_all_nil_inv.
        destruct (count_all [] (values_for key records)); [reflexivity|discriminate].
      * intros ->. reflexivity.
    + split; [intros _; apply count_all_nil_inv; congruence|reflexivity].
  - intros v n Hdom.
    destruct (foldl count_record ∅ records !! key) as [c|]; [|discriminate].
    simpl in *. subst c.
    apply most_common_spec in Hdom as [Hin Hall]. simpl in Hall.
    assert (Hn := count_of_entry v n _ Hok Hin).
    rewrite count_of_all in Hn. simpl in Hn.
    split; [congruence|]. split.
    + destruct Hok as [_ Hpos]. rewrite Forall_forall in Hpos.
      exact (Hpos _ Hin).
    + intros v'. pose proof (count_of_le n v' _ Hall) as Hle.
      rewrite count_of_all in Hle. simpl in Hle. exact Hle.
Qed.

(** ** The one-hot encoding *)

Lemma cat_add_values key value d key' :
  cat_values key' (cat_add key value d)
  = cat_values key' d ∪ (if String.eqb key key' then {[ value ]} else ∅).
Proof.
  induction d as [|[k s] d IH]; simpl.
  - destruct (String.eqb key key'); set_solver.
  - destruct (String.eqb_spec k key) as [->|Hne]; simpl.
    + destruct (String.eqb key key'); set_solver.
    + destruct (String.eqb_spec k key') as [->|Hne'].
      * destruct (String.eqb_spec key key') as [->|_]; [congruence|set_solver].
      * exact IH.
Qed.

Lemma cat_add_keys key value d :
  forall k, k ∈ map fst (cat_add key value d) <-> k = key \/ k ∈ map fst d.
Proof.
  induction d as [|[k' s] d IH]; intros k; simpl.
  - rewrite elem_of_cons, elem_of_nil. tauto.
  - destruct (String.eqb_spec k' key) as [->|Hne]; simpl.
    + rewrite !elem_of_cons. tauto.
    + rewrite !elem_of_cons, IH. tauto.
Qed.

Lemma cat_add_NoDup key value d :
  NoDup (map fst d) -> NoDup (map fst (cat_add key value d)).
Proof.
  induction d as [|[k s] d IH]; simpl.
  - intros _. repeat constructor. apply not_elem_of_nil.
  - intros Hnd. inversion Hnd as [|? ? Hnotin Hnd']; subst.
    destruct (String.eqb_spec k key) as [->|Hne]; simpl.
    + constructor; assumption.
    + constructor; [|auto]. rewrite cat_add_keys.
      intros [->|Hin]; [congruence|contradiction].
Qed.

Lemma cat_collect_values src key name d key' :
  cat_values key' (cat_collect src key name d)
  = cat_values key' d
    ∪ (if String.eqb name key' then set_of_option (src !! key) else ∅).
Proof.
  unfold cat_collect. destruct (src !! key) as [v|]; simpl.
  - apply cat_add_values.
  - destruct (String.eqb name key'); set_solver.
Qed.

Lemma cat_collect_NoDup src key name d :
  NoDup (map fst d) -> NoDup (map fst (cat_collect src key name d)).
Proof.
  unfold cat_collect. destruct (src !! key); [apply cat_add_NoDup|auto].
Qed.

Lemma cat_collect_keys src key name d k :
  k ∈ map fst (cat_collect src key name d) -> k = name \/ k ∈ map fst d.
Proof.
  unfold cat_collect. destruct (src !! key); [apply cat_add_keys|auto].
Qed.

Lemma collect_keys_values src keys d key' :
  cat_values key' (foldl (fun d key => cat_collect src key key d) d keys)
  = cat_values key' d
    ∪ (if PyStr.elem key' keys then set_of_option (src !! key') else ∅).
Proof.
  revert d. induction keys as [|key keys IH]; intros d; simpl.
  - set_solver.
  - rewrite IH, cat_collect_values. unfold PyStr.elem in *. simpl.
    rewrite (String.eqb_sym key' key).
    destruct (String.eqb_spec key key') as [->|Hne]; simpl;
      destruct (existsb _ keys); set_solver.
Qed.

Lemma collect_keys_NoDup src keys d :
  NoDup (map fst d) ->
  NoDup (map fst (foldl (fun d key => cat_collect src key key d) d keys)).
Proof.
  revert d. induction keys as [|key keys IH]; intros d Hd; simpl; [exact Hd|].
  apply IH, cat_collect_NoDup, Hd.
Qed.

Lemma collect_keys_keys src keys d k :
  k ∈ map fst (foldl (fun d key => cat_collect src key key d) d keys) ->
  PyStr.elem k keys = true \/ k ∈ map fst d.
Proof.
  revert d. induction keys as [|key keys IH]; intros d; simpl; [auto|].
  intros Hk. apply IH in Hk as [Hk|Hk].
  - left. unfold PyStr.elem in *. simpl. rewrite Hk. apply orb_true_r.
  - apply cat_collect_keys in Hk as [->|Hk]; [|auto].
    left. unfold PyStr.elem. simpl. rewrite String.eqb_refl. reflexivity.
Qed.

(** The encoder's [if]/[elif] chain compares with the field [field_of]
    names. *)
Lemma one_hot_field r key value :
  one_hot r key value = if bool_decide (field_of r key = Some value) then 1%Qc else 0%Qc.
Proof.
  unfold one_hot, field_of, indicator.
  repeat (match goal with |- context [if ?b then _ else _] =>
            lazymatch b with
            | bool_decide _ => fail
            | _ => destruct b
            end
          end); reflexivity.
Qed.

Lemma collect_record_values d r key' :
  cat_values key' (collect_record d r)
  = cat_values key' d
    ∪ (if PyStr.elem key' field_names then set_of_option (field_of r key') else ∅).
Proof.
  unfold collect_record.
  rewrite collect_keys_values, !cat_collect_values, collect_keys_values.
  unfold field_of, field_names, PyStr.elem.
  rewrite !existsb_app.
  rewrite (String.eqb_sym "primary_color" key'), (String.eqb_sym "finish" key').
  change (existsb (String.eqb key') ["primary_color"; "finish"])
    with ((key' =? "primary_color") || ((key' =? "finish") || false))%bool.
  remember (existsb (String.eqb key') attribute_keys) as a eqn:Ha.
  remember (existsb (String.eqb key') style_keys) as s eqn:Hs.
  destruct a.
  { symmetry in Ha. unfold attribute_keys in Ha. simpl in Ha.
    repeat (apply orb_prop in Ha as [Ha|Ha];
            [apply String.eqb_eq in Ha; subst key'; simpl in Hs; subst s; simpl;
             rewrite ?union_empty_r_L; reflexivity|]).
    discriminate. }
  destruct (String.eqb_spec key' "primary_color") as [->|Hpc].
  { simpl in Hs. subst s. simpl. rewrite ?union_empty_r_L. reflexivity. }
  destruct (String.eqb_spec key' "finish") as [->|Hfi].
  { simpl in Hs. subst s. simpl. rewrite ?union_empty_r_L. reflexivity. }
  destruct s; [|simpl; rewrite ?union_empty_r_L; reflexivity].
  symmetry in Hs. unfold style_keys in Hs. simpl in Hs.
  repeat (apply orb_prop in Hs as [Hs|Hs];
          [apply String.eqb_eq in Hs; subst key'; simpl;
           rewrite ?union_empty_r_L; reflexivity|]).
  discriminate.
Qed.

Lemma collect_record_NoDup d r :
  NoDup (map fst d) -> NoDup (map fst (collect_record d r)).
Proof.
  intros Hd. unfold collect_record.
  apply collect_keys_NoDup, cat_collect_NoDup, cat_collect_NoDup,
    collect_keys_NoDup, Hd.
Qed.

Lemma categorical_values_NoDup vlt_records :
  NoDup (map fst (categorical_values vlt_records)).
Proof.
  unfold categorical_values.
  assert (G : forall d, NoDup (map fst d) ->
                        NoDup (map fst (foldl collect_record d vlt_records))).
  { induction vlt_records as [|r rs IH]; intros d Hd; simpl; [exact Hd|].
    apply IH, collect_record_NoDup, Hd. }
  apply G. constructor.
Qed.

Lemma categorical_values_spec vlt_records key v :
  v ∈ cat_values key (categorical_values vlt_records) <->
  PyStr.elem key field_names = true /\
  exists r, r ∈ vlt_records /\ field_of r key = Some v.
Proof.
  unfold categorical_values.
  assert (Hstep := fun d r => collect_record_values d r key).
  remember (PyStr.elem key field_names) as b eqn:Hb. clear Hb.
  assert (G : forall d,
    v ∈ cat_values key (foldl collect_record d vlt_records) <->
    v ∈ cat_values key d \/
    (b = true /\ exists r, r ∈ vlt_records /\ field_of r key = Some v)).
  { induction vlt_records as [|r rs IH]; intros d; simpl.
    - split; [auto|]. intros [Hd|(_ & r & Hr & _)]; [exact Hd|inversion Hr].
    - rewrite IH, Hstep, elem_of_union.
      destruct b.
      + split.
        * intros [[Hd|Hr]|(_ & r' & Hr' & Hf)]; [auto| |].
          -- right. split; [reflexivity|]. exists r. split; [apply elem_of_cons; auto|].
             destruct (field_of r key) as [u|]; simpl in Hr.
             ++ apply elem_of_singleton in Hr. congruence.
             ++ apply elem_of_empty in Hr. contradiction.
          -- right. split; [reflexivity|]. exists r'.
             split; [apply elem_of_cons; auto|exact Hf].
        * intros [Hd|(_ & r' & Hr' & Hf)]; [auto|].
          apply elem_of_cons in Hr' as [->|Hr'].
          -- left. right. rewrite Hf. simpl. apply elem_of_singleton. reflexivity.
          -- right. split; [reflexivity|]. eauto.
      + split.
        * intros [[Hd|Hr]|(Hbad & _)]; [auto| |discriminate].
          apply elem_of_empty in Hr. contradiction.
        * intros [Hd|(Hbad & _)]; [auto|discriminate]. }
  rewrite G. simpl. split; [|auto].
  intros [Hd|Hr]; [apply elem_of_empty in Hd; contradiction|exact Hr].
Qed.

Lemma sorted_elem (values : gset string) v : v ∈ sorted values <-> v ∈ values.
Proof.
  unfold sorted. rewrite merge_sort_Permutation. apply elem_of_elements.
Qed.

Lemma sorted_NoDup (values : gset string) : NoDup (sorted values).
Proof.
  unfold sorted. rewrite merge_sort_Permutation. apply NoDup_elements.
Qed.

Lemma columns_elem cats key v :
  NoDup (map fst cats) ->
  (key, v) ∈ columns cats <-> v ∈ cat_values key cats.
Proof.
  unfold columns. induction cats as [|[k s] cats IH]; simpl; intros Hnd.
  - rewrite elem_of_nil, elem_of_empty. tauto.
  - inversion Hnd as [|? ? Hnotin Hnd']; subst.
    rewrite elem_of_app, list_elem_of_fmap, (IH Hnd').
    destruct (String.eqb_spec k key) as [->|Hne].
    + split.
      * intros [(u & [= <-] & Hu)|Hin]; [apply sorted_elem, Hu|].
        exfalso. apply Hnotin.
        clear -Hin. induction cats as [|[k' s'] cats IH]; simpl in *.
        -- apply elem_of_empty in Hin. contradiction.
        -- destruct (String.eqb_spec k' key) as [->|Hne];
             [apply elem_of_cons; auto|apply elem_of_cons; right; auto].
      * intros Hv. left. exists v. split; [reflexivity|apply sorted_elem, Hv].
    + split; [|auto]. intros [(u & [= Hk _] & _)|Hin]; [congruence|exact Hin].
Qed.

Lemma columns_keys cats key v :
  (key, v) ∈ columns cats -> key ∈ map fst cats.
Proof.
  unfold columns. induction cats as [|[k s] cats IH]; simpl.
  - intros Hin. inversion Hin.
  - rewrite elem_of_app, list_elem_of_fmap.
    intros [(u & [= -> _] & _)|Hin]; apply elem_of_cons; auto.
Qed.

Lemma columns_NoDup cats : NoDup (map fst cats) -> NoDup (columns cats).
Proof.
  unfold columns. induction cats as [|[k s] cats IH]; simpl; intros Hnd.
  - constructor.
  - inversion Hnd as [|? ? Hnotin Hnd']; subst.
    apply NoDup_app. split; [|split; [|auto]].
    + apply NoDup_fmap_2; [intros u1 u2 [= ->]; reflexivity|apply sorted_NoDup].
    + intros [k' v'] Hin Hin'. apply list_elem_of_fmap in Hin as (u & [= -> ->] & _).
      apply Hnotin. eapply columns_keys. exact Hin'.
Qed.

(** X13: the encoding of [_extract_features] is exact.  No column occurs
    twice; there is a column for a field name and a value exactly when some
    record of the batch has that value in that field, the field name being
    one of the twelve; and in the row of a record the entry of a column is 1
    when the record has the column's value in the column's field, and 0
    otherwise.  Hence every populated field of a record sets exactly one
    entry of its row. *)
Theorem extract_features_one_hot vlt_records :
  let cols := columns (categorical_values vlt_records) in
  NoDup cols /\
  (forall key v,
      (key, v) ∈ cols <->
      PyStr.elem key field_names = true /\
      exists r, r ∈ vlt_records /\ field_of r key = Some v) /\
  fst (_extract_features vlt_records)
  = map (fun r =>
           map (fun '(key, v) =>
                  if bool_decide (field_of r key = Some v) then 1%Qc else 0%Qc)
               cols)
        vlt_records.
Proof.
  simpl. pose proof (categorical_values_NoDup vlt_records) as Hnd.
  split; [apply columns_NoDup, Hnd|]. split.
  - intros key v. rewrite (columns_elem _ _ _ Hnd). apply categorical_values_spec.
  - apply map_ext. intros r. unfold feature_vector.
    apply map_ext. intros [key v]. apply one_hot_field.
Qed.

(** ** Style names *)

Lemma elem_in (x : string) (l : list string) : PyStr.elem x l = true -> In x l.
Proof.
  unfold PyStr.elem. intros Hx. apply existsb_exists in Hx as (y & Hy & Heq).
  apply String.eqb_eq in Heq. subst. exact Hy.
Qed.

(** X14: when none of the seven archetypes matches, the silhouette is none
    of "tailored", "structured", "fluid", "flowing" and "draped" (each of
    them triggers an archetype), so the two silhouette branches of the
    fallback ("Tailoring", "Flow") are never taken: the second part of a
    composed name is the title-cased dominant fabrication, or "Mix" when
    there is none. *)
Theorem summarize_fallback_second_part (d : dominant) :
  match_archetype d = None ->
  PyStr.elem (dominant_value d "silhouette") ["tailored"; "structured"] = false /\
  PyStr.elem (dominant_value d "silhouette") ["fluid"; "flowing"; "draped"] = false /\
  second_part d
  = (if String.eqb (dominant_value d "fabrication") "unknown" then "Mix"
     else PyStr.title (dominant_value d "fabrication")) /\
  _summarize_cluster_style d = first_part d +:+ " " +:+ second_part d.
Proof.
  intros Hnone.
  assert (Hname : _summarize_cluster_style d = first_part d +:+ " " +:+ second_part d).
  { unfold _summarize_cluster_style, summarize_with_branch. rewrite Hnone.
    reflexivity. }
  unfold match_archetype in Hnone.
  remember (dominant_value d "silhouette") as sil eqn:Hsil.
  repeat match type of Hnone with
         | (if ?b then _ else _) = None =>
             destruct b eqn:?; [discriminate Hnone|]
         end.
  repeat match goal with
         | H : (_ || _)%bool = false |- _ => apply orb_false_elim in H as [? ?]
         end.
  assert (Hts : PyStr.elem sil ["tailored"; "structured"] = false).
  { destruct (PyStr.elem sil ["tailored"; "structured"]) eqn:He; [|reflexivity].
    apply elem_in in He. simpl in He.
    destruct He as [<-|[<-|[]]];
      match goal with H : _ in_str _ = false |- _ =>
        solve [vm_compute in H; discriminate H] end. }
  assert (Hff : PyStr.elem sil ["fluid"; "flowing"; "draped"] = false).
  { destruct (PyStr.elem sil ["fluid"; "flowing"; "draped"]) eqn:He; [|reflexivity].
    apply elem_in in He. simpl in He.
    destruct He as [<-|[<-|[<-|[]]]];
      match goal with H : _ in_str _ = false |- _ =>
        solve [vm_compute in H; discriminate H] end. }
  split; [exact Hts|]. split; [exact Hff|]. split; [|exact Hname].
  unfold second_part. rewrite <- Hsil, Hts, Hff, !andb_false_r.
  destruct (String.eqb (dominant_value d "fabrication") "unknown"); reflexivity.
Qed.

Lemma to_lower_idempotent c : PyStr.to_lower (PyStr.to_lower c) = PyStr.to_lower c.
Proof. destruct c as [[] [] [] [] [] [] [] []]; reflexivity. Qed.

Lemma lower_idempotent s : PyStr.lower (PyStr.lower s) = PyStr.lower s.
Proof.
  induction s as [|c s IH]; simpl; [reflexivity|].
  rewrite to_lower_idempotent, IH. reflexivity.
Qed.

(** X15: the style name ignores letter case and counts: lower-casing the
    dominant values and replacing their counts gives the same name. *)
Theorem summarize_ignores_case (d : dominant) (recount : nat -> nat) :
  _summarize_cluster_style
    ((fun it => (PyStr.lower (fst it), recount (snd it))) <$> d)
  = _summarize_cluster_style d.
Proof.
  assert (Hv : forall k,
    dominant_value ((fun it => (PyStr.lower (fst it), recount (snd it))) <$> d) k
    = dominant_value d k).
  { intros k. unfold dominant_value. rewrite lookup_fmap.
    destruct (d !! k) as [[v n]|]; simpl; [apply lower_idempotent|reflexivity]. }
  unfold _summarize_cluster_style, summarize_with_branch, match_archetype,
    fallback_name, style_parts, first_part, second_part.
  rewrite !Hv. reflexivity.
Qed.

(** ** The HTTP endpoints *)

Lemma select_elem {A} (mask : list bool) (xs : list A) x :
  x ∈ select mask xs -> x ∈ xs.
Proof.
  revert xs. induction mask as [|b mask IH]; intros [|y xs]; simpl;
    try (intros Hx; inversion Hx; fail).
  destruct b.
  - rewrite !elem_of_cons. intros [->|Hx]; auto.
  - intros Hx. apply elem_of_cons. auto.
Qed.

Section ServiceFacts.
Context `{Sklearn}.
Variable library_message : exn -> string.

Lemma cluster_info_representatives vlt_records labels probabilities features
    cluster_id c s :
  cluster_info vlt_records labels probabilities features cluster_id = Ok c ->
  s ∈ cl_representative_records c ->
  exists i r, r ∈ vlt_records /\ s = record_label i r.
Proof.
  unfold cluster_info.
  destruct (_ <? _)%nat; [discriminate|].
  destruct (negb _); [discriminate|]. destruct (negb _); [discriminate|].
  destruct (column cluster_id probabilities); [|discriminate].
  intros [= <-]. simpl. intros Hs.
  apply find_representative_records_elem in Hs as (i & r & Hr & ->).
  exists i, r. split; [|reflexivity].
  eapply select_elem. eapply list_elem_of_lookup_2. exact Hr.
Qed.

Lemma update_profile_unknown uid new_vlt_records w :
  existing_profile w uid = None ->
  exists w',
    update_profile uid new_vlt_records w
      = (Err (ValueError ("No existing profile found for user " +:+ uid)), w') /\
    same_store w w'.
Proof.
  intros Hnone. unfold update_profile.
  erewrite bind_run by reflexivity.
  set (w0 := add_event _ w).
  assert (Hnone0 : existing_profile w0 uid = None) by exact Hnone.
  destruct (get_profile_run uid w0) as (w1 & Hget & _ & _ & _ & Hsame).
  rewrite Hnone0 in Hget. rewrite (Hsame Hnone0) in Hget.
  erewrite bind_run by exact Hget.
  eexists. split; [reflexivity|]. unfold w0. split; [|split]; reflexivity.
Qed.

(** X16: for a user without a profile the two endpoints answer
    differently: GET answers 404 "Style profile not found" and changes
    nothing, while the update endpoint answers 500 with the profiler's
    message "No existing profile found for user ..." and leaves cache and
    files as they were. *)
Theorem endpoints_unknown_user request w :
  existing_profile w (request_user_id request) = None ->
  get_style_profile library_message (request_user_id request) w
    = (inl {| status_code := 404; detail := "Style profile not found" |}, w) /\
  fst (update_style_profile library_message request w)
    = inl {| status_code := 500;
             detail := "No existing profile found for user "
                       +:+ request_user_id request |} /\
  same_store w (snd (update_style_profile library_message request w)).
Proof.
  intros Hnone. split.
  - unfold get_style_profile.
    destruct (get_profile_run (request_user_id request) w)
      as (w1 & Hget & _ & _ & _ & Hsame).
    rewrite Hget, Hnone, (Hsame Hnone). reflexivity.
  - unfold update_style_profile.
    destruct (update_profile_unknown (request_user_id request)
                (map VLTRecord_dict (request_vlt_records request))
                (add_event (Logged "INFO" ("Updating style profile for user "
                                           +:+ request_user_id request)) w))
      as (w' & Hrun & Hstore); [exact Hnone|].
    simpl. rewrite Hrun. simpl. split; [reflexivity|].
    destruct Hstore as (Hp & Hf & Hm). split; [|split]; simpl; assumption.
Qed.

(** X17: after the create endpoint has answered with a profile, the GET
    endpoint answers with the same profile and changes nothing; the profile
    counts the submitted records, and the message reports the number of
    clusters in the list. *)
Theorem create_then_get_endpoint request w response w' :
  create_style_profile library_message request w = (inr response, w') ->
  get_style_profile library_message (request_user_id request) w'
    = (inr {| success := true; response_profile := response_profile response;
              message := None |}, w') /\
  success response = true /\
  user_id (response_profile response) = request_user_id request /\
  n_records (response_profile response) = length (request_vlt_records request) /\
  message response
    = Some ("Style profile created with "
            +:+ pretty (length (clusters (response_profile response)))
            +:+ " style modes").
Proof.
  unfold create_style_profile. simpl.
  destruct (create_profile _ _ _ _) as [[e|p] w1] eqn:Hrun; [discriminate|].
  intros [= <- <-]. simpl.
  apply create_profile_ok in Hrun
    as (f & w0 & w2 & _ & _ & Huid & Hn & _ & _ & Hcache & _).
  split.
  { unfold get_style_profile, get_profile, read.
    unfold mbind, mret, M_bind, M_ret, bind, ret. rewrite Hcache. reflexivity. }
  rewrite Hn, length_map. auto.
Qed.

(** X18: in a profile created through the endpoint, every representative
    record of every cluster is the [id] of one of the submitted records
    (the request model has no [imageId], and the "record_<i>" placeholder is
    not needed). *)
Theorem endpoint_representatives_are_ids request w response w' :
  create_style_profile library_message request w = (inr response, w') ->
  forall c s,
    c ∈ clusters (response_profile response) ->
    s ∈ cl_representative_records c ->
    exists r, r ∈ request_vlt_records request /\ s = vlt_id r.
Proof.
  unfold create_style_profile. simpl.
  destruct (create_profile _ _ _ _) as [[e|p] w1] eqn:Hrun; [discriminate|].
  intros [= <- <-]. simpl. intros c s Hc Hs.
  apply create_profile_ok in Hrun as (f & w0 & w2 & _ & Han & _).
  unfold _analyze_clusters in Han.
  destruct (fit_cluster_labels f) as [|l0 labels']; [discriminate|].
  destruct (map_result _ _) as [e|cs0] eqn:Hmap; [discriminate|].
  injection Han as Han. rewrite <- Han in Hc.
  rewrite (sort_desc_perm _ cs0) in Hc.
  apply map_result_ok in Hmap.
  apply (list_elem_of_lookup_1) in Hc as (j & Hj).
  destruct (Forall2_lookup_r _ _ _ _ _ Hmap Hj) as (cid & _ & Hinfo).
  destruct (cluster_info_representatives _ _ _ _ _ _ _ Hinfo Hs)
    as (i & r & Hr & ->).
  apply list_elem_of_fmap in Hr as (r0 & -> & Hr0).
  exists r0. split; [exact Hr0|reflexivity].
Qed.
End ServiceFacts.

(** ** Missing models, feature importance *)

Section MoreFacts.
Context `{Sklearn}.

(** X19: [update_profile] for a user whose profile exists but whose models
    file is missing raises [FileNotFoundError] for that file before any
    feature extraction or library call, and writes no file. *)
Theorem update_profile_models_missing uid new_vlt_records w p :
  existing_profile w uid = Some p ->
  model_files w !! uid = None ->
  exists w',
    update_profile uid new_vlt_records w
      = (Err (FileNotFoundError (models_path uid)), w') /\
    same_files w w' /\
    profiles w' !! uid = Some p /\
    filter (fun ev => is_computation ev = true) (trace w')
    = filter (fun ev => is_computation ev = true) (trace w).
Proof.
  intros Hex Hnone. unfold update_profile.
  erewrite bind_run by reflexivity.
  set (w0 := add_event _ w).
  assert (Hex0 : existing_profile w0 uid = Some p) by exact Hex.
  destruct (get_profile_run uid w0) as (w1 & Hget & Hm & _ & _ & _).
  assert (Hfiles : same_files w0 w1) by (eapply preserves_get_profile_files; eauto).
  assert (Hcache : profiles w1 !! uid = Some p /\
                   filter (fun ev => is_computation ev = true) (trace w1)
                   = filter (fun ev => is_computation ev = true) (trace w)).
  { clear -Hget Hex0. unfold get_profile, existing_profile, read, emit, modify in *.
    unfold mbind, mret, M_bind, M_ret, bind, ret in Hget.
    destruct (profiles w0 !! uid) as [q|] eqn:Hc.
    - injection Hget as <-. split; [congruence|]. unfold w0. simpl.
      rewrite filter_app. simpl. rewrite filter_cons_False by discriminate.
      rewrite filter_nil. apply app_nil_r.
    - rewrite Hex0 in Hget. injection Hget as <-. simpl.
      split; [apply lookup_insert_eq|].
      rewrite !filter_app. simpl. rewrite !filter_cons_False by discriminate.
      rewrite !filter_nil, !app_nil_r. reflexivity. }
  rewrite Hex0 in Hget. erewrite bind_run by exact Hget.
  assert (Hload : _load_models uid w1
                  = (Err (FileNotFoundError (models_path uid)), w1)).
  { unfold _load_models. erewrite bind_run by reflexivity.
    rewrite Hm. change (model_files w0) with (model_files w). rewrite Hnone.
    reflexivity. }
  cbv beta iota. rewrite bind_unfold, Hload.
  exists w1. split; [reflexivity|]. split; [exact Hfiles|exact Hcache].
Qed.
End MoreFacts.

Lemma dict_set_keys {V} key (v : V) d :
  forall k, k ∈ map fst (dict_set key v d) <-> k = key \/ k ∈ map fst d.
Proof.
  induction d as [|[k' v'] d IH]; intros k; simpl.
  - rewrite elem_of_cons, elem_of_nil. tauto.
  - destruct (String.eqb_spec k' key) as [->|Hne]; simpl.
    + rewrite !elem_of_cons. tauto.
    + rewrite !elem_of_cons, IH. tauto.
Qed.

Lemma dict_set_NoDup {V} key (v : V) d :
  NoDup (map fst d) -> NoDup (map fst (dict_set key v d)).
Proof.
  induction d as [|[k' v'] d IH]; simpl.
  - intros _. repeat constructor. apply not_elem_of_nil.
  - intros Hnd. inversion Hnd as [|? ? Hnotin Hnd']; subst.
    destruct (String.eqb_spec k' key) as [->|Hne]; simpl.
    + constructor; assumption.
    + constructor; [|auto]. rewrite dict_set_keys.
      intros [->|Hin]; [congruence|contradiction].
Qed.

Lemma dict_set_length {V} key (v : V) d :
  (length (dict_set key v d) <= S (length d))%nat.
Proof.
  induction d as [|[k' v'] d IH]; simpl; [lia|].
  destruct (String.eqb k' key); simpl; lia.
Qed.

Lemma dict_of_items_spec {V} (items : list (string * V)) :
  NoDup (map fst (dict_of_items items)) /\
  (length (dict_of_items items) <= length items)%nat /\
  forall k, k ∈ map fst (dict_of_items items) -> k ∈ map fst items.
Proof.
  unfold dict_of_items.
  assert (G : forall d : list (string * V),
    NoDup (map fst d) ->
    NoDup (map fst (foldl (fun d '(k, v) => dict_set k v d) d items)) /\
    (length (foldl (fun d '(k, v) => dict_set k v d) d items)
     <= length d + length items)%nat /\
    forall k, k ∈ map fst (foldl (fun d '(k, v) => dict_set k v d) d items) ->
              k ∈ map fst d \/ k ∈ map fst items).
  { induction items as [|[k v] items IH]; intros d Hd; simpl.
    - split; [exact Hd|]. split; [lia|auto].
    - destruct (IH (dict_set k v d) (dict_set_NoDup k v d Hd)) as (Hnd & Hlen & Hkeys).
      split; [exact Hnd|]. split.
      + pose proof (dict_set_length k v d). lia.
      + intros k0 Hk0. apply Hkeys in Hk0 as [Hk0|Hk0].
        * apply dict_set_keys in Hk0 as [->|Hk0]; [|auto].
          right. apply elem_of_cons. auto.
        * right. apply elem_of_cons. auto. }
  destruct (G [] (NoDup_nil_2)) as (Hnd & Hlen & Hkeys).
  split; [exact Hnd|]. split; [simpl in Hlen; lia|].
  intros k Hk. apply Hkeys in Hk as [Hk|Hk]; [inversion Hk|exact Hk].
Qed.

Lemma zip_keys {A B} (l1 : list A) (l2 : list B) k :
  k ∈ map fst (zip l1 l2) -> k ∈ l1.
Proof.
  revert l2. induction l1 as [|a l1 IH]; intros [|b l2]; simpl;
    try (intros Hk; inversion Hk; fail).
  rewrite !elem_of_cons. intros [->|Hk]; eauto.
Qed.

Section ImportanceFacts.
Context `{Sklearn}.

(** X20: the feature importance [_compute_feature_importance] returns has
    at most ten entries, each for a different feature name of the batch;
    with fewer than two distinct labels it is empty and the forest is not
    fitted. *)
Theorem compute_feature_importance_top features feature_names labels w imp w' :
  _compute_feature_importance features feature_names labels w = (Ok imp, w') ->
  (length imp <= 10)%nat /\
  NoDup (map fst imp) /\
  (forall name, name ∈ map fst imp -> name ∈ feature_names) /\
  ((n_unique labels < 2)%nat -> imp = [] /\ w' = w).
Proof.
  unfold _compute_feature_importance.
  destruct (Nat.ltb_spec (n_unique labels) 2) as [Hlt|Hge].
  - intros [= <- <-]. simpl. split; [lia|]. split; [constructor|].
    split; [intros name Hn; inversion Hn|auto].
  - intros Hrun.
    inv_bind Hrun g w1 Hg. apply read_ok in Hg as [-> ->].
    inv_bind Hrun imps w2 Hc. apply call_ok in Hc as [_ ->].
    apply ret_ok in Hrun as [-> ->].
    set (importance := dict_of_items (zip feature_names imps)).
    set (top := take 10 (sort_desc _ importance)).
    destruct (dict_of_items_spec top) as (Hnd & Hlen & Hkeys).
    split.
    { etransitivity; [exact Hlen|]. unfold top. rewrite length_take. lia. }
    split; [exact Hnd|]. split; [|lia].
    intros name Hn. apply Hkeys in Hn.
    assert (Hin : name ∈ map fst importance).
    { unfold top in Hn. apply list_elem_of_fmap in Hn as (it & -> & Hit).
      apply list_elem_of_fmap. exists it. split; [reflexivity|].
      apply elem_of_take in Hit as (i & Hi & _).
      apply list_elem_of_lookup_2 in Hi.
      rewrite (sort_desc_perm _ importance) in Hi. exact Hi. }
    destruct (dict_of_items_spec (zip feature_names imps)) as (_ & _ & Hk).
    apply Hk in Hin. eapply zip_keys. exact Hin.
Qed.
End ImportanceFacts.

(** ** Examples *)

Lemma update_cluster_stats_accounting_witness :
  length [1; 5]%nat = length [Demo.gown; Demo.trench] /\
  exists updated,
    _update_cluster_stats [Samples.evening; Samples.tailoring]
      [Demo.gown; Demo.trench] [1; 5]%nat Demo.probabilities_011
      (fst (_extract_features [Demo.gown; Demo.trench]))
      (snd (_extract_features [Demo.gown; Demo.trench])) = (updated, None) /\
    Forall2 same_description [Samples.evening; Samples.tailoring] updated /\
    sum_list_with cl_size updated
    = (sum_list_with cl_size [Samples.evening; Samples.tailoring]
       + length (filter (fun l => (l < length [Samples.evening; Samples.tailoring])%nat)
                   [1; 5]%nat))%nat.
Proof.
  split; [reflexivity|].
  apply update_cluster_stats_accounting. reflexivity.
Defined.

Lemma create_profile_failure_keeps_store_witness :
  returned (fst (@create_profile Demo.sklearn "u" [] 5 Demo.after_create)) = false /\
  same_store Demo.after_create
    (snd (@create_profile Demo.sklearn "u" [] 5 Demo.after_create)).
Proof.
  assert (Hret : returned (fst (@create_profile Demo.sklearn "u" [] 5
                                  Demo.after_create)) = false)
    by (vm_compute; reflexivity).
  split; [exact Hret|].
  destruct (@create_profile Demo.sklearn "u" [] 5 Demo.after_create)
    as [[e|p] w'] eqn:Hrun; [|discriminate Hret].
  exact (@create_profile_failure_keeps_store Demo.sklearn _ _ _ _ _ _ Hrun).
Defined.

Lemma update_profile_failure_keeps_files_witness :
  returned (fst (@update_profile Demo.sklearn "u" [] Demo.after_create)) = false /\
  same_files Demo.after_create
    (snd (@update_profile Demo.sklearn "u" [] Demo.after_create)).
Proof.
  assert (Hret : returned (fst (@update_profile Demo.sklearn "u" []
                                  Demo.after_create)) = false)
    by (vm_compute; reflexivity).
  split; [exact Hret|].
  destruct (@update_profile Demo.sklearn "u" [] Demo.after_create)
    as [[e|p] w'] eqn:Hrun; [|discriminate Hret].
  exact (@update_profile_failure_keeps_files Demo.sklearn _ _ _ _ _ Hrun).
Defined.

Lemma create_then_get_profile_witness :
  exists p w',
    @create_profile Demo.sklearn "u" [Demo.blazer; Demo.gown; Demo.slip_dress] 2
      Demo.fresh = (Ok p, w') /\
    get_profile "u" w' = (Ok (Some p), w') /\
    user_id p = "u" /\
    n_records p = 3%nat /\
    n_clusters p = 2%Z /\
    profile_files w' !! "u" = Some p /\
    is_Some (model_files w' !! "u").
Proof.
  assert (Hret : returned (fst (@create_profile Demo.sklearn "u"
              [Demo.blazer; Demo.gown; Demo.slip_dress] 2 Demo.fresh)) = true)
    by (vm_compute; reflexivity).
  destruct (@create_profile Demo.sklearn "u"
              [Demo.blazer; Demo.gown; Demo.slip_dress] 2 Demo.fresh)
    as [[e|p] w'] eqn:Hrun; [discriminate Hret|].
  exists p, w'. split; [reflexivity|].
  exact (@create_then_get_profile Demo.sklearn _ _ _ _ _ _ Hrun).
Defined.

Lemma profile_survives_restart_witness :
  exists p w',
    @create_profile Demo.sklearn "u" [Demo.blazer; Demo.gown; Demo.slip_dress] 2
      Demo.later = (Ok p, w') /\
    profiles (__init__ w') = ∅ /\
    exists w2,
      get_profile "u" (__init__ w') = (Ok (Some p), w2) /\
      Loaded (profile_path "u") ∈ trace w2 /\
      profiles w2 !! "u" = Some p.
Proof.
  assert (Hret : returned (fst (@create_profile Demo.sklearn "u"
              [Demo.blazer; Demo.gown; Demo.slip_dress] 2 Demo.later)) = true)
    by (vm_compute; reflexivity).
  destruct (@create_profile Demo.sklearn "u"
              [Demo.blazer; Demo.gown; Demo.slip_dress] 2 Demo.later)
    as [[e|p] w'] eqn:Hrun; [discriminate Hret|].
  exists p, w'. split; [reflexivity|].
  exact (@profile_survives_restart Demo.sklearn _ _ _ _ _ _ Hrun).
Defined.

Lemma update_profile_keeps_fit_witness :
  exists p p' w',
    existing_profile Demo.after_create "u" = Some p /\
    @update_profile Demo.sklearn "u" [Demo.trench] Demo.after_create = (Ok p', w') /\
    Forall2 same_description (clusters p) (clusters p') /\
    feature_importance p' = feature_importance p /\
    created_at p' = created_at p /\
    updated_at p' = now Demo.after_create /\
    model_files w' = model_files Demo.after_create.
Proof.
  assert (Hsome : is_Some (existing_profile Demo.after_create "u"))
    by (vm_compute; eauto).
  assert (Hret : returned (fst (@update_profile Demo.sklearn "u" [Demo.trench]
                                  Demo.after_create)) = true)
    by (vm_compute; reflexivity).
  destruct (existing_profile Demo.after_create "u") as [p|] eqn:Hex;
    [|exfalso; destruct Hsome as [? Hsome]; discriminate Hsome].
  destruct (@update_profile Demo.sklearn "u" [Demo.trench] Demo.after_create)
    as [[e|p'] w'] eqn:Hrun; [discriminate Hret|].
  exists p, p', w'. split; [reflexivity|]. split; [reflexivity|].
  exact (@update_profile_keeps_fit Demo.sklearn _ _ _ _ _ _ Hex Hrun).
Defined.

Lemma summarize_fallback_second_part_witness :
  match_archetype ∅ = None /\
  second_part ∅ = "Mix" /\
  _summarize_cluster_style ∅ = first_part ∅ +:+ " " +:+ second_part ∅.
Proof.
  assert (Hnone : match_archetype ∅ = None) by (vm_compute; reflexivity).
  split; [exact Hnone|].
  destruct (summarize_fallback_second_part ∅ Hnone) as (_ & _ & Hsecond & Hname).
  split; [exact Hsecond|exact Hname].
Defined.

Lemma endpoints_unknown_user_witness :
  existing_profile Demo.after_create "nobody" = None /\
  get_style_profile SampleRequest.library_message "nobody" Demo.after_create
    = (inl {| status_code := 404; detail := "Style profile not found" |},
       Demo.after_create) /\
  fst (update_style_profile SampleRequest.library_message SampleRequest.for_nobody
         Demo.after_create)
    = inl {| status_code := 500;
             detail := "No existing profile found for user nobody" |} /\
  same_store Demo.after_create
    (snd (update_style_profile SampleRequest.library_message SampleRequest.for_nobody
            Demo.after_create)).
Proof.
  assert (Hnone : existing_profile Demo.after_create "nobody" = None)
    by (vm_compute; reflexivity).
  split; [exact Hnone|].
  exact (@endpoints_unknown_user Demo.sklearn SampleRequest.library_message
           SampleRequest.for_nobody Demo.after_create Hnone).
Defined.

Lemma create_then_get_endpoint_witness :
  exists response w',
    @create_style_profile Demo.sklearn SampleRequest.library_message
      SampleRequest.three_garments Demo.fresh = (inr response, w') /\
    get_style_profile SampleRequest.library_message "u" w'
      = (inr {| success := true; response_profile := response_profile response;
                message := None |}, w') /\
    success response = true /\
    user_id (response_profile response) = "u" /\
    n_records (response_profile response) = 3%nat /\
    message response
      = Some ("Style profile created with "
              +:+ pretty (length (clusters (response_profile response)))
              +:+ " style modes").
Proof.
  assert (Hret : answered (fst (@create_style_profile Demo.sklearn
              SampleRequest.library_message SampleRequest.three_garments
              Demo.fresh)) = true)
    by (vm_compute; reflexivity).
  destruct (@create_style_profile Demo.sklearn SampleRequest.library_message
              SampleRequest.three_garments Demo.fresh)
    as [[e|response] w'] eqn:Hrun; [discriminate Hret|].
  exists response, w'. split; [reflexivity|].
  exact (@create_then_get_endpoint Demo.sklearn SampleRequest.library_message
           SampleRequest.three_garments Demo.fresh response w' Hrun).
Defined.

Lemma endpoint_representatives_are_ids_witness :
  exists response w',
    @create_style_profile Demo.sklearn SampleRequest.library_message
      SampleRequest.three_garments Demo.later = (inr response, w') /\
    forall c s,
      c ∈ clusters (response_profile response) ->
      s ∈ cl_representative_records c ->
      exists r, r ∈ request_vlt_records SampleRequest.three_garments /\ s = vlt_id r.
Proof.
  assert (Hret : answered (fst (@create_style_profile Demo.sklearn
              SampleRequest.library_message SampleRequest.three_garments
              Demo.later)) = true)
    by (vm_compute; reflexivity).
  destruct (@create_style_profile Demo.sklearn SampleRequest.library_message
              SampleRequest.three_garments Demo.later)
    as [[e|response] w'] eqn:Hrun; [discriminate Hret|].
  exists response, w'. split; [reflexivity|].
  exact (@endpoint_representatives_are_ids Demo.sklearn SampleRequest.library_message
           SampleRequest.three_garments Demo.later response w' Hrun).
Defined.

Lemma update_profile_models_missing_witness :
  is_Some (existing_profile SampleRequest.models_lost "u") /\
  model_files SampleRequest.models_lost !! "u" = None /\
  fst (@update_profile Demo.sklearn "u" [Demo.trench] SampleRequest.models_lost)
    = Err (FileNotFoundError (models_path "u")).
Proof.
  assert (Hsome : is_Some (existing_profile SampleRequest.models_lost "u"))
    by (vm_compute; eauto).
  assert (Hnone : model_files SampleRequest.models_lost !! "u" = None)
    by reflexivity.
  split; [exact Hsome|]. split; [exact Hnone|].
  destruct (existing_profile SampleRequest.models_lost "u") as [p|] eqn:Hex;
    [|exfalso; destruct Hsome as [? Hsome]; discriminate Hsome].
  destruct (@update_profile_models_missing Demo.sklearn "u" [Demo.trench]
              SampleRequest.models_lost p Hex Hnone) as (w' & Hrun & _).
  rewrite Hrun. reflexivity.
Defined.

Lemma compute_feature_importance_top_witness :
  exists imp w',
    @_compute_feature_importance Demo.sklearn
      (fst (_extract_features [Demo.blazer; Demo.gown; Demo.slip_dress]))
      (snd (_extract_features [Demo.blazer; Demo.gown; Demo.slip_dress]))
      Demo.labels_011 Demo.fresh = (Ok imp, w') /\
    (length imp <= 10)%nat /\
    NoDup (map fst imp) /\
    (forall name, name ∈ map fst imp ->
       name ∈ snd (_extract_features [Demo.blazer; Demo.gown; Demo.slip_dress])) /\
    ((n_unique Demo.labels_011 < 2)%nat -> imp = [] /\ w' = Demo.fresh).
Proof.
  assert (Hret : returned (fst (@_compute_feature_importance Demo.sklearn
      (fst (_extract_features [Demo.blazer; Demo.gown; Demo.slip_dress]))
      (snd (_extract_features [Demo.blazer; Demo.gown; Demo.slip_dress]))
      Demo.labels_011 Demo.fresh)) = true)
    by (vm_compute; reflexivity).
  destruct (@_compute_feature_importance Demo.sklearn
      (fst (_extract_features [Demo.blazer; Demo.gown; Demo.slip_dress]))
      (snd (_extract_features [Demo.blazer; Demo.gown; Demo.slip_dress]))
      Demo.labels_011 Demo.fresh) as [[e|imp] w'] eqn:Hrun; [discriminate Hret|].
  exists imp, w'. split; [reflexivity|].
  exact (@compute_feature_importance_top Demo.sklearn _ _ _ _ _ _ Hrun).
Defined.
